(** * 1080p Window Resizer: the window-geometry core of [main.py]

    A shallow embedding of the Win32 helpers of [main.py] (window
    enumeration, geometry probes, the resize controller and the two
    selector callbacks that call into them) over an abstract model of
    the Win32 platform, followed by the properties of that code.

    Conventions.
    - A Python [str] is the list of its code points ([pystr]).
    - A Python [int] is a [Z]; [&] and [|] are [Z.land] and [Z.lor].
    - An exception is represented by its text [str(exc)].
    - [time.sleep] takes seconds as a float in the source; durations are
      kept here in milliseconds (0.10 s = 100, 0.15 s = 150).
    - The text handed to [log_fn] is diagnostic only and is not modelled;
      [log_fn] itself is taken not to raise. *)

From Stdlib Require Import ZArith List Bool Lia Ascii String Permutation Sorted.
Import ListNotations.

Open Scope Z_scope.

(* ------------------------------------------------------------------ *)
(** ** Python strings *)

Definition pystr := list N.

(** An ASCII literal as a [pystr]. *)
Definition str (s : string) : pystr :=
  map N_of_ascii (list_ascii_of_string s).

Definition CHECK_MARK : N := 10003%N.   (* U+2713 *)
Definition TIMES_SIGN : N := 215%N.     (* U+00D7 *)
Definition ELLIPSIS   : N := 8230%N.    (* U+2026 *)

Fixpoint str_eqb (a b : pystr) : bool :=
  match a, b with
  | [], [] => true
  | x :: a', y :: b' => N.eqb x y && str_eqb a' b'
  | _, _ => false
  end.

Fixpoint startswith (s prefix : pystr) : bool :=
  match prefix, s with
  | [], _ => true
  | p :: prefix', c :: s' => N.eqb p c && startswith s' prefix'
  | _ :: _, [] => false
  end.

(** [needle in hay] on strings: substring search. *)
Fixpoint str_in (needle hay : pystr) : bool :=
  startswith hay needle ||
  match hay with
  | [] => false
  | _ :: hay' => str_in needle hay'
  end.

(** [a < b] on strings: lexicographic on code points. *)
Fixpoint str_ltb (a b : pystr) : bool :=
  match a, b with
  | _, [] => false
  | [], _ :: _ => true
  | x :: a', y :: b' => N.ltb x y || (N.eqb x y && str_ltb a' b')
  end.

(** The code points [str.strip()] removes ([str.isspace]). *)
Definition isspace (c : N) : bool :=
  ((9 <=? c) && (c <=? 13) || (28 <=? c) && (c <=? 32)
   || (c =? 133) || (c =? 160) || (c =? 5760)
   || (8192 <=? c) && (c <=? 8202)
   || (c =? 8232) || (c =? 8233) || (c =? 8239) || (c =? 8287)
   || (c =? 12288))%N.

Fixpoint lstrip (s : pystr) : pystr :=
  match s with
  | [] => []
  | c :: s' => if isspace c then lstrip s' else s
  end.

Definition rstrip (s : pystr) : pystr := rev (lstrip (rev s)).

Definition strip (s : pystr) : pystr := rstrip (lstrip s).

(** Truth value of a string: non-empty. *)
Definition str_bool (s : pystr) : bool :=
  match s with [] => false | _ :: _ => true end.

Fixpoint uint_digits (u : Decimal.uint) : pystr :=
  match u with
  | Decimal.Nil => []
  | Decimal.D0 u' => 48%N :: uint_digits u'
  | Decimal.D1 u' => 49%N :: uint_digits u'
  | Decimal.D2 u' => 50%N :: uint_digits u'
  | Decimal.D3 u' => 51%N :: uint_digits u'
  | Decimal.D4 u' => 52%N :: uint_digits u'
  | Decimal.D5 u' => 53%N :: uint_digits u'
  | Decimal.D6 u' => 54%N :: uint_digits u'
  | Decimal.D7 u' => 55%N :: uint_digits u'
  | Decimal.D8 u' => 56%N :: uint_digits u'
  | Decimal.D9 u' => 57%N :: uint_digits u'
  end.

(** [str(n)] and [f"{n}"] for an int. *)
Definition str_of_Z (z : Z) : pystr :=
  match Z.to_int z with
  | Decimal.Pos u => uint_digits u
  | Decimal.Neg u => 45%N :: uint_digits u
  end.

(* ------------------------------------------------------------------ *)
(** ** Constants *)

Definition TARGET_W : Z := 1920.
Definition TARGET_H : Z := 1080.

(** Colours used for the status label. *)
Definition SUCCESS : pystr := str "#15803d".
Definition WARNING : pystr := str "#b45309".
Definition TEXT_PRIMARY : pystr := str "#111827".

Definition _SHELL_CLASSES : list pystr :=
  [ str "Progman"; str "WorkerW"; str "Shell_TrayWnd";
    str "Shell_SecondaryTrayWnd"; str "DV2ControlHost";
    str "Windows.UI.Core.CoreWindow" ].

Definition _DWMWA_CLOAKED : Z := 14.
Definition _DWMWA_EXTENDED_FRAME_BOUNDS : Z := 9.

(** The [win32con] values the helpers use (Win32 SDK values). *)
Module win32con.
Definition GWL_STYLE : Z := -16.
Definition GWL_EXSTYLE : Z := -20.
Definition WS_MAXIMIZE : Z := 16777216.       (* 0x01000000 *)
Definition WS_EX_TOOLWINDOW : Z := 128.       (* 0x00000080 *)
Definition WS_EX_APPWINDOW : Z := 262144.     (* 0x00040000 *)
Definition SW_RESTORE : Z := 9.
Definition HWND_TOP : Z := 0.
Definition SWP_NOMOVE : Z := 2.
Definition SWP_NOZORDER : Z := 4.
Definition SWP_NOACTIVATE : Z := 16.
Definition SWP_FRAMECHANGED : Z := 32.
Definition MONITOR_DEFAULTTONEAREST : Z := 2.
End win32con.
Import win32con.

(* ------------------------------------------------------------------ *)
(** ** The platform *)

Definition HWND := Z.
Definition exn := pystr.
Definition res (A : Type) : Type := (exn + A)%type.

Definition quad : Type := (Z * Z * Z * Z)%type.

(** The Win32 calls of [main.py].  A query reads the window table and
    either raises or returns; a command may also change the table.
    [time.sleep] is a command: asynchronous size handlers of the target
    application run while the caller sleeps.

    The two uses of [DwmGetWindowAttribute] fill a caller-supplied
    buffer that starts zeroed: the query gives the buffer's content
    after the call (still zero when the call reports failure through
    its return value, which ctypes does not turn into an exception). *)
Record Win32 (W : Type) : Type := {
  getpid : W -> Z;
  EnumWindows : W -> list HWND;
  IsWindowVisible : W -> HWND -> res bool;
  GetWindowText : W -> HWND -> res pystr;
  GetWindowThreadProcessId : W -> HWND -> res (Z * Z);
  GetClassName : W -> HWND -> res pystr;
  GetWindowLong : W -> HWND -> Z -> res Z;
  DwmGetWindowAttribute_cloaked : W -> HWND -> res Z;
  DwmGetWindowAttribute_frame : W -> HWND -> res quad;
  GetWindowRect : W -> HWND -> res quad;
  GetClientRect : W -> HWND -> res quad;
  ClientToScreen : W -> HWND -> Z * Z -> res (Z * Z);
  MonitorFromWindow : W -> HWND -> Z -> res Z;
  GetMonitorInfo : W -> Z -> res quad;
  GetDpiForWindow : W -> HWND -> res Z;
  GetProcessDpiAwareness : W -> Z -> res Z;
  ShowWindow : W -> HWND -> Z -> res unit * W;
  SetWindowPos : W -> HWND -> Z -> Z -> Z -> Z -> Z -> Z -> res unit * W;
  sleep : W -> Z -> W
}.

Arguments getpid {W}.
Arguments EnumWindows {W}.
Arguments IsWindowVisible {W}.
Arguments GetWindowText {W}.
Arguments GetWindowThreadProcessId {W}.
Arguments GetClassName {W}.
Arguments GetWindowLong {W}.
Arguments DwmGetWindowAttribute_cloaked {W}.
Arguments DwmGetWindowAttribute_frame {W}.
Arguments GetWindowRect {W}.
Arguments GetClientRect {W}.
Arguments ClientToScreen {W}.
Arguments MonitorFromWindow {W}.
Arguments GetMonitorInfo {W}.
Arguments GetDpiForWindow {W}.
Arguments GetProcessDpiAwareness {W}.
Arguments ShowWindow {W}.
Arguments SetWindowPos {W}.
Arguments sleep {W}.

(** What the program asked of the platform, in order. *)
Inductive Event : Type :=
| EvGetpid
| EvEnumWindows
| EvIsWindowVisible (hwnd : HWND)
| EvGetWindowText (hwnd : HWND)
| EvGetWindowThreadProcessId (hwnd : HWND)
| EvGetClassName (hwnd : HWND)
| EvGetWindowLong (hwnd : HWND) (index : Z)
| EvDwmGetWindowAttribute (hwnd : HWND) (attr : Z)
| EvGetWindowRect (hwnd : HWND)
| EvGetClientRect (hwnd : HWND)
| EvClientToScreen (hwnd : HWND) (pt : Z * Z)
| EvMonitorFromWindow (hwnd : HWND) (flags : Z)
| EvGetMonitorInfo (monitor : Z)
| EvGetDpiForWindow (hwnd : HWND)
| EvGetProcessDpiAwareness (process : Z)
| EvShowWindow (hwnd : HWND) (cmd : Z)
| EvSetWindowPos (hwnd : HWND) (after x y cx cy flags : Z)
| EvSleep (ms : Z)
| EvShowWarning (title message : pystr).

(** A geometry measurement is one of the rect queries. *)
Definition is_measurement (e : Event) : bool :=
  match e with
  | EvGetWindowRect _ | EvGetClientRect _ | EvClientToScreen _ _
  | EvDwmGetWindowAttribute _ _ | EvGetMonitorInfo _
  | EvMonitorFromWindow _ _ => true
  | _ => false
  end.

(* ------------------------------------------------------------------ *)
(** ** Computations: state, exceptions and the call history

    A computation runs from a platform state and gives a result or an
    exception, the state it leaves, and the calls it made, each with the
    state it was issued in. *)

Section Computations.
Context {W : Type}.

Definition History : Type := list (Event * W).

Definition M (A : Type) : Type := W -> res A * W * History.

Definition ret {A} (a : A) : M A := fun s => (inr a, s, []).

Definition raise {A} (e : exn) : M A := fun s => (inl e, s, []).

Definition bind {A B} (m : M A) (k : A -> M B) : M B :=
    fun s =>
      match m s with
      | (inl e, s1, t1) => (inl e, s1, t1)
      | (inr a, s1, t1) =>
          match k a s1 with
          | (r, s2, t2) => (r, s2, t1 ++ t2)
          end
      end.

  (** [try: m  except Exception as exc: handler exc]. *)
Definition try_except {A} (m : M A) (handler : exn -> M A) : M A :=
    fun s =>
      match m s with
      | (inl e, s1, t1) =>
          match handler e s1 with
          | (r, s2, t2) => (r, s2, t1 ++ t2)
          end
      | (inr a, s1, t1) => (inr a, s1, t1)
      end.

Definition query {A} (ev : Event) (f : W -> res A) : M A :=
    fun s => (f s, s, [(ev, s)]).

Definition command (ev : Event) (f : W -> res unit * W) : M unit :=
    fun s => (fst (f s), snd (f s), [(ev, s)]).

Definition value {A} (x : res A * W * History) : res A := fst (fst x).
Definition final {A} (x : res A * W * History) : W := snd (fst x).
Definition history {A} (x : res A * W * History) : History := snd x.
End Computations.

Arguments M : clear implicits.
Arguments History : clear implicits.

Declare Scope m_scope.
Delimit Scope m_scope with m.
Notation "x <- m ;; k" := (bind m (fun x => k))
  (at level 61, m at next level, right associativity) : m_scope.
Notation "' pat <- m ;; k" := (bind m (fun x => match x with pat => k end))
  (at level 61, pat pattern, m at next level, right associativity) : m_scope.
Notation "m ;; k" := (bind m (fun _ => k))
  (at level 61, right associativity) : m_scope.
Open Scope m_scope.

(* ------------------------------------------------------------------ *)
(** ** The helpers of [main.py] *)

(** [sorted(l, key=key)]: stable, comparing keys with [<]. *)
Section SortedBy.
Context {A : Type} (key : A -> pystr).

Fixpoint insert_by (x : A) (l : list A) : list A :=
    match l with
    | [] => [x]
    | y :: l' =>
        if str_ltb (key y) (key x) then y :: insert_by x l'
        else x :: y :: l'
    end.

  (** Elements are inserted from the last to the first, each before the
      first element whose key is not smaller: equal keys keep the order
      they had in the input. *)
Definition sorted (l : list A) : list A := fold_right insert_by [] l.
End SortedBy.

Section Helpers.
Context {W : Type} (os : Win32 W).

  (** [str.lower]: Unicode case mapping, not reproduced here. *)
Variable lower : pystr -> pystr.

  (** *** Window enumerator *)

Definition _is_real_app_window (hwnd : HWND) (own_pid : Z) : M W bool :=
    visible <- query (EvIsWindowVisible hwnd) (fun s => IsWindowVisible os s hwnd) ;;
    if negb visible then ret false else
    title <- query (EvGetWindowText hwnd) (fun s => GetWindowText os s hwnd) ;;
    if negb (str_bool (strip title)) then ret false else
    '(_, pid) <- query (EvGetWindowThreadProcessId hwnd)
                       (fun s => GetWindowThreadProcessId os s hwnd) ;;
    if pid =? own_pid then ret false else
    cls <- query (EvGetClassName hwnd) (fun s => GetClassName os s hwnd) ;;
    if existsb (str_eqb cls) _SHELL_CLASSES then ret false else
    exstyle <- query (EvGetWindowLong hwnd GWL_EXSTYLE)
                     (fun s => GetWindowLong os s hwnd GWL_EXSTYLE) ;;
    if negb (Z.land exstyle WS_EX_TOOLWINDOW =? 0)
       && (Z.land exstyle WS_EX_APPWINDOW =? 0)
    then ret false else
    cloaked <- try_except
                 (query (EvDwmGetWindowAttribute hwnd _DWMWA_CLOAKED)
                        (fun s => DwmGetWindowAttribute_cloaked os s hwnd))
                 (fun _ => ret 0) ;;
    if negb (cloaked =? 0) then ret false else
    ret true.

  (** The callback [_cb] over the windows [EnumWindows] visits. *)
Fixpoint _enum_cb (hwnds : list HWND) (own_pid : Z)
                    (results : list (HWND * pystr)) : M W (list (HWND * pystr)) :=
    match hwnds with
    | [] => ret results
    | hwnd :: rest =>
        keep <- _is_real_app_window hwnd own_pid ;;
        if keep then
          title <- query (EvGetWindowText hwnd) (fun s => GetWindowText os s hwnd) ;;
          _enum_cb rest own_pid (results ++ [(hwnd, title)])
        else _enum_cb rest own_pid results
    end.

Definition _enum_windows : M W (list (HWND * pystr)) :=
  own_pid <- query EvGetpid (fun s => inr (getpid os s)) ;;
  hwnds <- query EvEnumWindows (fun s => inr (EnumWindows os s)) ;;
  results <- _enum_cb hwnds own_pid [] ;;
  ret (sorted (fun x => lower (snd x)) results).

  (** *** Geometry probes *)

Definition _get_window_rect (hwnd : HWND) : M W quad :=
    try_except
      ('(l, t, r, b) <- query (EvGetWindowRect hwnd) (fun s => GetWindowRect os s hwnd) ;;
       ret (l, t, r - l, b - t))
      (fun _ => ret (0, 0, 0, 0)).

Definition _get_visible_rect (hwnd : HWND) : M W quad :=
    try_except
      ('(rc_left, rc_top, rc_right, rc_bottom) <-
          query (EvDwmGetWindowAttribute hwnd _DWMWA_EXTENDED_FRAME_BOUNDS)
                (fun s => DwmGetWindowAttribute_frame os s hwnd) ;;
       ret (rc_left, rc_top, rc_right - rc_left, rc_bottom - rc_top))
      (fun _ => _get_window_rect hwnd).

Definition _get_shadow_margins (hwnd : HWND) : M W quad :=
    try_except
      ('(ol, ot, or_, ob) <- query (EvGetWindowRect hwnd) (fun s => GetWindowRect os s hwnd) ;;
       '(rc_left, rc_top, rc_right, rc_bottom) <-
          query (EvDwmGetWindowAttribute hwnd _DWMWA_EXTENDED_FRAME_BOUNDS)
                (fun s => DwmGetWindowAttribute_frame os s hwnd) ;;
       ret (rc_left - ol, rc_top - ot, or_ - rc_right, ob - rc_bottom))
      (fun _ => ret (0, 0, 0, 0)).

Definition _get_nonclient_margins (hwnd : HWND) : M W quad :=
    try_except
      ('(vx, vy, vw, vh) <- _get_visible_rect hwnd ;;
       '(cl, ct, cr, cb) <- query (EvGetClientRect hwnd) (fun s => GetClientRect os s hwnd) ;;
       '(cx0, cy0) <- query (EvClientToScreen hwnd (cl, ct))
                            (fun s => ClientToScreen os s hwnd (cl, ct)) ;;
       '(cx1, cy1) <- query (EvClientToScreen hwnd (cr, cb))
                            (fun s => ClientToScreen os s hwnd (cr, cb)) ;;
       ret (Z.max 0 (cx0 - vx),
            Z.max 0 (cy0 - vy),
            Z.max 0 ((vx + vw) - cx1),
            Z.max 0 ((vy + vh) - cy1)))
      (fun _ => ret (0, 0, 0, 0)).

Definition _get_monitor_top_left (hwnd : HWND) : M W (Z * Z) :=
    try_except
      (monitor <- query (EvMonitorFromWindow hwnd MONITOR_DEFAULTTONEAREST)
                        (fun s => MonitorFromWindow os s hwnd MONITOR_DEFAULTTONEAREST) ;;
       '(ml, mt, _, _) <- query (EvGetMonitorInfo monitor)
                                (fun s => GetMonitorInfo os s monitor) ;;
       ret (ml, mt))
      (fun _ => ret (0, 0)).

Definition _dpi_awareness_str : M W pystr :=
    try_except
      (v <- query (EvGetProcessDpiAwareness 0)
                  (fun s => GetProcessDpiAwareness os s 0) ;;
       ret (if v =? 0 then str "UNAWARE"
            else if v =? 1 then str "SYSTEM"
            else if v =? 2 then str "PER_MONITOR"
            else str_of_Z v))
      (fun _ => ret (str "unknown")).

Definition _window_dpi (hwnd : HWND) : M W Z :=
    try_except
      (query (EvGetDpiForWindow hwnd) (fun s => GetDpiForWindow os s hwnd))
      (fun _ => ret (-1)).

Definition _get_client_size (hwnd : HWND) : M W (Z * Z) :=
    '(ncl, nct, ncr, ncb) <- _get_nonclient_margins hwnd ;;
    '(_, _, vw, vh) <- _get_visible_rect hwnd ;;
    ret (vw - ncl - ncr, vh - nct - ncb).

Definition _client_wh (hwnd : HWND) : M W (Z * Z) :=
    '(cl, ct, cr, cb) <- query (EvGetClientRect hwnd) (fun s => GetClientRect os s hwnd) ;;
    ret (cr - cl, cb - ct).
(** *** Resize controller *)

Definition time_sleep (ms : Z) : M W unit :=
  command (EvSleep ms) (fun s => (inr tt, sleep os s ms)).

Definition msg_success : pystr :=
  str "Client area " ++ str_of_Z TARGET_W ++ [TIMES_SIGN] ++ str_of_Z TARGET_H
  ++ str " " ++ [CHECK_MARK].

Definition msg_attempted (fw fh : Z) : pystr :=
  str "Attempted - client " ++ str_of_Z fw ++ [TIMES_SIGN] ++ str_of_Z fh
  ++ str " (window may have constraints)".

Definition msg_error (exc : exn) : pystr := str "Error: " ++ exc.

Definition _resize_window (hwnd : HWND) (move_to_origin : bool) : M W pystr :=
  try_except
    (title <- query (EvGetWindowText hwnd) (fun s => GetWindowText os s hwnd) ;;
     win_dpi <- _window_dpi hwnd ;;
     proc_dpi <- _dpi_awareness_str ;;
     style <- query (EvGetWindowLong hwnd GWL_STYLE)
                    (fun s => GetWindowLong os s hwnd GWL_STYLE) ;;
     let is_max := negb (Z.land style WS_MAXIMIZE =? 0) in
     command (EvShowWindow hwnd SW_RESTORE) (fun s => ShowWindow os s hwnd SW_RESTORE) ;;
     (if is_max then time_sleep 100 else ret tt) ;;
     '(lx, ly, lw, lh) <- _get_window_rect hwnd ;;
     '(vx, vy, vw, vh) <- _get_visible_rect hwnd ;;
     '(sl, st, sr, sb) <- _get_shadow_margins hwnd ;;
     '(ncl, nct, ncr, ncb) <- _get_nonclient_margins hwnd ;;
     '(cw, ch) <- _client_wh hwnd ;;
     let adj_w := lw + (TARGET_W - cw) in
     let adj_h := lh + (TARGET_H - ch) in
     let flags := Z.lor (Z.lor SWP_NOZORDER SWP_NOACTIVATE) SWP_FRAMECHANGED in
     '(x, y, flags) <-
        (if move_to_origin then
           '(mx, my) <- _get_monitor_top_left hwnd ;;
           ret (mx - sl, my - st, flags)
         else ret (0, 0, Z.lor flags SWP_NOMOVE)) ;;
     command (EvSetWindowPos hwnd HWND_TOP x y adj_w adj_h flags)
             (fun s => SetWindowPos os s hwnd HWND_TOP x y adj_w adj_h flags) ;;
     time_sleep 150 ;;
     '(fw, fh) <- _client_wh hwnd ;;
     '(fw, fh) <-
        (if negb (fw =? TARGET_W) || negb (fh =? TARGET_H) then
           '(_, _, lw2, lh2) <- _get_window_rect hwnd ;;
           let adj_w2 := lw2 + (TARGET_W - fw) in
           let adj_h2 := lh2 + (TARGET_H - fh) in
           command (EvSetWindowPos hwnd HWND_TOP x y adj_w2 adj_h2 flags)
                   (fun s => SetWindowPos os s hwnd HWND_TOP x y adj_w2 adj_h2 flags) ;;
           time_sleep 150 ;;
           _client_wh hwnd
         else ret (fw, fh)) ;;
     '(_, _, fvw, fvh) <- _get_visible_rect hwnd ;;
     if (fw =? TARGET_W) && (fh =? TARGET_H)
     then ret msg_success
     else ret (msg_attempted fw fh))
    (fun exc => ret (msg_error exc)).

(** *** Selector callbacks

    The widgets the two callbacks write to. *)
Record Ui : Type := {
  size_var : pystr;
  status_var : pystr;
  status_lbl_fg : pystr;
  resize_btn_enabled : bool
}.

Fixpoint join (sep : pystr) (parts : list pystr) : pystr :=
  match parts with
  | [] => []
  | [p] => p
  | p :: rest => p ++ sep ++ join sep rest
  end.

(** [hwnds] is [self._selected_hwnds()]. *)
Definition _on_select (hwnds : list HWND) (ui : Ui) : M W Ui :=
  match hwnds with
  | [] =>
      ret {| size_var := str "- select a window -";
             status_var := status_var ui;
             status_lbl_fg := status_lbl_fg ui;
             resize_btn_enabled := false |}
  | hwnd :: others =>
      if (1 <? Z.of_nat (List.length hwnds)) then
        ret {| size_var := str_of_Z (Z.of_nat (List.length hwnds)) ++ str " windows selected";
               status_var := status_var ui;
               status_lbl_fg := TEXT_PRIMARY;
               resize_btn_enabled := true |}
      else
        '(w, h) <- _get_client_size hwnd ;;
        '(ncl, nct, ncr, ncb) <- _get_nonclient_margins hwnd ;;
        let color := if (w =? TARGET_W) && (h =? TARGET_H) then SUCCESS else WARNING in
        let parts := [] in
        let parts := if negb (nct =? 0)
                     then parts ++ [str "titlebar " ++ str_of_Z nct ++ str "px"]
                     else parts in
        let border := Z.max (Z.max ncl ncr) ncb in
        let parts := if negb (border =? 0)
                     then parts ++ [str "border " ++ str_of_Z border ++ str "px"]
                     else parts in
        let note := match parts with
                    | [] => []
                    | _ => str "  (" ++ join (str ", ") parts ++ str ")"
                    end in
        ret {| size_var := str_of_Z w ++ str " " ++ [TIMES_SIGN] ++ str " "
                           ++ str_of_Z h ++ note;
               status_var := status_var ui;
               status_lbl_fg := color;
               resize_btn_enabled := true |}
  end.

(** [[_resize_window(hwnd, move, log) for hwnd in hwnds]]. *)
Fixpoint resize_each (hwnds : list HWND) (move : bool) : M W (list pystr) :=
  match hwnds with
  | [] => ret []
  | hwnd :: rest =>
      r <- _resize_window hwnd move ;;
      rs <- resize_each rest move ;;
      ret (r :: rs)
  end.

(** [sum(1 for r in results if "✓" in r)]. *)
Definition count_ok (results : list pystr) : Z :=
  Z.of_nat (List.length (filter (str_in [CHECK_MARK]) results)).

Definition batch_msg (results : list pystr) : pystr :=
  match results with
  | [r] => r
  | _ =>
      let ok := count_ok results in
      let n := Z.of_nat (List.length results) in
      if ok =? n
      then str_of_Z ok ++ str "/" ++ str_of_Z n ++ str " windows resized " ++ [CHECK_MARK]
      else str_of_Z ok ++ str "/" ++ str_of_Z n ++ str " succeeded"
  end.

(** [hwnds] is [self._selected_hwnds()], [move] is [self._move_var.get()]. *)
Definition _do_resize (hwnds : list HWND) (move : bool) (ui : Ui) : M W Ui :=
  match hwnds with
  | [] =>
      query (EvShowWarning (str "No selection") (str "Please select a window first."))
            (fun _ => inr tt) ;;
      ret ui
  | _ =>
      results <- resize_each hwnds move ;;
      let msg := batch_msg results in
      let ui := {| size_var := size_var ui;
                   status_var := msg;
                   status_lbl_fg := if str_in [CHECK_MARK] msg then SUCCESS else WARNING;
                   resize_btn_enabled := resize_btn_enabled ui |} in
      _on_select hwnds ui
  end.
End Helpers.

(* ------------------------------------------------------------------ *)
(** ** A desktop: one concrete platform

    A table of top-level windows.  Each window carries its geometry,
    the geometry a restore gives it and the way its application answers
    a size request, so that applications that honour a request or clamp
    it can be written down.  Nothing changes while the caller sleeps. *)

Module Desktop.

Record Geometry : Type := {
  g_outer : quad;              (* GetWindowRect: left, top, right, bottom *)
  g_frame : res quad;          (* extended frame bounds buffer, or the call raises *)
  g_client : Z * Z;            (* client width and height *)
  g_client_origin : Z * Z;     (* screen position of client (0, 0) *)
  g_style : Z
}.

(** How the application answers a size request. *)
Inductive Behaviour : Type :=
| Honours                     (* takes the size it is asked for *)
| CapsWidth (cap : Z)         (* keeps its client area at most [cap] wide *)
| ShadowOnResize (cap : Z).   (* as [CapsWidth]; its drop shadow appears
                                 with the first resize *)

Record Window : Type := {
  w_hwnd : HWND;
  w_visible : bool;
  w_title : pystr;
  w_pid : Z;
  w_class : pystr;
  w_exstyle : Z;
  w_cloaked : res Z;
  w_dpi : res Z;
  w_hmonitor : Z;
  w_geom : Geometry;
  w_restored : option Geometry;   (* the geometry a restore gives, if it changes it *)
  w_behaviour : Behaviour
}.

Record State : Type := {
  pid : Z;
  monitors : list (Z * quad);
  windows : list Window
}.

Definition invalid_handle : exn := str "Invalid window handle.".

Fixpoint find_window (ws : list Window) (hwnd : HWND) : option Window :=
  match ws with
  | [] => None
  | w :: ws' => if w_hwnd w =? hwnd then Some w else find_window ws' hwnd
  end.

Definition with_window {A} (s : State) (hwnd : HWND) (f : Window -> res A) : res A :=
  match find_window (windows s) hwnd with
  | Some w => f w
  | None => inl invalid_handle
  end.

Definition set_geom (w : Window) (g : Geometry) : Window :=
  {| w_hwnd := w_hwnd w; w_visible := w_visible w; w_title := w_title w;
     w_pid := w_pid w; w_class := w_class w; w_exstyle := w_exstyle w;
     w_cloaked := w_cloaked w; w_dpi := w_dpi w; w_hmonitor := w_hmonitor w;
     w_geom := g;
     w_restored := w_restored w; w_behaviour := w_behaviour w |}.

Fixpoint update_window (ws : list Window) (hwnd : HWND)
                       (f : Window -> Geometry) : list Window :=
  match ws with
  | [] => []
  | w :: ws' =>
      if w_hwnd w =? hwnd then set_geom w (f w) :: ws'
      else w :: update_window ws' hwnd f
  end.

Definition update (s : State) (hwnd : HWND) (f : Window -> Geometry) : State :=
  {| pid := pid s; monitors := monitors s;
     windows := update_window (windows s) hwnd f |}.

Fixpoint find_monitor (ms : list (Z * quad)) (m : Z) : res quad :=
  match ms with
  | [] => inl (str "Invalid monitor handle.")
  | (m', rc) :: ms' => if m' =? m then inr rc else find_monitor ms' m
  end.

(** *** Application behaviours *)

Definition shift (dx dy : Z) (rc : quad) : quad :=
  match rc with (l, t, r, b) => (l + dx, t + dy, r + dx, b + dy) end.

(** The window takes the requested position (unless [SWP_NOMOVE]) and
    an outer size whose client part is [policy] of the client size the
    request asks for; its margins stay as they are. *)
Definition resize_with (policy : Z * Z -> Z * Z)
                       (g : Geometry) (req : Z * Z * Z * Z * Z) : Geometry :=
  match req, g_outer g with
  | (x, y, cx, cy, flags), (l, t, r, b) =>
      let '(cw, ch) := g_client g in
      let '(cw', ch') := policy (cw + (cx - (r - l)), ch + (cy - (b - t))) in
      let '(x', y') :=
        if Z.land flags win32con.SWP_NOMOVE =? 0 then (x, y) else (l, t) in
      let dx := x' - l in
      let dy := y' - t in
      let dw := cw' - cw in
      let dh := ch' - ch in
      {| g_outer := (x', y', r + dx + dw, b + dy + dh);
         g_frame := match g_frame g with
                    | inr (fl, ft, fr, fb) =>
                        inr (fl + dx, ft + dy, fr + dx + dw, fb + dy + dh)
                    | inl e => inl e
                    end;
         g_client := (cw', ch');
         g_client_origin := (fst (g_client_origin g) + dx,
                             snd (g_client_origin g) + dy);
         g_style := g_style g |}
  end.

Definition honours_requests : Geometry -> Z * Z * Z * Z * Z -> Geometry :=
  resize_with (fun wh => wh).

(** An application that never lets its client area grow wider than [cap]. *)
Definition caps_width (cap : Z) : Geometry -> Z * Z * Z * Z * Z -> Geometry :=
  resize_with (fun wh => (Z.min cap (fst wh), snd wh)).

(** A 7 pixel drop shadow left, right and below. *)
Definition with_shadow (g : Geometry) : Geometry :=
  match g_outer g with
  | (l, t, r, b) =>
      {| g_outer := g_outer g;
         g_frame := inr (l + 7, t, r - 7, b - 7);
         g_client := g_client g;
         g_client_origin := g_client_origin g;
         g_style := g_style g |}
  end.

Definition on_setpos (w : Window) (req : Z * Z * Z * Z * Z) : Geometry :=
  match w_behaviour w with
  | Honours => honours_requests (w_geom w) req
  | CapsWidth cap => caps_width cap (w_geom w) req
  | ShadowOnResize cap => with_shadow (caps_width cap (w_geom w) req)
  end.

Definition on_restore (w : Window) : Geometry :=
  match w_restored w with
  | Some g => g
  | None => w_geom w
  end.


Definition os : Win32 State := {|
  getpid := pid;
  EnumWindows := fun s => map w_hwnd (windows s);
  IsWindowVisible := fun s hwnd =>
    match find_window (windows s) hwnd with
    | Some w => inr (w_visible w)
    | None => inr false
    end;
  GetWindowText := fun s hwnd =>
    match find_window (windows s) hwnd with
    | Some w => inr (w_title w)
    | None => inr []
    end;
  GetWindowThreadProcessId := fun s hwnd =>
    with_window s hwnd (fun w => inr (0, w_pid w));
  GetClassName := fun s hwnd =>
    with_window s hwnd (fun w => inr (w_class w));
  GetWindowLong := fun s hwnd index =>
    with_window s hwnd (fun w =>
      if index =? win32con.GWL_STYLE then inr (g_style (w_geom w))
      else if index =? win32con.GWL_EXSTYLE then inr (w_exstyle w)
      else inr 0);
  DwmGetWindowAttribute_cloaked := fun s hwnd =>
    match find_window (windows s) hwnd with
    | Some w => w_cloaked w
    | None => inr 0
    end;
  DwmGetWindowAttribute_frame := fun s hwnd =>
    match find_window (windows s) hwnd with
    | Some w => g_frame (w_geom w)
    | None => inr (0, 0, 0, 0)
    end;
  GetWindowRect := fun s hwnd =>
    with_window s hwnd (fun w => inr (g_outer (w_geom w)));
  GetClientRect := fun s hwnd =>
    with_window s hwnd (fun w =>
      inr (0, 0, fst (g_client (w_geom w)), snd (g_client (w_geom w))));
  ClientToScreen := fun s hwnd pt =>
    with_window s hwnd (fun w =>
      inr (fst (g_client_origin (w_geom w)) + fst pt,
           snd (g_client_origin (w_geom w)) + snd pt));
  MonitorFromWindow := fun s hwnd flags =>
    with_window s hwnd (fun w => inr (w_hmonitor w));
  GetMonitorInfo := fun s m => find_monitor (monitors s) m;
  GetDpiForWindow := fun s hwnd =>
    match find_window (windows s) hwnd with
    | Some w => w_dpi w
    | None => inr 0
    end;
  GetProcessDpiAwareness := fun s p => inr 0;
  ShowWindow := fun s hwnd cmd =>
    (inr tt,
     if cmd =? win32con.SW_RESTORE
     then update s hwnd on_restore
     else s);
  SetWindowPos := fun s hwnd after x y cx cy flags =>
    match find_window (windows s) hwnd with
    | Some _ =>
        (inr tt, update s hwnd (fun w => on_setpos w (x, y, cx, cy, flags)))
    | None => (inl invalid_handle, s)
    end;
  sleep := fun s ms => s
|}.

(** A window with the usual chrome: an 8 pixel invisible border left,
    right and below, and a 31 pixel title bar. *)
Definition standard_geometry (l t cw ch : Z) : Geometry :=
  {| g_outer := (l, t, l + cw + 16, t + ch + 39);
     g_frame := inr (l + 7, t, l + cw + 9, t + ch + 32);
     g_client := (cw, ch);
     g_client_origin := (l + 8, t + 31);
     g_style := 0 |}.

Definition app_window (hwnd : HWND) (title : string) (g : Geometry)
    (behaviour : Behaviour) : Window :=
  {| w_hwnd := hwnd; w_visible := true; w_title := str title; w_pid := 4000 + hwnd;
     w_class := str "AppWindow"; w_exstyle := 0; w_cloaked := inr 0;
     w_dpi := inr 96; w_hmonitor := 1; w_geom := g;
     w_restored := None; w_behaviour := behaviour |}.

Definition one_monitor : list (Z * quad) := [(1, (0, 0, 2560, 1440))].

End Desktop.

(* ------------------------------------------------------------------ *)
(** ** Notions used to state the properties *)

Definition is_command (e : Event) : bool :=
  match e with
  | EvShowWindow _ _ | EvSetWindowPos _ _ _ _ _ _ _ | EvSleep _ => true
  | _ => false
  end.

Definition is_setpos (e : Event) : bool :=
  match e with
  | EvSetWindowPos _ _ _ _ _ _ _ => true
  | _ => false
  end.

(** The two DPI queries, which only feed the log. *)
Definition is_dpi (e : Event) : bool :=
  match e with
  | EvGetDpiForWindow _ | EvGetProcessDpiAwareness _ => true
  | _ => false
  end.

(** A geometry measurement of the window [h] or of its monitor. *)
Definition measures (h : HWND) (e : Event) : bool :=
  match e with
  | EvGetWindowRect h' | EvGetClientRect h' | EvClientToScreen h' _
  | EvDwmGetWindowAttribute h' _ | EvMonitorFromWindow h' _ => h' =? h
  | EvGetMonitorInfo _ => true
  | _ => false
  end.

(** The calls the resize controller makes itself, outside any probe. *)
Definition is_direct (e : Event) : bool :=
  match e with
  | EvGetWindowText _ | EvGetWindowLong _ _ | EvShowWindow _ _
  | EvGetClientRect _ | EvSetWindowPos _ _ _ _ _ _ _ => true
  | _ => false
  end.

Definition has_check (s : pystr) : bool := existsb (N.eqb CHECK_MARK) s.

Definition raised {A} (r : res A) : option exn :=
  match r with inl e => Some e | inr _ => None end.

Section Notions.
Context {W : Type} (os : Win32 W).

Definition setpos_events (t : History W) : History W :=
  filter (fun x => is_setpos (fst x)) t.

Definition commands (t : History W) : History W :=
  filter (fun x => is_command (fst x)) t.

(** A history all of whose calls are queries of kind [P] in state [s]. *)
Definition reads (P : Event -> bool) (s : W) (t : History W) : Prop :=
  Forall (fun x => snd x = s /\ P (fst x) = true) t.

(** A read-only computation: it returns, leaves the state alone and
    only asks questions of kind [P]. *)
Definition probe {A} (P : Event -> bool) (m : M W A) : Prop :=
  forall s, exists a t, m s = (inr a, s, t) /\ reads P s t.

(** The exception, if any, with which the call [fst x] answers in the
    state [snd x] it was issued in. *)
Definition failure (x : Event * W) : option exn :=
  let s := snd x in
  match fst x with
  | EvGetpid | EvEnumWindows | EvSleep _ | EvShowWarning _ _ => None
  | EvIsWindowVisible h => raised (IsWindowVisible os s h)
  | EvGetWindowText h => raised (GetWindowText os s h)
  | EvGetWindowThreadProcessId h => raised (GetWindowThreadProcessId os s h)
  | EvGetClassName h => raised (GetClassName os s h)
  | EvGetWindowLong h i => raised (GetWindowLong os s h i)
  | EvDwmGetWindowAttribute h a =>
      if a =? _DWMWA_CLOAKED then raised (DwmGetWindowAttribute_cloaked os s h)
      else raised (DwmGetWindowAttribute_frame os s h)
  | EvGetWindowRect h => raised (GetWindowRect os s h)
  | EvGetClientRect h => raised (GetClientRect os s h)
  | EvClientToScreen h pt => raised (ClientToScreen os s h pt)
  | EvMonitorFromWindow h fl => raised (MonitorFromWindow os s h fl)
  | EvGetMonitorInfo m => raised (GetMonitorInfo os s m)
  | EvGetDpiForWindow h => raised (GetDpiForWindow os s h)
  | EvGetProcessDpiAwareness p => raised (GetProcessDpiAwareness os s p)
  | EvShowWindow h c => raised (fst (ShowWindow os s h c))
  | EvSetWindowPos h a x y cx cy fl =>
      raised (fst (SetWindowPos os s h a x y cx cy fl))
  end.

(** The state a size request leaves once the settling pause is over. *)
Definition settled (x : Event * W) : W :=
  match fst x with
  | EvSetWindowPos h a px py cx cy fl =>
      sleep os (snd (SetWindowPos os (snd x) h a px py cx cy fl)) 150
  | _ => snd x
  end.

(** What the probes report in a state. *)
Definition client_is (s : W) (h : HWND) (wh : Z * Z) : Prop :=
  value (_client_wh os h s) = inr wh.

Definition outer_is (s : W) (h : HWND) (q : quad) : Prop :=
  value (_get_window_rect os h s) = inr q.

Definition shadow_is (s : W) (h : HWND) (q : quad) : Prop :=
  value (_get_shadow_margins os h s) = inr q.

Definition monitor_is (s : W) (h : HWND) (p : Z * Z) : Prop :=
  value (_get_monitor_top_left os h s) = inr p.

Definition hit (wh : Z * Z) : bool :=
  (fst wh =? TARGET_W) && (snd wh =? TARGET_H).

(** The call [fst x], if it is one the controller makes itself, answered. *)
Definition no_direct_failure (x : Event * W) : Prop :=
  is_direct (fst x) = true -> failure x = None.

(** The three results of [_resize_window] and what each one says about
    the run that produced it: [s'] is the state the run leaves, [t] its
    history. *)
Inductive Outcome (h : HWND) (s' : W) (t : History W) : pystr -> Prop :=
| OutSuccess :
    client_is s' h (TARGET_W, TARGET_H) ->
    Forall no_direct_failure t ->
    Outcome h s' t msg_success
| OutAttempted fw fh :
    client_is s' h (fw, fh) -> hit (fw, fh) = false ->
    Forall no_direct_failure t ->
    Outcome h s' t (msg_attempted fw fh)
| OutError e t' x :
    t = t' ++ [x] -> is_direct (fst x) = true -> failure x = Some e ->
    Outcome h s' t (msg_error e).

(** The delta formula, read in the state a request is issued in. *)
Definition delta_request (s : W) (h : HWND) (cx cy : Z) : Prop :=
  exists lx ly lw lh cw ch,
    outer_is s h (lx, ly, lw, lh) /\ client_is s h (cw, ch) /\
    cx = lw + (TARGET_W - cw) /\ cy = lh + (TARGET_H - ch).

Definition request_ok (h : HWND) (x : Event * W) : Prop :=
  match fst x with
  | EvSetWindowPos h' after _ _ cx cy _ =>
      h' = h /\ after = HWND_TOP /\ delta_request (snd x) h cx cy
  | _ => True
  end.

(** The position decision, taken from the measurements of state [s1]. *)
Definition position_ok (h : HWND) (move : bool) (s1 : W) (x : Event * W) : Prop :=
  match fst x with
  | EvSetWindowPos _ _ px py _ _ fl =>
      if move then
        Z.land fl SWP_NOMOVE = 0 /\
        exists mx my sl st sr sb,
          monitor_is s1 h (mx, my) /\ shadow_is s1 h (sl, st, sr, sb) /\
          px = mx - sl /\ py = my - st /\ px + sl = mx /\ py + st = my
      else
        Z.land fl SWP_NOMOVE = SWP_NOMOVE /\ px = 0 /\ py = 0
  | _ => True
  end.

(** Every size request of a run carries the position decided from the
    measurements taken before the first one. *)
Definition placement (h : HWND) (move : bool)
                     (r : res pystr * W * History W) : Prop :=
  match setpos_events (history r) with
  | [] => True
  | x1 :: _ => Forall (position_ok h move (snd x1)) (history r)
  end.

(** Same position and flags in two size requests. *)
Definition same_placement (e1 e2 : Event) : Prop :=
  match e1, e2 with
  | EvSetWindowPos h1 a1 x1 y1 _ _ f1, EvSetWindowPos h2 a2 x2 y2 _ _ f2 =>
      h1 = h2 /\ a1 = a2 /\ x1 = x2 /\ y1 = y2 /\ f1 = f2
  | _, _ => False
  end.

(** How a run that stops after its first size request ends. *)
Definition single_pass (h : HWND) (x1 : Event * W)
                       (r : res pystr * W * History W) : Prop :=
  match failure x1 with
  | Some e => value r = inr (msg_error e)
  | None =>
      final r = settled x1 /\
      match GetClientRect os (settled x1) h with
      | inl e => value r = inr (msg_error e)
      | inr _ =>
          client_is (settled x1) h (TARGET_W, TARGET_H) /\
          value r = inr msg_success
      end
  end.

(** How a run with a second size request went. *)
Definition retried (h : HWND) (x1 x2 : Event * W)
                   (r : res pystr * W * History W) : Prop :=
  failure x1 = None /\
  snd x2 = settled x1 /\
  (exists fw fh, client_is (settled x1) h (fw, fh) /\ hit (fw, fh) = false) /\
  request_ok h x2 /\
  same_placement (fst x1) (fst x2) /\
  match failure x2 with
  | Some e => value r = inr (msg_error e)
  | None =>
      final r = settled x2 /\
      match GetClientRect os (settled x2) h with
      | inl e => value r = inr (msg_error e)
      | inr (cl, ct, cr, cb) =>
          value r = inr (if hit (cr - cl, cb - ct) then msg_success
                         else msg_attempted (cr - cl) (cb - ct))
      end
  end.
(** The passes of one run, read off its size requests: none (an earlier
    call raised), one, or two; never more. *)
Definition pass_structure (h : HWND) (r : res pystr * W * History W) : Prop :=
  match setpos_events (history r) with
  | [] => exists e, value r = inr (msg_error e)
  | [x1] => single_pass h x1 r
  | [x1; x2] => retried h x1 x2 r
  | _ => False
  end.

(** A batch: the handles are resized one after the other, each from the
    state the previous one left. *)
Inductive batch_runs (move : bool) :
    list HWND -> W -> list pystr -> W -> History W -> Prop :=
| BatchNil s : batch_runs move [] s [] s []
| BatchCons h hs s r s1 t1 rs s2 t2 :
    _resize_window os h move s = (inr r, s1, t1) ->
    Outcome h s1 t1 r ->
    batch_runs move hs s1 rs s2 t2 ->
    batch_runs move (h :: hs) s (r :: rs) s2 (t1 ++ t2).

(** No exception of the platform has a check mark in its text. *)
Definition clean_errors : Prop :=
  forall x e, failure x = Some e -> has_check e = false.
End Notions.


(* ------------------------------------------------------------------ *)
(** ** Notions for the enumerator, the batch and the stated claims *)

Section MoreNotions.
Context {W : Type} (os : Win32 W).

(** The filter of the enumerator, following the specification's
    filtering policy: visible, a title that is non-empty once trimmed,
    not the utility's own process, a class outside the shell deny-list,
    not a tool window unless it is also an app window, and not cloaked,
    where a cloak query that raises counts as not cloaked. *)
Definition is_cloaked (s : W) (h : HWND) : bool :=
  match DwmGetWindowAttribute_cloaked os s h with
  | inr v => negb (v =? 0)
  | inl _ => false
  end.

Definition is_candidate (s : W) (h : HWND) : bool :=
  match IsWindowVisible os s h, GetWindowText os s h,
        GetWindowThreadProcessId os s h, GetClassName os s h,
        GetWindowLong os s h GWL_EXSTYLE with
  | inr visible, inr title, inr (_, pid), inr cls, inr exstyle =>
      visible
      && str_bool (strip title)
      && negb (pid =? getpid os s)
      && negb (existsb (str_eqb cls) _SHELL_CLASSES)
      && negb (negb (Z.land exstyle WS_EX_TOOLWINDOW =? 0)
               && (Z.land exstyle WS_EX_APPWINDOW =? 0))
      && negb (is_cloaked s h)
  | _, _, _, _, _ => false
  end.

Definition window_title (s : W) (h : HWND) : pystr :=
  match GetWindowText os s h with inr t => t | inl _ => [] end.

(** The qualifying windows with their titles, in enumeration order. *)
Definition candidates (s : W) : list (HWND * pystr) :=
  map (fun h => (h, window_title s h)) (filter (is_candidate s) (EnumWindows os s)).

(** The five queries of the filter answer for the window [h]. *)
Definition answers (s : W) (h : HWND) : Prop :=
  exists visible title tid pid cls exstyle,
    IsWindowVisible os s h = inr visible /\
    GetWindowText os s h = inr title /\
    GetWindowThreadProcessId os s h = inr (tid, pid) /\
    GetClassName os s h = inr cls /\
    GetWindowLong os s h GWL_EXSTYLE = inr exstyle.


(** A window that honours a request for the size it already has: the
    call succeeds, the client area is afterwards what it was and, when
    no move was asked for, so is the outer rect. *)
Definition honours (s1 : W) (h : HWND) (outer client : quad) : Prop :=
  match outer with
  | (l, t, r, b) =>
      forall x y fl, exists u' s',
        SetWindowPos os s1 h HWND_TOP x y (r - l) (b - t) fl = (inr u', s') /\
        GetClientRect os (sleep os s' 150) h = inr client /\
        (Z.land fl SWP_NOMOVE = SWP_NOMOVE ->
         GetWindowRect os (sleep os s' 150) h = inr outer)
  end.

(** *** Where a repositioned window ends up *)






(** The visible rect of [h], as [_get_visible_rect] reports it, starts
    at [p]. *)
Definition visible_top_left (s : W) (h : HWND) (p : Z * Z) : Prop :=
  exists vw vh, value (_get_visible_rect os h s) = inr (fst p, snd p, vw, vh).

(** *** The claims that do not hold, as they are stated *)

(** "The restore step is conditional on the window being maximized." *)
Definition restore_only_when_maximized (s : W) (h : HWND) (move : bool) : Prop :=
  In (EvShowWindow h SW_RESTORE) (map fst (history (_resize_window os h move s))) ->
  exists style,
    GetWindowLong os s h GWL_STYLE = inr style /\ Z.land style WS_MAXIMIZE <> 0.

(** "The retry repeats the position decision": the second size request
    carries the position decided from the state it is issued in. *)
Definition retry_redecides_position (s : W) (h : HWND) : Prop :=
  match setpos_events (history (_resize_window os h true s)) with
  | [_; x2] => position_ok os h true (snd x2) x2
  | _ => True
  end.

(** "The applied target position is the hosting monitor's top-left
    minus the left and top shadow margins", the shadow margins being,
    as the specification has them, the outer rect minus the visible
    rect per edge, floored at 0: what the first size request of a run
    with repositioning carries. *)
Definition position_from_clamped_shadow (s : W) (h : HWND) : Prop :=
  match setpos_events (history (_resize_window os h true s)) with
  | x1 :: _ =>
      match fst x1 with
      | EvSetWindowPos _ _ px py _ _ _ =>
          exists mx my lx ly lw lh vx vy vw vh,
            monitor_is os (snd x1) h (mx, my) /\
            outer_is os (snd x1) h (lx, ly, lw, lh) /\
            value (_get_visible_rect os h (snd x1)) = inr (vx, vy, vw, vh) /\
            px = mx - Z.max 0 (vx - lx) /\ py = my - Z.max 0 (vy - ly)
      | _ => True
      end
  | [] => True
  end.

(** "... so the visible rect's top-left lands at the monitor origin":
    where a run with repositioning that has made a size request leaves
    the window. *)
Definition visible_rect_lands_at_origin (s : W) (h : HWND) : Prop :=
  setpos_events (history (_resize_window os h true s)) <> [] ->
  exists mx my,
    monitor_is os (final (_resize_window os h true s)) h (mx, my) /\
    visible_top_left (final (_resize_window os h true s)) h (mx, my).

(** "Any platform-call failure is turned into a per-handle error
    outcome." *)
Definition every_failure_is_an_error (s : W) (h : HWND) (move : bool) : Prop :=
  (exists x e, In x (history (_resize_window os h move s)) /\ failure os x = Some e) ->
  exists e, value (_resize_window os h move s) = inr (msg_error e).

(** "Resizing a window that already has the target client size leaves
    its outer rect unchanged." *)
Definition resize_keeps_outer_rect (s : W) (h : HWND) (move : bool) : Prop :=
  GetWindowRect os (final (_resize_window os h move s)) h = GetWindowRect os s h.
End MoreNotions.


(** Keys in non-decreasing order: no key is smaller than the one before. *)
Definition key_le {A : Type} (key : A -> pystr) (a b : A) : Prop :=
  str_ltb (key b) (key a) = false.

(** A stand-in for [str.lower] on ASCII titles. *)
Definition ascii_lower (s : pystr) : pystr :=
  map (fun c => if ((65 <=? c) && (c <=? 90))%N then (c + 32)%N else c) s.

(* ------------------------------------------------------------------ *)
(** ** Desktops used as concrete inputs *)

Module Scenes.
Import Desktop.

Definition desk (ws : list Window) : State :=
  {| pid := 1; monitors := one_monitor; windows := ws |}.

(** A 1280x720 client area inside a 1296x759 outer rect. *)
Definition game : State :=
  desk [app_window 10 "Game" (standard_geometry 100 100 1280 720) Honours].

(** A window that already has a 1920x1080 client area. *)
Definition at_target : State :=
  desk [app_window 10 "Game" (standard_geometry 100 100 1920 1080) Honours].

(** A maximized window that restores to 1280x720. *)
Definition maximized_window : Window :=
  {| w_hwnd := 10; w_visible := true; w_title := str "Game"; w_pid := 4010;
     w_class := str "AppWindow"; w_exstyle := 0; w_cloaked := inr 0;
     w_dpi := inr 96; w_hmonitor := 1;
     w_geom := {| g_outer := (-8, -8, 2568, 1408);
                  g_frame := inr (0, 0, 2560, 1400);
                  g_client := (2560, 1369);
                  g_client_origin := (0, 31);
                  g_style := win32con.WS_MAXIMIZE |};
     w_restored := Some (standard_geometry 100 100 1280 720);
     w_behaviour := Honours |}.

Definition maximized : State := desk [maximized_window].

(** A docked window without drop shadow whose shadow (7 pixels left,
    right and below) appears with its first resize, and whose
    application keeps the client area at most 1900 wide. *)
Definition docked_geometry : Geometry :=
  {| g_outer := (0, 0, 962, 1040);
     g_frame := inr (0, 0, 962, 1040);
     g_client := (960, 1008);
     g_client_origin := (1, 31);
     g_style := 0 |}.

Definition docked : State :=
  desk [app_window 10 "Editor" docked_geometry (ShadowOnResize 1900)].

(** An application that keeps its client area at most 1916 wide. *)
Definition capped : State :=
  desk [app_window 10 "Game" (standard_geometry 100 100 1280 720) (CapsWidth 1916)].

(** A window on a second monitor at (1920, 0), with an 8 pixel shadow
    on every side. *)
Definition shadowed_geometry : Geometry :=
  {| g_outer := (2000, 100, 3300, 900);
     g_frame := inr (2008, 108, 3292, 892);
     g_client := (1282, 752);
     g_client_origin := (2009, 139);
     g_style := 0 |}.

Definition second_monitor : State :=
  {| pid := 1;
     monitors := [(1, (0, 0, 1920, 1080)); (2, (1920, 0, 3840, 1080))];
     windows :=
       [ {| w_hwnd := 10; w_visible := true; w_title := str "Game"; w_pid := 4010;
            w_class := str "AppWindow"; w_exstyle := 0; w_cloaked := inr 0;
            w_dpi := inr 96; w_hmonitor := 2; w_geom := shadowed_geometry;
            w_restored := None; w_behaviour := Honours |} ] |}.

(** The extended-frame-bounds query reports failure through its return
    value and leaves its buffer zeroed. *)
Definition frame_query_failed : State :=
  desk [app_window 10 "Game"
          {| g_outer := (100, 100, 1396, 859);
             g_frame := inr (0, 0, 0, 0);
             g_client := (1280, 720);
             g_client_origin := (108, 131);
             g_style := 0 |} Honours].

(** A window that draws its own frame: its client area covers the
    whole outer rect, invisible resize borders included, while the
    visible frame is the 1280x720 rect inside. *)
Definition custom_chrome : State :=
  desk [app_window 10 "Player"
          {| g_outer := (92, 100, 1388, 827);
             g_frame := inr (100, 100, 1380, 820);
             g_client := (1296, 727);
             g_client_origin := (92, 100);
             g_style := 0 |} Honours].

(** A system without [GetDpiForWindow]: the call raises. *)
Definition no_dpi_api : State :=
  desk [ {| w_hwnd := 10; w_visible := true; w_title := str "Game"; w_pid := 4010;
            w_class := str "AppWindow"; w_exstyle := 0; w_cloaked := inr 0;
            w_dpi := inl (str "function 'GetDpiForWindow' not found");
            w_hmonitor := 1;
            w_geom := standard_geometry 100 100 1280 720;
            w_restored := None; w_behaviour := Honours |} ].

(** Three handles for a batch: a well-behaved window, a handle whose
    window is gone, and a window that caps its width. *)
Definition batch : State :=
  desk [ app_window 10 "Game" (standard_geometry 100 100 1280 720) Honours;
         app_window 12 "Editor" (standard_geometry 300 200 800 600) (CapsWidth 1916) ].

Definition batch_handles : list HWND := [10; 11; 12].

Definition blank_ui : Ui :=
  {| size_var := []; status_var := []; status_lbl_fg := TEXT_PRIMARY;
     resize_btn_enabled := true |}.

(** A desktop for the enumerator: the shell, the utility itself, two
    applications, a tool window, a cloaked window, a window with a
    blank title, a hidden window, and one whose cloak query raises. *)
Definition plain (hwnd : HWND) (title cls : string) (owner exstyle : Z)
                 (visible : bool) (cloaked : res Z) : Window :=
  {| w_hwnd := hwnd; w_visible := visible; w_title := str title; w_pid := owner;
     w_class := str cls; w_exstyle := exstyle; w_cloaked := cloaked;
     w_dpi := inr 96; w_hmonitor := 1;
     w_geom := standard_geometry 0 0 800 600;
     w_restored := None; w_behaviour := Honours |}.

Definition crowded : State :=
  desk [ plain 1 "Program Manager" "Progman" 500 0 true (inr 0);
         plain 2 "1080p Window Resizer" "TkTopLevel" 1 0 true (inr 0);
         plain 3 "beta" "AppWindow" 600 0 true (inr 0);
         plain 4 "Alpha" "AppWindow" 601 0 true (inr 0);
         plain 5 "Palette" "AppWindow" 602 win32con.WS_EX_TOOLWINDOW true (inr 0);
         plain 6 "Settings" "ApplicationFrameWindow" 603 0 true (inr 1);
         plain 7 "   " "AppWindow" 604 0 true (inr 0);
         plain 8 "Hidden" "AppWindow" 605 0 false (inr 0);
         plain 9 "Calc" "AppWindow" 606 0 true (inl (str "dwmapi not available")) ].

(** Only the shell and the utility's own window. *)
Definition bare : State :=
  desk [ plain 1 "Program Manager" "Progman" 500 0 true (inr 0);
         plain 2 "1080p Window Resizer" "TkTopLevel" 1 0 true (inr 0) ].

End Scenes.
(* ------------------------------------------------------------------ *)
(** ** Further notions: what a run asks, and of whom *)

Definition is_sleep (e : Event) : bool :=
  match e with EvSleep _ => true | _ => false end.

Definition is_warning (e : Event) : bool :=
  match e with EvShowWarning _ _ => true | _ => false end.

(** The rect queries of the window [h]: its outer rect, its extended
    frame bounds, its client rect and the screen position of a client
    point. *)
Definition rect_query (h : HWND) (e : Event) : bool :=
  match e with
  | EvGetWindowRect h' | EvGetClientRect h' | EvClientToScreen h' _ => h' =? h
  | EvDwmGetWindowAttribute h' a => (h' =? h) && (a =? _DWMWA_EXTENDED_FRAME_BOUNDS)
  | _ => false
  end.

(** The monitor of the window [h], and the rect of a monitor. *)
Definition monitor_query (h : HWND) (e : Event) : bool :=
  match e with
  | EvMonitorFromWindow h' fl => (h' =? h) && (fl =? MONITOR_DEFAULTTONEAREST)
  | EvGetMonitorInfo _ => true
  | _ => false
  end.

Definition dpi_query (h : HWND) (e : Event) : bool :=
  match e with
  | EvGetDpiForWindow h' => h' =? h
  | _ => false
  end.

Definition awareness_query (e : Event) : bool :=
  match e with
  | EvGetProcessDpiAwareness p => p =? 0
  | _ => false
  end.

(** The questions the enumerator's filter asks about the window [h]. *)
Definition filter_query (h : HWND) (e : Event) : bool :=
  match e with
  | EvIsWindowVisible h' | EvGetWindowText h'
  | EvGetWindowThreadProcessId h' | EvGetClassName h' => h' =? h
  | EvGetWindowLong h' i => (h' =? h) && (i =? GWL_EXSTYLE)
  | EvDwmGetWindowAttribute h' a => (h' =? h) && (a =? _DWMWA_CLOAKED)
  | _ => false
  end.

(** The flags every size request starts from. *)
Definition base_flags : Z :=
  Z.lor (Z.lor SWP_NOZORDER SWP_NOACTIVATE) SWP_FRAMECHANGED.

(** [SWP_NOSIZE], which the resize controller never uses. *)
Definition SWP_NOSIZE : Z := 1.

(** The calls [_resize_window h move] may make. *)
Definition allowed (h : HWND) (move : bool) (e : Event) : Prop :=
  match e with
  | EvGetWindowText h' | EvGetWindowRect h' | EvGetClientRect h'
  | EvClientToScreen h' _ | EvGetDpiForWindow h' => h' = h
  | EvGetWindowLong h' i => h' = h /\ i = GWL_STYLE
  | EvDwmGetWindowAttribute h' a => h' = h /\ a = _DWMWA_EXTENDED_FRAME_BOUNDS
  | EvMonitorFromWindow h' fl =>
      h' = h /\ fl = MONITOR_DEFAULTTONEAREST /\ move = true
  | EvGetMonitorInfo _ => move = true
  | EvGetProcessDpiAwareness p => p = 0
  | EvShowWindow h' c => h' = h /\ c = SW_RESTORE
  | EvSetWindowPos h' after _ _ _ _ fl =>
      h' = h /\ after = HWND_TOP /\
      fl = (if move then base_flags else Z.lor base_flags SWP_NOMOVE)
  | EvSleep ms => ms = 100 \/ ms = 150
  | EvGetpid | EvEnumWindows | EvIsWindowVisible _
  | EvGetWindowThreadProcessId _ | EvGetClassName _ | EvShowWarning _ _ => False
  end.

(** The window a call is made on, for the calls that take one. *)
Definition handle_of (e : Event) : option HWND :=
  match e with
  | EvIsWindowVisible h | EvGetWindowText h | EvGetWindowThreadProcessId h
  | EvGetClassName h | EvGetWindowLong h _ | EvDwmGetWindowAttribute h _
  | EvGetWindowRect h | EvGetClientRect h | EvClientToScreen h _
  | EvMonitorFromWindow h _ | EvGetDpiForWindow h | EvShowWindow h _
  | EvSetWindowPos h _ _ _ _ _ _ => Some h
  | EvGetpid | EvEnumWindows | EvGetMonitorInfo _ | EvGetProcessDpiAwareness _
  | EvSleep _ | EvShowWarning _ _ => None
  end.

Section FurtherNotions.
Context {W : Type}.

(** Milliseconds spent in [time.sleep] along a history. *)
Definition slept (t : History W) : Z :=
  fold_right (fun x acc => match fst x with
                           | EvSleep ms => ms + acc
                           | _ => acc
                           end) 0 t.

(** The calls other than the two DPI queries. *)
Definition not_dpi (x : Event * W) : bool := negb (is_dpi (fst x)).

(** The calls of a history, without the states they were made in. *)
Definition calls (t : History W) : list Event := map fst t.

(** The platform [os] with other answers to the two DPI queries. *)
Definition with_dpi (os : Win32 W) (dpi : W -> HWND -> res Z)
                    (awareness : W -> Z -> res Z) : Win32 W :=
  {| getpid := getpid os;
     EnumWindows := EnumWindows os;
     IsWindowVisible := IsWindowVisible os;
     GetWindowText := GetWindowText os;
     GetWindowThreadProcessId := GetWindowThreadProcessId os;
     GetClassName := GetClassName os;
     GetWindowLong := GetWindowLong os;
     DwmGetWindowAttribute_cloaked := DwmGetWindowAttribute_cloaked os;
     DwmGetWindowAttribute_frame := DwmGetWindowAttribute_frame os;
     GetWindowRect := GetWindowRect os;
     GetClientRect := GetClientRect os;
     ClientToScreen := ClientToScreen os;
     MonitorFromWindow := MonitorFromWindow os;
     GetMonitorInfo := GetMonitorInfo os;
     GetDpiForWindow := dpi;
     GetProcessDpiAwareness := awareness;
     ShowWindow := ShowWindow os;
     SetWindowPos := SetWindowPos os;
     sleep := sleep os |}.

(** The platform [os] on which [IsWindowVisible] answers as [visible]. *)
Definition with_visibility (os : Win32 W) (visible : W -> HWND -> res bool) : Win32 W :=
  {| getpid := getpid os;
     EnumWindows := EnumWindows os;
     IsWindowVisible := visible;
     GetWindowText := GetWindowText os;
     GetWindowThreadProcessId := GetWindowThreadProcessId os;
     GetClassName := GetClassName os;
     GetWindowLong := GetWindowLong os;
     DwmGetWindowAttribute_cloaked := DwmGetWindowAttribute_cloaked os;
     DwmGetWindowAttribute_frame := DwmGetWindowAttribute_frame os;
     GetWindowRect := GetWindowRect os;
     GetClientRect := GetClientRect os;
     ClientToScreen := ClientToScreen os;
     MonitorFromWindow := MonitorFromWindow os;
     GetMonitorInfo := GetMonitorInfo os;
     GetDpiForWindow := GetDpiForWindow os;
     GetProcessDpiAwareness := GetProcessDpiAwareness os;
     ShowWindow := ShowWindow os;
     SetWindowPos := SetWindowPos os;
     sleep := sleep os |}.
End FurtherNotions.

(** Elements with the key [k], in the order they have in [l]. *)
Definition with_key {A : Type} (key : A -> pystr) (k : pystr) (l : list A) : list A :=
  filter (fun x => str_eqb (key x) k) l.
(* ------------------------------------------------------------------ *)
(** ** The window list of the selector

    The Tk tree view names each inserted item with a counter of its
    own ([I001], [I002], ...), which deleting items does not reset: an
    item id is a number here.  The icon column is left out. *)

Record Row : Type := {
  row_text : pystr;
  row_tag : pystr
}.

Record Treeview : Type := {
  items : list (nat * Row);
  last_iid : nat
}.

Definition get_children (tv : Treeview) : list nat := map fst (items tv).

Definition tree_delete (tv : Treeview) (iid : nat) : Treeview :=
  {| items := filter (fun it => negb (Nat.eqb (fst it) iid)) (items tv);
     last_iid := last_iid tv |}.

(** [tree.insert("", tk.END, ...)]: the new item goes last; its id is
    returned. *)
Definition tree_insert_end (tv : Treeview) (row : Row) : nat * Treeview :=
  let iid := S (last_iid tv) in
  (iid, {| items := items tv ++ [(iid, row)]; last_iid := iid |}).

(** A [dict] keyed by item ids, in insertion order. *)
Fixpoint dict_set {V : Type} (d : list (nat * V)) (k : nat) (v : V) : list (nat * V) :=
  match d with
  | [] => [(k, v)]
  | (k', v') :: d' =>
      if Nat.eqb k' k then (k, v) :: d' else (k', v') :: dict_set d' k v
  end.

Fixpoint dict_get {V : Type} (d : list (nat * V)) (k : nat) : option V :=
  match d with
  | [] => None
  | (k', v') :: d' => if Nat.eqb k' k then Some v' else dict_get d' k
  end.

(** The state of [SelectorWindow] that listing and selecting use. *)
Record Selector : Type := {
  widgets : Ui;
  _tree : Treeview;
  _hwnd_map : list (nat * HWND);
  _count_var : pystr
}.

(** [title[:80] + ("…" if len(title) > 80 else "")]. *)
Definition display (title : pystr) : pystr :=
  firstn 80 title ++ (if (80 <? List.length title)%nat then [ELLIPSIS] else []).

Definition row_of (i : nat) (title : pystr) : Row :=
  {| row_text := str "  " ++ display title;
     row_tag := if Nat.eqb (Nat.modulo i 2) 0 then str "even" else str "odd" |}.

(** The rows for [windows], the first of which has index [i]. *)
Fixpoint rows_from (i : nat) (windows : list (HWND * pystr)) : list Row :=
  match windows with
  | [] => []
  | (_, title) :: rest => row_of i title :: rows_from (S i) rest
  end.

(** The loop of [_populate] over [enumerate(windows)], from index [i]. *)
Fixpoint add_rows (i : nat) (windows : list (HWND * pystr))
                  (tv : Treeview) (m : list (nat * HWND))
    : Treeview * list (nat * HWND) :=
  match windows with
  | [] => (tv, m)
  | (hwnd, title) :: rest =>
      let '(iid, tv') := tree_insert_end tv (row_of i title) in
      add_rows (S i) rest tv' (dict_set m iid hwnd)
  end.

Section Listing.
Context {W : Type} (os : Win32 W).
Variable lower : pystr -> pystr.

(** The selector once the list is emptied and the labels are reset,
    which [_populate] does before it enumerates. *)
Definition emptied (sel : Selector) : Selector :=
  {| widgets := {| size_var := str "- select a window -";
                   status_var := [];
                   status_lbl_fg := status_lbl_fg (widgets sel);
                   resize_btn_enabled := false |};
     _tree := fold_left tree_delete (get_children (_tree sel)) (_tree sel);
     _hwnd_map := [];
     _count_var := _count_var sel |}.

(** What [_populate], called in the platform state [s], does to the
    selector.  It mutates the selector and does not catch what
    [_enum_windows] raises: the result is the selector as it is left,
    with the exception that leaves [_populate], if any.

    For every listed window the function also calls
    [_get_window_icon], which sends messages to the window and draws
    with GDI, and [ImageTk.PhotoImage]; each swallows its exceptions,
    and what they give goes to the icon column and [_icon_cache] only.
    These calls are not followed here: nothing is said about the
    platform once [_populate] is over, nor about the calls it made. *)
Definition _populate (sel : Selector) (s : W) : Selector * option exn :=
  let sel := emptied sel in
  match value (_enum_windows os lower s) with
  | inr windows =>
      let '(tv, m) := add_rows 0 windows (_tree sel) (_hwnd_map sel) in
      ({| widgets := widgets sel;
          _tree := tv;
          _hwnd_map := m;
          _count_var := str_of_Z (Z.of_nat (List.length windows)) ++ str " windows" |},
       None)
  | inl exc => (sel, Some exc)
  end.
End Listing.

(** [[self._hwnd_map[iid] for iid in self._tree.selection()
      if iid in self._hwnd_map]]; [selection] is [self._tree.selection()]. *)
Definition _selected_hwnds (sel : Selector) (selection : list nat) : list HWND :=
  flat_map (fun iid => match dict_get (_hwnd_map sel) iid with
                       | Some hwnd => [hwnd]
                       | None => []
                       end) selection.

(* ------------------------------------------------------------------ *)
(** ** The log panel

    A Tk text widget ignores [insert] and [delete] while its state is
    [disabled]; packing a packed widget and forgetting a forgotten one
    change nothing. *)

Definition BLACK_RIGHT_TRIANGLE : N := 9654%N.   (* U+25B6 *)
Definition BLACK_DOWN_TRIANGLE : N := 9660%N.    (* U+25BC *)

Record LogPanel : Type := {
  _log_expanded : bool;
  log_body_packed : bool;
  log_clear_btn_packed : bool;
  log_toggle_btn_text : pystr;
  log_text : pystr;
  log_text_normal : bool          (* state="normal", as opposed to "disabled" *)
}.

(** The panel [_build] makes. *)
Definition built_panel : LogPanel :=
  {| _log_expanded := false;
     log_body_packed := false;
     log_clear_btn_packed := false;
     log_toggle_btn_text := [BLACK_RIGHT_TRIANGLE] ++ str "  Logs";
     log_text := [];
     log_text_normal := false |}.

Definition _toggle_logs (p : LogPanel) : LogPanel :=
  if _log_expanded p then
    {| _log_expanded := false;
       log_body_packed := false;
       log_clear_btn_packed := false;
       log_toggle_btn_text := [BLACK_RIGHT_TRIANGLE] ++ str "  Logs";
       log_text := log_text p;
       log_text_normal := log_text_normal p |}
  else
    {| _log_expanded := true;
       log_body_packed := true;
       log_clear_btn_packed := true;
       log_toggle_btn_text := [BLACK_DOWN_TRIANGLE] ++ str "  Logs";
       log_text := log_text p;
       log_text_normal := log_text_normal p |}.

Definition text_config_state (p : LogPanel) (normal : bool) : LogPanel :=
  {| _log_expanded := _log_expanded p;
     log_body_packed := log_body_packed p;
     log_clear_btn_packed := log_clear_btn_packed p;
     log_toggle_btn_text := log_toggle_btn_text p;
     log_text := log_text p;
     log_text_normal := normal |}.

Definition text_set (p : LogPanel) (content : pystr) : LogPanel :=
  {| _log_expanded := _log_expanded p;
     log_body_packed := log_body_packed p;
     log_clear_btn_packed := log_clear_btn_packed p;
     log_toggle_btn_text := log_toggle_btn_text p;
     log_text := if log_text_normal p then content else log_text p;
     log_text_normal := log_text_normal p |}.

Definition text_insert_end (p : LogPanel) (chars : pystr) : LogPanel :=
  text_set p (log_text p ++ chars).

Definition text_delete_all (p : LogPanel) : LogPanel := text_set p [].

Definition NEWLINE : N := 10%N.

Definition _append_log (p : LogPanel) (text : pystr) : LogPanel :=
  let p := text_config_state p true in
  let p := text_insert_end p (text ++ [NEWLINE]) in
  text_config_state p false.

Definition _clear_logs (p : LogPanel) : LogPanel :=
  let p := text_config_state p true in
  let p := text_delete_all p in
  text_config_state p false.

(** What can happen to the panel: a click on either button, or a line
    logged by a resize. *)
Inductive LogEvent : Type :=
| ClickToggle
| ClickClear
| Logged (text : pystr).

Definition log_step (p : LogPanel) (ev : LogEvent) : LogPanel :=
  match ev with
  | ClickToggle => _toggle_logs p
  | ClickClear => _clear_logs p
  | Logged text => _append_log p text
  end.

(** The header shows what the flag says. *)
Definition panel_consistent (p : LogPanel) : Prop :=
  log_body_packed p = _log_expanded p /\
  log_clear_btn_packed p = _log_expanded p /\
  log_toggle_btn_text p =
    [if _log_expanded p then BLACK_DOWN_TRIANGLE else BLACK_RIGHT_TRIANGLE]
    ++ str "  Logs".

Definition is_toggle (ev : LogEvent) : bool :=
  match ev with ClickToggle => true | _ => false end.

Definition is_clear (ev : LogEvent) : bool :=
  match ev with ClickClear => true | _ => false end.

(** The lines logged after the last click on Clear. *)
Fixpoint lines_since_clear (evs : list LogEvent) : list pystr :=
  match evs with
  | [] => []
  | ev :: rest =>
      if existsb is_clear rest then lines_since_clear rest
      else match ev with
           | Logged text => text :: lines_since_clear rest
           | _ => lines_since_clear rest
           end
  end.

(* ------------------------------------------------------------------ *)
(** ** The application icon

    [Image] stands for PIL images.  Opening the bundled file may
    raise; so may copying an image and resizing one (a size that is
    not positive, for one). *)

Inductive IconSize : Type :=
| SizeNone
| SizeInt (size : Z)
| SizePair (width height : Z).

Definition failed {A : Type} (r : res A) : bool :=
  match r with inl _ => true | inr _ => false end.

Section Icon.
Variable Image : Type.
(** [Image.open(_ICON_PATH).convert("RGBA")], on the files as they are. *)
Variable Files : Type.
Variable open_rgba : Files -> res Image.
(** [img.copy()] and [img.resize(size, Image.LANCZOS)]. *)
Variable copy : Image -> res Image.
Variable resize : Image -> Z * Z -> res Image.

(** The resizing step, taken when a size is given; an [int] stands for
    a square. *)
Definition sized (img : Image) (size : IconSize) : res Image :=
  match size with
  | SizeNone => inr img
  | SizeInt n => resize img (n, n)
  | SizePair w h => resize img (w, h)
  end.

(** What follows the cache lookup: a copy of the cached image, resized
    when a size is given. *)
Definition copy_sized (base : Image) (size : IconSize) : res Image :=
  match copy base with
  | inl e => inl e
  | inr img => sized img size
  end.

(** [_load_app_icon(size)] with the global [_app_icon_base] passed in
    and out; the third component tells whether the file was opened.
    The global is assigned before the image is copied and resized: an
    exception there leaves the cache filled. *)
Definition _load_app_icon (size : IconSize) (files : Files)
                          (_app_icon_base : option Image)
    : res Image * option Image * bool :=
  match _app_icon_base with
  | None =>
      match open_rgba files with
      | inl e => (inl e, None, true)
      | inr base => (copy_sized base size, Some base, true)
      end
  | Some base => (copy_sized base size, Some base, false)
  end.

(** The request [r] finds a file that cannot be opened. *)
Definition open_fails (r : IconSize * Files) : bool := failed (open_rgba (snd r)).

(** The requests before the first whose file can be opened. *)
Fixpoint before_first_open (requests : list (IconSize * Files))
    : list (IconSize * Files) :=
  match requests with
  | [] => []
  | r :: rest => if open_fails r then r :: before_first_open rest else []
  end.

Definition _make_tray_image (files : Files) (_app_icon_base : option Image)
    : res Image * option Image * bool :=
  _load_app_icon (SizeInt 64) files _app_icon_base.

(** Calls to [_load_app_icon] one after the other: the results, the
    cache at the end, and how often the file was opened. *)
Fixpoint load_each (requests : list (IconSize * Files)) (_app_icon_base : option Image)
    : list (res Image) * option Image * nat :=
  match requests with
  | [] => ([], _app_icon_base, O)
  | (size, files) :: rest =>
      match _load_app_icon size files _app_icon_base with
      | (r, cache, opened) =>
          match load_each rest cache with
          | (rs, cache', n) => (r :: rs, cache', (if opened then 1 else 0) + n)%nat
          end
      end
  end.
End Icon.

(* ------------------------------------------------------------------ *)
(** ** The minimize button of the selector window *)

Definition WS_MINIMIZEBOX : Z := 131072.    (* 0x00020000 *)

(** The flags of the frame refresh, as the function spells them. *)
Definition frame_refresh_flags : Z :=
  Z.lor (Z.lor (Z.lor 32 2) 1) 4.

Inductive FrameCall : Type :=
| CallGetWindowLong (hwnd index : Z)
| CallSetWindowLong (hwnd index value : Z)
| CallSetWindowPos (hwnd after x y cx cy flags : Z).

Section MinimizeButton.
Context {W : Type} (os : Win32 W).
(** [win32gui.SetWindowLong], which only this function uses. *)
Variable SetWindowLong : W -> HWND -> Z -> Z -> res unit * W.

(** [win] is the handle of [self._win], if the window exists.  Every
    exception is swallowed: the result is the state left and the calls
    made. *)
Definition _remove_minimize_button (win : option HWND) (s : W) : W * list FrameCall :=
  match win with
  | None => (s, [])
  | Some hwnd =>
      match GetWindowLong os s hwnd GWL_STYLE with
      | inl _ => (s, [CallGetWindowLong hwnd GWL_STYLE])
      | inr style =>
          let new_style := Z.land style (Z.lnot WS_MINIMIZEBOX) in
          match SetWindowLong s hwnd GWL_STYLE new_style with
          | (inl _, s1) =>
              (s1, [CallGetWindowLong hwnd GWL_STYLE;
                    CallSetWindowLong hwnd GWL_STYLE new_style])
          | (inr _, s1) =>
              (snd (SetWindowPos os s1 hwnd 0 0 0 0 0 frame_refresh_flags),
               [CallGetWindowLong hwnd GWL_STYLE;
                CallSetWindowLong hwnd GWL_STYLE new_style;
                CallSetWindowPos hwnd 0 0 0 0 0 frame_refresh_flags])
          end
      end
  end.
End MinimizeButton.
(* ------------------------------------------------------------------ *)
(** ** More desktops *)

Module MoreScenes.
Import Desktop.

(** A system without DWM: the extended-frame-bounds query raises. *)
Definition no_dwm : State :=
  Scenes.desk [app_window 10 "Game"
                 {| g_outer := (100, 100, 1396, 859);
                    g_frame := inl (str "dwmapi not available");
                    g_client := (1280, 720);
                    g_client_origin := (108, 131);
                    g_style := 0 |} Honours].

(** A window whose monitor has just been unplugged: the handle
    [MonitorFromWindow] gives is no longer valid. *)
Definition lost_monitor : State :=
  Scenes.desk
    [ {| w_hwnd := 10; w_visible := true; w_title := str "Game"; w_pid := 4010;
         w_class := str "AppWindow"; w_exstyle := 0; w_cloaked := inr 0;
         w_dpi := inr 96; w_hmonitor := 7;
         w_geom := standard_geometry 100 100 1280 720;
         w_restored := None; w_behaviour := Honours |} ].

(** A window snapped to the left edge of the screen, where its client
    area is 1920x1080; it is not maximized, and a restore takes it back
    to where it was before it was snapped: 1280x720 at (300, 200). *)
Definition snapped : State :=
  Scenes.desk
    [ {| w_hwnd := 10; w_visible := true; w_title := str "Game"; w_pid := 4010;
         w_class := str "AppWindow"; w_exstyle := 0; w_cloaked := inr 0;
         w_dpi := inr 96; w_hmonitor := 1;
         w_geom := standard_geometry (-7) 0 1920 1080;
         w_restored := Some (standard_geometry 300 200 1280 720);
         w_behaviour := Honours |} ].

(** [Scenes.crowded] on a platform where the visibility of window 3
    cannot be asked. *)
Definition access_denied : exn := str "Access is denied.".

Definition guarded_os : Win32 State :=
  with_visibility Desktop.os
    (fun s h => if h =? 3 then inl access_denied
                else IsWindowVisible Desktop.os s h).

(** Two windows whose titles differ in case only, around a third. *)
Definition twins : State :=
  Scenes.desk [ Scenes.plain 3 "notes" "AppWindow" 600 0 true (inr 0);
                Scenes.plain 4 "Alpha" "AppWindow" 601 0 true (inr 0);
                Scenes.plain 5 "Notes" "AppWindow" 602 0 true (inr 0);
                Scenes.plain 6 "NOTES" "AppWindow" 603 0 true (inr 0) ].

(** A selector that has listed two windows before, the first of which
    is selected and was resized. *)
Definition used_selector : Selector :=
  {| widgets := {| size_var := str "1920 x 1080";
                   status_var := msg_success;
                   status_lbl_fg := SUCCESS;
                   resize_btn_enabled := true |};
     _tree := {| items := [(1%nat, row_of 0 (str "Game")); (2%nat, row_of 1 (str "Editor"))];
                 last_iid := 2 |};
     _hwnd_map := [(1%nat, 10); (2%nat, 12)];
     _count_var := str "2 windows" |}.

End MoreScenes.
(* ------------------------------------------------------------------ *)
(** ** Facts about strings *)

Lemma startswith_single (c : N) (s : pystr) :
  startswith s [c] = match s with [] => false | d :: _ => N.eqb c d end.
Proof.
  destruct s as [|d s']; simpl; [reflexivity|].
  destruct s'; apply andb_true_r.
Qed.

(** Searching for a one-character needle is a membership test. *)
Lemma str_in_single (c : N) (s : pystr) :
  str_in [c] s = existsb (N.eqb c) s.
Proof.
  induction s as [|d s' IH].
  - reflexivity.
  - cbn [str_in existsb]. rewrite startswith_single, IH. reflexivity.
Qed.

Lemma str_in_check (s : pystr) : str_in [CHECK_MARK] s = has_check s.
Proof. apply str_in_single. Qed.

Lemma has_check_app (a b : pystr) :
  has_check (a ++ b) = has_check a || has_check b.
Proof. apply existsb_app. Qed.

Lemma uint_digits_no_check (u : Decimal.uint) : has_check (uint_digits u) = false.
Proof. induction u; simpl; auto. Qed.

Lemma str_of_Z_no_check (z : Z) : has_check (str_of_Z z) = false.
Proof.
  unfold str_of_Z. destruct (Z.to_int z); simpl; apply uint_digits_no_check.
Qed.




(* ------------------------------------------------------------------ *)
(** ** Facts about the probes

    Every probe that guards its own platform calls is a read: it always
    returns, leaves the platform state as it found it, and only issues
    queries, all of them in that one state. *)

Create HintDb probes.

Section ProbeFacts.
Context {W : Type} (os : Win32 W).

Lemma reads_nil P (s : W) : reads P s [].
Proof. constructor. Qed.

Lemma reads_cons P (s : W) e t :
  P e = true -> reads P s t -> reads P s ((e, s) :: t).
Proof. intros; constructor; auto. Qed.

Lemma reads_app P (s : W) t1 t2 :
  reads P s t1 -> reads P s t2 -> reads P s (t1 ++ t2).
Proof. intros; apply Forall_app; auto. Qed.

Lemma reads_Forall P (s : W) t (Q : Event * W -> Prop) :
  reads P s t -> (forall e, P e = true -> Q (e, s)) -> Forall Q t.
Proof.
  intros R HQ. induction R as [|[e s'] t [Hs HP] _ IH]; constructor; auto.
  simpl in Hs, HP. subst s'. auto.
Qed.

Lemma reads_filter P (s : W) t (f : Event -> bool) :
  reads P s t -> (forall e, P e = true -> f e = false) ->
  filter (fun x => f (fst x)) t = [].
Proof.
  intros R Hf. induction R as [|[e s'] t [_ HP] _ IH]; simpl; auto.
  simpl in HP. rewrite (Hf e HP). exact IH.
Qed.
End ProbeFacts.

#[export] Hint Resolve reads_nil reads_cons reads_app : probes.
#[export] Hint Extern 1 (measures _ _ = true) =>
  cbn [measures]; first [reflexivity | apply Z.eqb_refl] : probes.

(** One step of symbolic execution: case analysis on the innermost
    scrutinee of the goal. *)
Ltac step_core :=
  match goal with
  | |- context [match ?x with _ => _ end] =>
      lazymatch x with
      | context [match _ with _ => _ end] => fail
      | _ => tryif is_var x then destruct x else destruct x eqn:?
      end
  end.

Ltac probe_unfold :=
  cbv beta iota zeta delta
    [_client_wh _get_window_rect _get_visible_rect
     _get_shadow_margins _get_nonclient_margins _get_monitor_top_left
     _window_dpi _dpi_awareness_str _get_client_size
     try_except bind ret query command value final history fst snd app].

Ltac probe_tac :=
  intros ?s; probe_unfold;
  repeat (step_core; cbv beta iota zeta delta [fst snd app]);
  do 2 eexists; (split; [reflexivity | auto 10 with probes]).

Section Probes.
Context {W : Type} (os : Win32 W).

Lemma _get_window_rect_probe h : probe (measures h) (_get_window_rect os h).
Proof. probe_tac. Qed.

Lemma _get_visible_rect_probe h : probe (measures h) (_get_visible_rect os h).
Proof. probe_tac. Qed.

Lemma _get_shadow_margins_probe h : probe (measures h) (_get_shadow_margins os h).
Proof. probe_tac. Qed.

Lemma _get_nonclient_margins_probe h :
  probe (measures h) (_get_nonclient_margins os h).
Proof. probe_tac. Qed.

Lemma _get_monitor_top_left_probe h :
  probe (measures h) (_get_monitor_top_left os h).
Proof. probe_tac. Qed.

Lemma _get_client_size_probe h : probe (measures h) (_get_client_size os h).
Proof.
  intros s. unfold _get_client_size, bind.
  destruct (_get_nonclient_margins_probe h s) as ([[[ncl nct] ncr] ncb] & t1 & -> & R1).
  destruct (_get_visible_rect_probe h s) as ([[[vx vy] vw] vh] & t2 & -> & R2).
  cbv beta iota zeta delta [ret]. do 2 eexists. split; [reflexivity|].
  auto with probes.
Qed.

Lemma _window_dpi_probe h : probe is_dpi (_window_dpi os h).
Proof. probe_tac. Qed.

Lemma _dpi_awareness_str_probe : probe is_dpi (_dpi_awareness_str os).
Proof. probe_tac. Qed.

(** The outer-rect probe asks exactly one question. *)
Lemma _get_window_rect_history h s :
  history (_get_window_rect os h s) = [(EvGetWindowRect h, s)].
Proof.
  probe_unfold.
  repeat (step_core; cbv beta iota zeta delta [fst snd app]); reflexivity.
Qed.
End Probes.

Ltac use_probe L :=
  let a := fresh "v" in
  let t := fresh "t" in
  let E := fresh "E" in
  let R := fresh "R" in
  destruct L as (a & t & E & R); rewrite E.

(** Symbolic execution of the resize controller, one platform call at a
    time; the guarded probes are taken whole. *)
Ltac rstep :=
  match goal with
  | |- context [match ?x with _ => _ end] =>
      lazymatch x with
      | context [match _ with _ => _ end] => fail
      | _window_dpi ?os ?h ?s => use_probe (_window_dpi_probe os h s)
      | _dpi_awareness_str ?os ?s => use_probe (_dpi_awareness_str_probe os s)
      | _get_window_rect ?os ?h ?s => use_probe (_get_window_rect_probe os h s)
      | _get_visible_rect ?os ?h ?s => use_probe (_get_visible_rect_probe os h s)
      | _get_shadow_margins ?os ?h ?s => use_probe (_get_shadow_margins_probe os h s)
      | _get_nonclient_margins ?os ?h ?s =>
          use_probe (_get_nonclient_margins_probe os h s)
      | _get_monitor_top_left ?os ?h ?s =>
          use_probe (_get_monitor_top_left_probe os h s)
      | filter _ _ => fail
      | _ =>
          first [ match goal with H : x = _ |- _ => rewrite H end
                | tryif is_var x then destruct x else destruct x eqn:? ]
      end
  end; cbn [fst snd app negb].

Ltac runfold :=
  cbv beta iota zeta delta
    [_resize_window _client_wh time_sleep
     try_except bind ret query command value final history fst snd];
  cbn [app].

(* ------------------------------------------------------------------ *)
(** ** Runs of the resize controller *)

Lemma snoc_last {A} (x : A) : [x] = [] ++ [x].
Proof. reflexivity. Qed.

Lemma snoc_cons {A} (a x : A) l l' :
  l = l' ++ [x] -> a :: l = (a :: l') ++ [x].
Proof. intros ->. reflexivity. Qed.

Lemma snoc_app {A} (x : A) t l l' :
  l = l' ++ [x] -> t ++ l = (t ++ l') ++ [x].
Proof. intros ->. apply app_assoc. Qed.

Lemma measures_not_setpos h e : measures h e = true -> is_setpos e = false.
Proof. destruct e; simpl; intros; try reflexivity; discriminate. Qed.

Lemma dpi_not_setpos e : is_dpi e = true -> is_setpos e = false.
Proof. destruct e; simpl; intros; try reflexivity; discriminate. Qed.

Lemma measures_not_command h e : measures h e = true -> is_command e = false.
Proof. destruct e; simpl; intros; try reflexivity; discriminate. Qed.

Lemma dpi_not_command e : is_dpi e = true -> is_command e = false.
Proof. destruct e; simpl; intros; try reflexivity; discriminate. Qed.

Lemma dpi_not_measurement e : is_dpi e = true -> is_measurement e = false.
Proof. destruct e; simpl; intros; try reflexivity; discriminate. Qed.

Lemma dpi_not_direct e : is_dpi e = true -> is_direct e = false.
Proof. destruct e; simpl; intros; try reflexivity; discriminate. Qed.

(** Find the last call of a history. *)
Ltac solve_snoc :=
  repeat first [ exact (snoc_last _) | apply snoc_cons | apply snoc_app ].

Ltac hnorm := repeat progress (rewrite ?app_nil_r, <- ?app_assoc; cbn [app]).

(** The probes contribute nothing to a filtered history. *)
Ltac kill_reads f :=
  repeat match goal with
  | R : reads (measures ?h) ?s ?t |- context [filter _ ?t] =>
      rewrite (reads_filter (measures h) s t f R) by
        (first [exact (measures_not_setpos h) | exact (measures_not_command h)])
  | R : reads is_dpi ?s ?t |- context [filter _ ?t] =>
      rewrite (reads_filter is_dpi s t f R) by
        (first [exact dpi_not_setpos | exact dpi_not_command])
  end.

Ltac setpos_norm :=
  unfold setpos_events; hnorm;
  repeat progress (rewrite ?filter_app; cbn [filter fst is_setpos app];
                   kill_reads is_setpos).

Ltac commands_norm :=
  unfold commands; hnorm;
  repeat progress (rewrite ?filter_app; cbn [filter fst is_command app];
                   kill_reads is_command).

Ltac client_tac :=
  unfold client_is, _client_wh, bind, query, ret, value;
  match goal with
  | H : GetClientRect _ ?s ?h = _ |- context [GetClientRect _ ?s ?h] => rewrite H
  end; cbn [fst snd].

Ltac fail_tac :=
  unfold failure; cbn [fst snd];
  match goal with H : ?c = _ |- context [?c] => rewrite H end; reflexivity.

Ltac bool_hyps :=
  repeat match goal with
  | H : _ && _ = true |- _ => apply andb_true_iff in H; destruct H
  | H : _ || _ = false |- _ => apply orb_false_iff in H; destruct H
  | H : negb _ = false |- _ => apply negb_false_iff in H
  | H : negb _ = true |- _ => apply negb_true_iff in H
  | H : (_ =? _) = true |- _ => apply Z.eqb_eq in H
  end.

Ltac exact_hit := unfold hit; cbn [fst snd]; assumption.

Ltac forall_split :=
  repeat first [ apply Forall_nil | apply Forall_cons | apply Forall_app; split ].

Ltac rewrite_calls :=
  repeat match goal with
  | H : ?c = _ |- context [?c] =>
      lazymatch c with
      | GetClientRect _ _ _ => rewrite H
      | SetWindowPos _ _ _ _ _ _ _ _ _ => rewrite H
      | ShowWindow _ _ _ _ => rewrite H
      | GetWindowText _ _ _ => rewrite H
      | GetWindowLong _ _ _ _ => rewrite H
      | _get_window_rect _ _ _ => rewrite H
      | _get_shadow_margins _ _ _ => rewrite H
      | _get_monitor_top_left _ _ _ => rewrite H
      end
  end.

Section DirectCalls.
Context {W : Type} (os : Win32 W).

Lemma dpi_no_direct_failure (s : W) t :
  reads is_dpi s t -> Forall (no_direct_failure os) t.
Proof.
  intros R. eapply reads_Forall; [exact R|].
  intros e He Hd. cbn [fst] in Hd. rewrite (dpi_not_direct e He) in Hd. discriminate.
Qed.

Lemma measures_no_direct_failure (s : W) h t q :
  reads (measures h) s t -> GetClientRect os s h = inr q ->
  Forall (no_direct_failure os) t.
Proof.
  intros R Hc. eapply reads_Forall; [exact R|].
  intros e He Hd. destruct e; cbn in He, Hd; try discriminate.
  apply Z.eqb_eq in He. subst. unfold failure. cbn [fst snd]. rewrite Hc. reflexivity.
Qed.
End DirectCalls.

(** No call the controller made itself failed. *)
Ltac direct_ok :=
  forall_split;
  try (eapply dpi_no_direct_failure; eassumption);
  try (eapply measures_no_direct_failure; eassumption);
  intros Hd; try discriminate Hd;
  unfold failure; cbn [fst snd];
  match goal with H : ?c = _ |- context [?c] => rewrite H end; reflexivity.

Section Runs.
Context {W : Type} (os : Win32 W).

(** [_resize_window] always returns one of its three messages, and the
    message tells how the run went. *)
Lemma resize_window_outcome s h move :
  let r := _resize_window os h move s in
  exists msg, value r = inr msg /\ Outcome os h (final r) (history r) msg.
Proof.
  runfold.
  repeat rstep.
  all: eexists; (split; [reflexivity|]).
  all: hnorm.
  all: try (eapply OutError; [solve_snoc | reflexivity | fail_tac ]; fail).
  all: try (apply OutSuccess; [client_tac; bool_hyps; congruence | direct_ok]).
  all: apply OutAttempted; [client_tac; reflexivity | exact_hit | direct_ok].
Qed.
End Runs.

(* ------------------------------------------------------------------ *)
(** ** Size requests, passes and placement *)

Ltac delta_tac :=
  unfold request_ok, delta_request, outer_is; cbn [fst snd];
  repeat split;
  do 6 eexists;
  (split; [rewrite_calls; reflexivity|]);
  (split; [client_tac; reflexivity|]); split; reflexivity.

Ltac contra_hit :=
  match goal with
  | H1 : negb ?a || negb ?b = false, H2 : ?a && ?b = false |- _ =>
      destruct a, b; discriminate
  | H1 : negb ?a || negb ?b = true, H2 : ?a && ?b = true |- _ =>
      destruct a, b; discriminate
  end.

(** A property that every query satisfies holds along a probe's history. *)
Ltac reads_leaf :=
  eapply reads_Forall;
  [ eassumption | intros [] HP; try (exact I); simpl in HP; discriminate ].

Ltac window_rect_history :=
  repeat match goal with
  | E : _get_window_rect ?os ?h ?s = (_, _, ?t) |- _ =>
      is_var t;
      let H := fresh in
      assert (H : t = [(EvGetWindowRect h, s)])
        by (rewrite <- (_get_window_rect_history os h s), E; reflexivity);
      subst t
  end.

Section Passes.
Context {W : Type} (os : Win32 W).

(** A run makes no size request, one, or two. *)
Lemma resize_window_passes s h move :
  pass_structure os h (_resize_window os h move s).
Proof.
  runfold.
  repeat rstep.
  all: unfold pass_structure; cbn [history value final fst snd]; setpos_norm.
  all: try (eexists; reflexivity).
  all: unfold single_pass, retried, failure, settled, value, final.
  all: repeat first [ progress rewrite_calls | progress cbn [fst snd raised]
                    | match goal with |- _ /\ _ => split end ].
  all: try reflexivity.
  all: try contra_hit.
  all: try (unfold hit; cbn [fst snd];
            match goal with H : _ && _ = _ |- _ => rewrite H end; reflexivity).
  all: try (client_tac; bool_hyps; congruence).
  all: try (do 2 eexists; split; [client_tac; reflexivity|]; unfold hit; cbn [fst snd];
             match goal with H : negb _ || negb _ = true |- _ =>
               apply orb_true_iff in H; rewrite !negb_true_iff in H;
               apply andb_false_iff; exact H end).
  all: try delta_tac.
  all: try (cbn; auto; fail).
Qed.

(** Every size request follows the delta formula. *)
Lemma resize_window_requests s h move :
  Forall (request_ok os h) (history (_resize_window os h move s)).
Proof.
  runfold.
  repeat rstep.
  all: hnorm; forall_split.
  all: try exact I.
  all: try reads_leaf.
  all: delta_tac.
Qed.

(** Every size request carries the position decided in the first pass. *)
Lemma resize_window_placement s h move :
  placement os h move (_resize_window os h move s).
Proof.
  runfold.
  repeat rstep.
  all: unfold placement; cbn [history fst snd]; setpos_norm; try exact I.
  all: cbn [snd]; forall_split.
  all: try exact I.
  all: try reads_leaf.
  all: unfold position_ok; cbn [fst snd].
  all: try (split; [reflexivity|]; split; reflexivity).
  all: split; [reflexivity|].
  all: do 6 eexists; unfold monitor_is, shadow_is, value; rewrite_calls; cbn [fst snd].
  all: repeat split; try reflexivity; lia.
Qed.

Lemma dpi_before_restore (s0 : W) t :
  reads is_dpi s0 t ->
  Forall (fun x => is_measurement (fst x) = false /\ is_command (fst x) = false) t.
Proof.
  intros R. eapply reads_Forall; [exact R|].
  intros e He. cbn [fst]. split.
  - apply dpi_not_measurement. exact He.
  - apply dpi_not_command. exact He.
Qed.

(** The restore comes first; the pause follows when the style read
    before it had the maximized bit; the first measurement comes after. *)
Lemma resize_window_restore s h move title style u s1 :
  GetWindowText os s h = inr title ->
  GetWindowLong os s h GWL_STYLE = inr style ->
  ShowWindow os s h SW_RESTORE = (inr u, s1) ->
  exists pre post,
    history (_resize_window os h move s) =
      pre ++ (EvShowWindow h SW_RESTORE, s)
          :: (if Z.land style WS_MAXIMIZE =? 0 then [] else [(EvSleep 100, s1)])
          ++ (EvGetWindowRect h,
              if Z.land style WS_MAXIMIZE =? 0 then s1 else sleep os s1 100) :: post
    /\ Forall (fun x => is_measurement (fst x) = false /\ is_command (fst x) = false) pre.
Proof.
  intros Ht Hs Hr.
  destruct (Z.land style WS_MAXIMIZE =? 0) eqn:Hmax.
  all: runfold; repeat rstep.
  all: try (match goal with H : negb _ = _ |- _ => rewrite Hmax in H; discriminate end).
  all: window_rect_history.
  all: exists ((EvGetWindowText h, s) :: t ++ t0 ++ [(EvGetWindowLong h GWL_STYLE, s)]).
  all: eexists; (split; [hnorm; reflexivity|]).
  all: constructor; [split; reflexivity|]; apply Forall_app; split;
       [eapply dpi_before_restore; eassumption|]; apply Forall_app; split;
       [eapply dpi_before_restore; eassumption|]; constructor;
       [split; reflexivity|constructor].
Qed.

(** A window that is not maximized and that, once restored, has the
    target client size and honours a request for the size it has: one
    request, for the outer size the restore left, success, and the
    outer rect the restore left when no move was asked for. *)
Lemma resize_window_at_target s h move title style u s1 l t r b cl ct cr cb :
  GetWindowText os s h = inr title ->
  GetWindowLong os s h GWL_STYLE = inr style ->
  Z.land style WS_MAXIMIZE = 0 ->
  ShowWindow os s h SW_RESTORE = (inr u, s1) ->
  GetWindowRect os s1 h = inr (l, t, r, b) ->
  GetClientRect os s1 h = inr (cl, ct, cr, cb) ->
  cr - cl = TARGET_W -> cb - ct = TARGET_H ->
  honours os s1 h (l, t, r, b) (cl, ct, cr, cb) ->
  let run := _resize_window os h move s in
  (exists x y fl,
     setpos_events (history run) =
       [(EvSetWindowPos h HWND_TOP x y (r - l) (b - t) fl, s1)]) /\
  value run = inr msg_success /\
  (move = false -> GetWindowRect os (final run) h = inr (l, t, r, b)).
Proof.
  intros Ht Hs Hmax Hr Ho1 Hc1 Hw Hh Hon. cbv zeta.
  assert (Hm : (Z.land style WS_MAXIMIZE =? 0) = true) by (apply Z.eqb_eq; exact Hmax).
  runfold.
  cbv beta iota zeta delta [_get_window_rect try_except bind ret query fst snd].
  repeat first
    [ match goal with
      | |- context [Z.land style WS_MAXIMIZE =? 0] => rewrite Hm; cbn [negb]
      | |- context [SetWindowPos os s1 h HWND_TOP ?x ?y ?cx ?cy ?fl] =>
          replace cx with (r - l) by lia; replace cy with (b - t) by lia;
          destruct (Hon x y fl) as (?u' & ?s' & ?Hset & ?Hcl & ?Hout); rewrite Hset;
          cbn [fst snd app]
      | |- context [(?a - ?b =? ?c)] =>
          replace (a - b =? c) with true by (symmetry; apply Z.eqb_eq; assumption);
          cbn [negb orb andb]
      end
    | rstep ].
  all: setpos_norm.
  all: split; [do 3 eexists; reflexivity|]; split; [reflexivity|].
  all: intros Hmv; try discriminate Hmv.
  apply Hout. reflexivity.
Qed.
End Passes.

(* ------------------------------------------------------------------ *)
(** ** Batches and the selector callbacks *)

Lemma filter_all_length {A} (f : A -> bool) (l : list A) :
  List.length (filter f l) = List.length l <-> Forall (fun x => f x = true) l.
Proof.
  induction l as [|a l IH]; simpl.
  - split; auto.
  - pose proof (filter_length_le f l) as Hle.
    destruct (f a) eqn:Ha; simpl.
    + split.
      * intros H. constructor; [exact Ha|]. apply IH. lia.
      * intros H. inversion H; subst. f_equal. apply IH. assumption.
    + split.
      * intros H. lia.
      * intros H. inversion H; subst. congruence.
Qed.

Lemma count_ok_all (results : list pystr) :
  count_ok results = Z.of_nat (List.length results) <->
  Forall (fun r => has_check r = true) results.
Proof.
  unfold count_ok. rewrite Nat2Z.inj_iff, filter_all_length.
  split; intros H; eapply Forall_impl; try exact H; intros r Hr; cbv beta in *.
  - rewrite <- str_in_check. exact Hr.
  - rewrite str_in_check. exact Hr.
Qed.

Lemma batch_msg_check (results : list pystr) :
  results <> [] ->
  (has_check (batch_msg results) = true <-> Forall (fun r => has_check r = true) results).
Proof.
  intros Hne. rewrite <- count_ok_all.
  assert (Hgen :
    has_check (if count_ok results =? Z.of_nat (List.length results)
               then str_of_Z (count_ok results) ++ str "/" ++
                    str_of_Z (Z.of_nat (List.length results)) ++
                    str " windows resized " ++ [CHECK_MARK]
               else str_of_Z (count_ok results) ++ str "/" ++
                    str_of_Z (Z.of_nat (List.length results)) ++ str " succeeded") = true
    <-> count_ok results = Z.of_nat (List.length results)).
  { destruct (count_ok results =? Z.of_nat (List.length results)) eqn:E.
    - apply Z.eqb_eq in E. rewrite !has_check_app, !str_of_Z_no_check. simpl. tauto.
    - apply Z.eqb_neq in E. rewrite !has_check_app, !str_of_Z_no_check. simpl.
      split; [discriminate | contradiction]. }
  destruct results as [|r [|r' rest]]; [contradiction | | exact Hgen].
  unfold batch_msg. unfold count_ok. simpl. rewrite str_in_check.
  destruct (has_check r); simpl; split; auto; discriminate.
Qed.

Section Batch.
Context {W : Type} (os : Win32 W).

Lemma resize_each_runs hs move s :
  exists results,
    value (resize_each os hs move s) = inr results /\
    batch_runs os move hs s results
      (final (resize_each os hs move s)) (history (resize_each os hs move s)).
Proof.
  revert s. induction hs as [|h hs IH]; intros s.
  - exists []. split; [reflexivity|]. constructor.
  - cbn [resize_each]. unfold bind.
    destruct (resize_window_outcome os s h move) as (msg & Hv & Ho).
    cbv zeta in Hv, Ho.
    destruct (_resize_window os h move s) as [[v s1] t1] eqn:E.
    cbn [value final history fst snd] in Hv, Ho. subst v.
    destruct (IH s1) as (rs & Hrs & Hb).
    destruct (resize_each os hs move s1) as [[v2 s2] t2].
    cbn [value final history fst snd] in Hrs, Hb. subst v2.
    exists (msg :: rs). cbn [ret value final history fst snd]. split; [reflexivity|].
    rewrite app_nil_r. econstructor; eassumption.
Qed.

Lemma on_select_keeps_status hwnds ui s :
  exists ui',
    _on_select os hwnds ui s = (inr ui', s, history (_on_select os hwnds ui s)) /\
    status_var ui' = status_var ui.
Proof.
  destruct hwnds as [|h [|h' rest]].
  - eexists. split; reflexivity.
  - unfold _on_select.
    change (1 <? Z.of_nat (List.length [h])) with false.
    cbv beta iota. unfold bind.
    destruct (_get_client_size_probe os h s) as ([cw ch] & t1 & -> & R1).
    destruct (_get_nonclient_margins_probe os h s) as ([[[ncl nct] ncr] ncb] & t2 & -> & R2).
    cbv beta iota zeta. unfold ret. cbn [history snd fst].
    eexists. split; reflexivity.
  - unfold _on_select.
    replace (1 <? Z.of_nat (List.length (h :: h' :: rest))) with true
      by (symmetry; apply Z.ltb_lt; cbn [List.length]; lia).
    eexists. split; reflexivity.
Qed.

Lemma do_resize_status hwnds move ui s :
  hwnds <> [] ->
  exists results ui',
    value (resize_each os hwnds move s) = inr results /\
    value (_do_resize os hwnds move ui s) = inr ui' /\
    status_var ui' = batch_msg results.
Proof.
  intros Hne.
  destruct (resize_each_runs hwnds move s) as (results & Hv & _).
  destruct hwnds as [|h hs]; [contradiction|].
  unfold _do_resize, bind.
  destruct (resize_each os (h :: hs) move s) as [[v s1] t1].
  cbn [value fst] in Hv. subst v.
  match goal with |- context [_on_select os ?l ?u ?st] =>
    destruct (on_select_keeps_status l u st) as (ui' & Hsel & Hst) end.
  rewrite Hsel. exists results, ui'. cbn [value fst]. repeat split; try reflexivity.
  exact Hst.
Qed.
End Batch.

(* ------------------------------------------------------------------ *)
(** ** Sorting and the enumerator *)

Lemma str_ltb_asym (a b : pystr) : str_ltb a b = true -> str_ltb b a = false.
Proof.
  revert b. induction a as [|x a IH]; intros [|y b]; simpl; try discriminate; auto.
  intros H. apply orb_true_iff in H. apply orb_false_iff.
  destruct H as [H | H].
  - apply N.ltb_lt in H. split.
    + apply N.ltb_ge. lia.
    + apply andb_false_iff. left. apply N.eqb_neq. lia.
  - apply andb_true_iff in H as [Hxy Hab]. apply N.eqb_eq in Hxy. subst y. split.
    + apply N.ltb_irrefl.
    + rewrite N.eqb_refl. simpl. apply IH. exact Hab.
Qed.

Section SortedFacts.
Context {A : Type} (key : A -> pystr).

Lemma insert_by_perm x l : Permutation (insert_by key x l) (x :: l).
Proof.
  induction l as [|y l IH]; simpl; [reflexivity|].
  destruct (str_ltb (key y) (key x)); [|reflexivity].
  rewrite IH. apply perm_swap.
Qed.

Lemma sorted_perm l : Permutation (sorted key l) l.
Proof.
  induction l as [|x l IH]; simpl; [reflexivity|].
  rewrite insert_by_perm. constructor. exact IH.
Qed.

Lemma insert_by_hd a x l :
  HdRel (key_le key) a l -> key_le key a x -> HdRel (key_le key) a (insert_by key x l).
Proof.
  intros Hl Hx. destruct l as [|y l]; simpl.
  - constructor. exact Hx.
  - inversion Hl; subst. destruct (str_ltb (key y) (key x)); constructor; assumption.
Qed.

Lemma insert_by_sorted x l :
  Sorted (key_le key) l -> Sorted (key_le key) (insert_by key x l).
Proof.
  induction 1 as [|y l Hs IH Hhd]; simpl.
  - repeat constructor.
  - destruct (str_ltb (key y) (key x)) eqn:E.
    + constructor; [exact IH|]. apply insert_by_hd; [exact Hhd|].
      unfold key_le. apply str_ltb_asym. exact E.
    + constructor; [constructor; assumption|]. constructor. exact E.
Qed.

Lemma sorted_sorted l : Sorted (key_le key) (sorted key l).
Proof.
  induction l as [|x l IH]; simpl; [constructor|]. apply insert_by_sorted. exact IH.
Qed.
End SortedFacts.

Section Enumerator.
Context {W : Type} (os : Win32 W) (lower : pystr -> pystr).

Lemma is_real_app_window_run s h :
  answers os s h ->
  exists t, _is_real_app_window os h (getpid os s) s = (inr (is_candidate os s h), s, t).
Proof.
  intros (visible & title & tid & pid & cls & exstyle & Hv & Ht & Hp & Hc & He).
  unfold is_candidate, is_cloaked. rewrite Hv, Ht, Hp, Hc, He.
  unfold _is_real_app_window.
  cbv beta iota zeta delta [try_except bind ret query value final history fst snd].
  rewrite Hv; cbv beta iota.
  destruct visible; cbn [negb andb]; [|eexists; reflexivity].
  rewrite Ht; cbv beta iota.
  destruct (str_bool (strip title)); cbn [negb andb]; [|eexists; reflexivity].
  rewrite Hp; cbv beta iota.
  destruct (pid =? getpid os s); cbn [negb andb]; [eexists; reflexivity|].
  rewrite Hc; cbv beta iota.
  destruct (existsb (str_eqb cls) _SHELL_CLASSES); cbn [negb andb]; [eexists; reflexivity|].
  rewrite He; cbv beta iota.
  destruct (negb (Z.land exstyle WS_EX_TOOLWINDOW =? 0) && (Z.land exstyle WS_EX_APPWINDOW =? 0));
    cbn [negb andb]; [eexists; reflexivity|].
  destruct (DwmGetWindowAttribute_cloaked os s h) as [e|v]; cbv beta iota.
  - change (0 =? 0) with true. cbn [negb]. eexists; reflexivity.
  - destruct (v =? 0); cbn [negb]; eexists; reflexivity.
Qed.

Lemma enum_cb_run s hwnds results :
  (forall h, In h hwnds -> answers os s h) ->
  exists t,
    _enum_cb os hwnds (getpid os s) results s =
      (inr (results ++ map (fun h => (h, window_title os s h)) (filter (is_candidate os s) hwnds)),
       s, t).
Proof.
  revert results. induction hwnds as [|h hs IH]; intros results Hall.
  - eexists. cbn. rewrite app_nil_r. reflexivity.
  - cbn [_enum_cb]. unfold bind at 1.
    destruct (is_real_app_window_run s h (Hall h (or_introl eq_refl))) as (t1 & ->).
    assert (Hall' : forall h', In h' hs -> answers os s h') by (intros; apply Hall; right; assumption).
    cbn [filter]. destruct (is_candidate os s h) eqn:Hc.
    + unfold bind at 1, query.
      destruct (Hall h (or_introl eq_refl)) as (vi & title & ? & ? & ? & ? & _ & Ht & _).
      rewrite Ht.
      destruct (IH (results ++ [(h, title)]) Hall') as (t2 & ->).
      eexists. cbn [map]. unfold window_title at 2. rewrite Ht.
      rewrite <- app_assoc. reflexivity.
    + destruct (IH results Hall') as (t2 & ->). eexists. reflexivity.
Qed.

Lemma enum_windows_run s :
  (forall h, In h (EnumWindows os s) -> answers os s h) ->
  exists t,
    _enum_windows os lower s =
      (inr (sorted (fun x => lower (snd x)) (candidates os s)), s, t).
Proof.
  intros Hall. unfold _enum_windows.
  cbv beta iota zeta delta [bind ret query].
  destruct (enum_cb_run s (EnumWindows os s) [] Hall) as (t & ->).
  eexists. reflexivity.
Qed.
End Enumerator.

(* ------------------------------------------------------------------ *)
(** ** The results of a batch *)


Section BatchShapes.
Context {W : Type} (os : Win32 W).



Lemma batch_runs_length move hs (s : W) rs s' t :
  batch_runs os move hs s rs s' t -> List.length rs = List.length hs.
Proof. induction 1; cbn [List.length]; congruence. Qed.


End BatchShapes.

(* ------------------------------------------------------------------ *)
(** * The claims *)

Ltac in_list := repeat first [ left; reflexivity | right ].

(** C1.  In every pass the requested outer size is the current outer
    size plus the difference between the target and the current client
    size, both read in the state the request is issued in:
    [cx = lw + (TARGET_W - cw)] and [cy = lh + (TARGET_H - ch)].  In
    particular a request issued when the client area measures 1280x720
    and the outer rect 1296x759 asks for 1936x1119. *)
Theorem resize_requests_follow_delta :
  forall (W : Type) (os : Win32 W) (s : W) (h : HWND) (move : bool),
    Forall (request_ok os h) (history (_resize_window os h move s)) /\
    (forall after x y cx cy fl s1 lx ly,
       In (EvSetWindowPos h after x y cx cy fl, s1)
          (history (_resize_window os h move s)) ->
       outer_is os s1 h (lx, ly, 1296, 759) ->
       client_is os s1 h (1280, 720) ->
       cx = 1936 /\ cy = 1119).
Proof.
  intros W os s h move.
  pose proof (resize_window_requests os s h move) as Hall.
  split; [exact Hall|].
  intros after x y cx cy fl s1 lx ly Hin Ho Hc.
  rewrite Forall_forall in Hall. specialize (Hall _ Hin).
  unfold request_ok in Hall. cbn [fst snd] in Hall.
  destruct Hall as (_ & _ & lx' & ly' & lw & lh & cw & ch & Ho' & Hc' & -> & ->).
  unfold outer_is in Ho, Ho'. unfold client_is in Hc, Hc'.
  rewrite Ho in Ho'. rewrite Hc in Hc'.
  injection Ho' as <- <- <- <-. injection Hc' as <- <-.
  split; reflexivity.
Qed.

Lemma resize_requests_follow_delta_witness :
  In (EvSetWindowPos 10 HWND_TOP 0 0 1936 1119 54,
      snd (ShowWindow Desktop.os Scenes.game 10 SW_RESTORE))
     (history (_resize_window Desktop.os 10 false Scenes.game)) /\
  outer_is Desktop.os (snd (ShowWindow Desktop.os Scenes.game 10 SW_RESTORE)) 10
           (100, 100, 1296, 759) /\
  client_is Desktop.os (snd (ShowWindow Desktop.os Scenes.game 10 SW_RESTORE)) 10
            (1280, 720) /\
  (1936 = 1936 /\ 1119 = 1119).
Proof.
  assert (Hin : In (EvSetWindowPos 10 HWND_TOP 0 0 1936 1119 54,
                    snd (ShowWindow Desktop.os Scenes.game 10 SW_RESTORE))
                   (history (_resize_window Desktop.os 10 false Scenes.game)))
    by (vm_compute; in_list).
  assert (Ho : outer_is Desktop.os (snd (ShowWindow Desktop.os Scenes.game 10 SW_RESTORE))
                        10 (100, 100, 1296, 759)) by reflexivity.
  assert (Hc : client_is Desktop.os (snd (ShowWindow Desktop.os Scenes.game 10 SW_RESTORE))
                         10 (1280, 720)) by reflexivity.
  split; [exact Hin|]. split; [exact Ho|]. split; [exact Hc|].
  exact (proj2 (resize_requests_follow_delta _ Desktop.os Scenes.game 10 false)
               HWND_TOP 0 0 1936 1119 54 _ 100 100 Hin Ho Hc).
Defined.

(** The non-client margins are clamped: no component is negative. *)
Lemma nonclient_margins_clamped :
  forall (W : Type) (os : Win32 W) (s : W) (h : HWND) (l t r b : Z),
    value (_get_nonclient_margins os h s) = inr (l, t, r, b) ->
    0 <= l /\ 0 <= t /\ 0 <= r /\ 0 <= b.
Proof.
  intros W os s h l t r b. probe_unfold.
  repeat (step_core; cbv beta iota zeta delta [fst snd app]).
  all: intros H; injection H as <- <- <- <-; lia.
Qed.

(** C2.  The shadow margins are not clamped.  For a window whose outer
    rect is (100, 100)-(1396, 859) and whose extended-frame-bounds
    query left its buffer zeroed, [_get_shadow_margins] returns the raw
    differences, two of them negative, where the claim has every
    component at least 0. *)
Theorem shadow_margins_not_clamped :
  value (_get_shadow_margins Desktop.os 10 Scenes.frame_query_failed)
  = inr (-100, -100, 1396, 859).
Proof. reflexivity. Qed.

(** C3, as stated, fails: a window that is not maximized is sent the
    restore command all the same. *)
Lemma restore_not_conditional :
  ~ restore_only_when_maximized Desktop.os Scenes.game 10 false.
Proof.
  intros H. destruct H as (style & Hs & Hne).
  - vm_compute. in_list.
  - vm_compute in Hs. injection Hs as <-. apply Hne. reflexivity.
Qed.

(** C3, amended.  The restore command is issued for every window,
    maximized or not, as soon as the title and the style have been
    read; the 0.10 s settling pause follows exactly when the style had
    the maximized bit; nothing before the restore is a geometry
    measurement, and the first measurement is taken in the state the
    restore (and the pause, when there is one) has left. *)
Theorem restore_then_settle_before_measuring :
  forall (W : Type) (os : Win32 W) (s : W) (h : HWND) (move : bool)
         (title : pystr) (style : Z) (u : unit) (s1 : W),
    GetWindowText os s h = inr title ->
    GetWindowLong os s h GWL_STYLE = inr style ->
    ShowWindow os s h SW_RESTORE = (inr u, s1) ->
    exists pre post,
      history (_resize_window os h move s) =
        pre ++ (EvShowWindow h SW_RESTORE, s)
            :: (if Z.land style WS_MAXIMIZE =? 0 then [] else [(EvSleep 100, s1)])
            ++ (EvGetWindowRect h,
                if Z.land style WS_MAXIMIZE =? 0 then s1 else sleep os s1 100) :: post
      /\ Forall (fun x => is_measurement (fst x) = false /\
                          is_command (fst x) = false) pre.
Proof.
  intros W os s h move title style u s1. apply resize_window_restore.
Qed.

Lemma restore_then_settle_before_measuring_witness :
  GetWindowText Desktop.os Scenes.maximized 10 = inr (str "Game") /\
  GetWindowLong Desktop.os Scenes.maximized 10 GWL_STYLE = inr WS_MAXIMIZE /\
  ShowWindow Desktop.os Scenes.maximized 10 SW_RESTORE
    = (inr tt, snd (ShowWindow Desktop.os Scenes.maximized 10 SW_RESTORE)) /\
  exists pre post,
    history (_resize_window Desktop.os 10 false Scenes.maximized) =
      pre ++ (EvShowWindow 10 SW_RESTORE, Scenes.maximized)
          :: (if Z.land WS_MAXIMIZE WS_MAXIMIZE =? 0 then []
              else [(EvSleep 100, snd (ShowWindow Desktop.os Scenes.maximized 10 SW_RESTORE))])
          ++ (EvGetWindowRect 10,
              if Z.land WS_MAXIMIZE WS_MAXIMIZE =? 0
              then snd (ShowWindow Desktop.os Scenes.maximized 10 SW_RESTORE)
              else sleep Desktop.os
                     (snd (ShowWindow Desktop.os Scenes.maximized 10 SW_RESTORE)) 100)
          :: post
    /\ Forall (fun x => is_measurement (fst x) = false /\
                        is_command (fst x) = false) pre.
Proof.
  split; [reflexivity|]. split; [reflexivity|]. split; [reflexivity|].
  apply (restore_then_settle_before_measuring _ Desktop.os Scenes.maximized 10 false
           (str "Game") WS_MAXIMIZE tt
           (snd (ShowWindow Desktop.os Scenes.maximized 10 SW_RESTORE)));
    reflexivity.
Defined.

(** C4.  The size shown for a selection is not the answer of the
    client-rect query.  For a window that draws its own frame, with a
    1296x727 client area around a 1280x720 visible frame,
    [_client_wh] gives 1296x727 while [_get_client_size], which
    [_on_select] displays, subtracts the non-client margins from the
    visible rect and gives 1280x720. *)
Theorem selection_size_inferred_from_margins :
  value (_client_wh Desktop.os 10 Scenes.custom_chrome) = inr (1296, 727) /\
  value (_get_client_size Desktop.os 10 Scenes.custom_chrome) = inr (1280, 720) /\
  exists ui,
    value (_on_select Desktop.os [10] Scenes.blank_ui Scenes.custom_chrome) = inr ui /\
    size_var ui = str_of_Z 1280 ++ str " " ++ [TIMES_SIGN] ++ str " " ++ str_of_Z 720.
Proof.
  split; [reflexivity|]. split; [reflexivity|].
  eexists. split; reflexivity.
Qed.

(** C5, as stated, fails: the retry does not repeat the position
    decision.  For a docked window whose drop shadow appears with the
    first resize, the second request is issued at x = 0, the position
    decided before the first one, whereas the monitor origin minus the
    shadow margin measured at the time of the retry is x = -7. *)
Lemma retry_keeps_first_position :
  ~ retry_redecides_position Desktop.os Scenes.docked 10.
Proof.
  unfold retry_redecides_position.
  vm_compute.
  intros [_ (mx & my & sl & st & sr & sb & Hm & Hs & Hx & _)].
  injection Hm as <- <-. injection Hs as <- <- <- <-.
  discriminate Hx.
Qed.

(** C5, amended.  A run makes at most two size requests.  When there
    are two, the first one succeeded, the client size measured after
    its settling pause missed the target, and the second request was
    issued in that settled state with the same position and flags as
    the first and with the outer size the delta formula gives from the
    outer and client sizes measured there; after the second request and
    its pause the run ends: with the message of the exception if the
    request or the client measurement raised, with success if the
    client size now measured is the target, and otherwise with the
    "Attempted" message carrying that size.  When there is one request
    only, it either raised or was followed by a measurement that hit
    the target (or raised). *)
Theorem retry_once_with_fresh_delta :
  forall (W : Type) (os : Win32 W) (s : W) (h : HWND) (move : bool),
    pass_structure os h (_resize_window os h move s).
Proof.
  intros W os s h move. apply resize_window_passes.
Qed.

Section Landing.
Context {W : Type} (os : Win32 W).








End Landing.


(** On the scenario the specification gives, a shadow of 8 on a
    monitor at (1920, 0), the claim holds as it is stated. *)
Lemma stated_placement_on_second_monitor :
  position_from_clamped_shadow Desktop.os Scenes.second_monitor 10 /\
  visible_rect_lands_at_origin Desktop.os Scenes.second_monitor 10.
Proof.
  split.
  - unfold position_from_clamped_shadow.
    assert (E : setpos_events
                  (history (_resize_window Desktop.os 10 true Scenes.second_monitor))
                = [(EvSetWindowPos 10 HWND_TOP 1912 (-8) 1938 1128 base_flags,
                    Scenes.second_monitor)])
      by (vm_compute; reflexivity).
    rewrite E. cbn [fst snd].
    exists 1920, 0, 2000, 100, 1300, 800, 2008, 108, 1284, 784.
    repeat split.
  - intros _. exists 1920, 0. split; [reflexivity|].
    exists 1922, 1112. reflexivity.
Qed.




(** C8, as stated, fails: the outer rect does not always stay as it
    is.  With repositioning requested the call carries a position: the
    window of [Scenes.at_target] is not maximized, has a 1920x1080
    client area and honours requests exactly; the resize succeeds, and
    its outer rect has moved from (100, 100) to (-7, 0).  And the
    restore, issued whether or not the window is maximized, can change
    the geometry before anything is measured: the snapped window of
    [MoreScenes.snapped] is not maximized and has a 1920x1080 client
    area too; without repositioning the resize succeeds, and its outer
    rect has gone from (-7, 0, 1929, 1119) to (300, 200, 2236, 1319). *)
Lemma resize_at_target_can_move :
  (GetWindowLong Desktop.os Scenes.at_target 10 GWL_STYLE = inr 0 /\
   client_is Desktop.os Scenes.at_target 10 (TARGET_W, TARGET_H) /\
   value (_resize_window Desktop.os 10 true Scenes.at_target) = inr msg_success /\
   ~ resize_keeps_outer_rect Desktop.os Scenes.at_target 10 true) /\
  (GetWindowLong Desktop.os MoreScenes.snapped 10 GWL_STYLE = inr 0 /\
   client_is Desktop.os MoreScenes.snapped 10 (TARGET_W, TARGET_H) /\
   value (_resize_window Desktop.os 10 false MoreScenes.snapped) = inr msg_success /\
   GetWindowRect Desktop.os MoreScenes.snapped 10 = inr (-7, 0, 1929, 1119) /\
   GetWindowRect Desktop.os
     (final (_resize_window Desktop.os 10 false MoreScenes.snapped)) 10
     = inr (300, 200, 2236, 1319) /\
   ~ resize_keeps_outer_rect Desktop.os MoreScenes.snapped 10 false).
Proof.
  split.
  - split; [reflexivity|]. split; [reflexivity|]. split; [reflexivity|].
    unfold resize_keeps_outer_rect. vm_compute. discriminate.
  - split; [reflexivity|]. split; [reflexivity|]. split; [reflexivity|].
    split; [reflexivity|]. split; [reflexivity|].
    unfold resize_keeps_outer_rect. vm_compute. discriminate.
Qed.

(** The windows of [Scenes.at_target] honour a request for the size
    they have. *)
Lemma at_target_honours :
  honours Desktop.os (snd (ShowWindow Desktop.os Scenes.at_target 10 SW_RESTORE)) 10
          (100, 100, 2036, 1219) (0, 0, 1920, 1080).
Proof.
  unfold honours. intros x y fl.
  exists tt. eexists. split; [reflexivity|].
  assert (E : Z.land fl SWP_NOMOVE = SWP_NOMOVE -> (Z.land fl SWP_NOMOVE =? 0) = false)
    by (intros ->; reflexivity).
  cbv [Desktop.os GetClientRect GetWindowRect sleep SetWindowPos snd].
  cbn -[Z.add Z.sub Z.land Z.eqb SWP_NOMOVE].
  unfold Desktop.on_setpos, Desktop.honours_requests, Desktop.resize_with.
  cbn -[Z.add Z.sub Z.land Z.eqb SWP_NOMOVE].
  destruct (Z.land fl SWP_NOMOVE =? 0); cbn -[Z.add Z.sub Z.land Z.eqb SWP_NOMOVE].
  - split; [reflexivity|]. intros H. discriminate (E H).
  - split; [reflexivity|]. intros _. reflexivity.
Qed.

(** C8, amended.  Take a window that is not maximized, whose title and
    style can be read and whose restore call returns, leaving the state
    [s1].  If in [s1] its client size is the target and it honours a
    request for the outer size it has there (the call returns, the
    client area is afterwards what it was and, with [SWP_NOMOVE], so is
    the outer rect), then the run makes one size request, for the outer
    size measured in [s1] (zero delta), and the outcome is success;
    when repositioning is not requested the outer rect after the run is
    the outer rect of [s1], and so the outer rect from before the run
    whenever the restore did not change it. *)
Theorem resize_at_target_keeps_size :
  forall (W : Type) (os : Win32 W) (s : W) (h : HWND) (move : bool)
         (title : pystr) (style : Z) (u : unit) (s1 : W)
         (l t r b cl ct cr cb : Z),
    GetWindowText os s h = inr title ->
    GetWindowLong os s h GWL_STYLE = inr style ->
    Z.land style WS_MAXIMIZE = 0 ->
    ShowWindow os s h SW_RESTORE = (inr u, s1) ->
    GetWindowRect os s1 h = inr (l, t, r, b) ->
    GetClientRect os s1 h = inr (cl, ct, cr, cb) ->
    cr - cl = TARGET_W -> cb - ct = TARGET_H ->
    honours os s1 h (l, t, r, b) (cl, ct, cr, cb) ->
    (exists x y fl,
       setpos_events (history (_resize_window os h move s)) =
         [(EvSetWindowPos h HWND_TOP x y (r - l) (b - t) fl, s1)]) /\
    value (_resize_window os h move s) = inr msg_success /\
    (move = false ->
     GetWindowRect os (final (_resize_window os h move s)) h = GetWindowRect os s1 h) /\
    (move = false ->
     GetWindowRect os s1 h = GetWindowRect os s h ->
     resize_keeps_outer_rect os s h move).
Proof.
  intros W os s h move title style u s1 l t r b cl ct cr cb
         Ht Hs Hmax Hr Ho1 Hc1 Hw Hh Hon.
  destruct (resize_window_at_target os s h move title style u s1 l t r b cl ct cr cb
              Ht Hs Hmax Hr Ho1 Hc1 Hw Hh Hon) as (Hreq & Hval & Hrect).
  split; [exact Hreq|]. split; [exact Hval|]. split.
  - intros Hmv. rewrite Ho1. exact (Hrect Hmv).
  - intros Hmv Hsame. unfold resize_keeps_outer_rect.
    rewrite <- Hsame, Ho1. exact (Hrect Hmv).
Qed.

Lemma resize_at_target_keeps_size_witness :
  GetWindowText Desktop.os Scenes.at_target 10 = inr (str "Game") /\
  GetWindowLong Desktop.os Scenes.at_target 10 GWL_STYLE = inr 0 /\
  Z.land 0 WS_MAXIMIZE = 0 /\
  GetWindowRect Desktop.os (snd (ShowWindow Desktop.os Scenes.at_target 10 SW_RESTORE)) 10
    = inr (100, 100, 2036, 1219) /\
  GetClientRect Desktop.os (snd (ShowWindow Desktop.os Scenes.at_target 10 SW_RESTORE)) 10
    = inr (0, 0, 1920, 1080) /\
  ((exists x y fl,
      setpos_events (history (_resize_window Desktop.os 10 false Scenes.at_target)) =
        [(EvSetWindowPos 10 HWND_TOP x y (2036 - 100) (1219 - 100) fl,
          snd (ShowWindow Desktop.os Scenes.at_target 10 SW_RESTORE))]) /\
   value (_resize_window Desktop.os 10 false Scenes.at_target) = inr msg_success /\
   (false = false ->
    GetWindowRect Desktop.os (final (_resize_window Desktop.os 10 false Scenes.at_target)) 10
    = GetWindowRect Desktop.os
        (snd (ShowWindow Desktop.os Scenes.at_target 10 SW_RESTORE)) 10) /\
   (false = false ->
    GetWindowRect Desktop.os (snd (ShowWindow Desktop.os Scenes.at_target 10 SW_RESTORE)) 10
    = GetWindowRect Desktop.os Scenes.at_target 10 ->
    resize_keeps_outer_rect Desktop.os Scenes.at_target 10 false)).
Proof.
  split; [reflexivity|]. split; [reflexivity|]. split; [reflexivity|].
  split; [reflexivity|]. split; [reflexivity|].
  apply (resize_at_target_keeps_size _ Desktop.os Scenes.at_target 10 false
           (str "Game") 0 tt (snd (ShowWindow Desktop.os Scenes.at_target 10 SW_RESTORE))
           100 100 2036 1219 0 0 1920 1080);
    try reflexivity.
  exact at_target_honours.
Defined.

(** C7, as stated, fails: not every platform-call failure becomes an
    error outcome.  On a system without [GetDpiForWindow] the call
    raises during the resize, [_window_dpi] absorbs it, and the
    handle's result is the success message. *)
Lemma absorbed_failure_is_no_error :
  ~ every_failure_is_an_error Desktop.os Scenes.no_dpi_api 10 false.
Proof.
  intros H. destruct H as (e & He).
  - exists (EvGetDpiForWindow 10, Scenes.no_dpi_api).
    exists (str "function 'GetDpiForWindow' not found").
    split; [vm_compute; in_list | reflexivity].
  - vm_compute in He. discriminate He.
Qed.

(** C7, amended.  A batch over a non-empty list of handles never
    raises: the handles are resized one after the other in the order
    given, each from the state the previous one left, and each gives a
    result.  A failure inside a probe is absorbed by the probe's own
    fallback; a result is the "Error:" message of an exception exactly
    when the handle's run stopped at a call the controller makes itself
    (GetWindowText, GetWindowLong, ShowWindow, GetClientRect,
    SetWindowPos) that raised it, and the remaining handles are
    processed all the same.  The status text has the check mark exactly
    when every handle's result has it. *)
Theorem batch_isolates_failures :
  forall (W : Type) (os : Win32 W) (hwnds : list HWND) (move : bool)
         (ui : Ui) (s : W),
    hwnds <> [] ->
    exists results ui',
      value (resize_each os hwnds move s) = inr results /\
      batch_runs os move hwnds s results
        (final (resize_each os hwnds move s))
        (history (resize_each os hwnds move s)) /\
      value (_do_resize os hwnds move ui s) = inr ui' /\
      status_var ui' = batch_msg results /\
      (has_check (status_var ui') = true <->
       Forall (fun r => has_check r = true) results).
Proof.
  intros W os hwnds move ui s Hne.
  destruct (resize_each_runs os hwnds move s) as (results & Hv & Hb).
  destruct (do_resize_status os hwnds move ui s Hne) as (results' & ui' & Hv' & Hd & Hst).
  rewrite Hv in Hv'. injection Hv' as <-.
  exists results, ui'. repeat split; try assumption.
  - rewrite Hst. apply batch_msg_check.
    apply batch_runs_length in Hb. destruct results; [|discriminate].
    destruct hwnds; [contradiction | discriminate Hb].
  - rewrite Hst. apply batch_msg_check.
    apply batch_runs_length in Hb. destruct results; [|discriminate].
    destruct hwnds; [contradiction | discriminate Hb].
Qed.

Lemma batch_isolates_failures_witness :
  Scenes.batch_handles <> [] /\
  exists results ui',
    value (resize_each Desktop.os Scenes.batch_handles false Scenes.batch) = inr results /\
    batch_runs Desktop.os false Scenes.batch_handles Scenes.batch results
      (final (resize_each Desktop.os Scenes.batch_handles false Scenes.batch))
      (history (resize_each Desktop.os Scenes.batch_handles false Scenes.batch)) /\
    value (_do_resize Desktop.os Scenes.batch_handles false Scenes.blank_ui Scenes.batch)
      = inr ui' /\
    status_var ui' = batch_msg results /\
    (has_check (status_var ui') = true <->
     Forall (fun r => has_check r = true) results).
Proof.
  split; [discriminate|].
  apply (batch_isolates_failures _ Desktop.os Scenes.batch_handles false
           Scenes.blank_ui Scenes.batch).
  discriminate.
Defined.



(** C9.  When the filter's queries answer for the enumerated windows,
    [_enum_windows] returns, without raising and without changing
    anything, exactly the (handle, title) pairs of the windows that
    pass every filter (visible, title non-empty once trimmed, not the
    utility's own process, class outside the shell deny-list, not a
    tool window unless also an app window, not cloaked, a cloak query
    that raises counting as not cloaked), sorted by lower-cased title;
    when no window qualifies the result is the empty list. *)
Theorem enum_windows_lists_candidates :
  forall (W : Type) (os : Win32 W) (lower : pystr -> pystr) (s : W),
    (forall h, In h (EnumWindows os s) -> answers os s h) ->
    exists l,
      value (_enum_windows os lower s) = inr l /\
      final (_enum_windows os lower s) = s /\
      l = sorted (fun x => lower (snd x)) (candidates os s) /\
      Permutation l (candidates os s) /\
      Sorted (key_le (fun x => lower (snd x))) l /\
      (forall h t,
         In (h, t) l <->
         In h (EnumWindows os s) /\ is_candidate os s h = true /\
         t = window_title os s h) /\
      (candidates os s = [] -> l = []).
Proof.
  intros W os lower s Hall.
  destruct (enum_windows_run os lower s Hall) as (t & Hrun).
  exists (sorted (fun x => lower (snd x)) (candidates os s)).
  rewrite Hrun. cbn [value final fst snd].
  split; [reflexivity|]. split; [reflexivity|]. split; [reflexivity|].
  split; [apply sorted_perm|]. split; [apply sorted_sorted|]. split.
  - intros h title. split.
    + intros Hin.
      apply (Permutation_in _ (sorted_perm (fun x => lower (snd x)) (candidates os s)))
        in Hin.
      unfold candidates in Hin. apply in_map_iff in Hin as (h' & Heq & Hf).
      injection Heq as -> <-. apply filter_In in Hf as [Hen Hc].
      repeat split; assumption.
    + intros (Hen & Hc & ->).
      apply (Permutation_in _
               (Permutation_sym (sorted_perm (fun x => lower (snd x)) (candidates os s)))).
      unfold candidates. apply in_map_iff. exists h. split; [reflexivity|].
      apply filter_In. split; assumption.
  - intros ->. reflexivity.
Qed.

Lemma crowded_answers :
  forall h, In h (EnumWindows Desktop.os Scenes.crowded) -> answers Desktop.os Scenes.crowded h.
Proof.
  intros h Hin. cbn in Hin.
  repeat (destruct Hin as [<- | Hin];
          [do 6 eexists; repeat split; reflexivity|]).
  contradiction.
Qed.

Lemma enum_windows_lists_candidates_witness :
  (forall h, In h (EnumWindows Desktop.os Scenes.crowded) ->
             answers Desktop.os Scenes.crowded h) /\
  exists l,
    value (_enum_windows Desktop.os ascii_lower Scenes.crowded) = inr l /\
    final (_enum_windows Desktop.os ascii_lower Scenes.crowded) = Scenes.crowded /\
    l = sorted (fun x => ascii_lower (snd x)) (candidates Desktop.os Scenes.crowded) /\
    Permutation l (candidates Desktop.os Scenes.crowded) /\
    Sorted (key_le (fun x => ascii_lower (snd x))) l /\
    (forall h t,
       In (h, t) l <->
       In h (EnumWindows Desktop.os Scenes.crowded) /\
       is_candidate Desktop.os Scenes.crowded h = true /\
       t = window_title Desktop.os Scenes.crowded h) /\
    (candidates Desktop.os Scenes.crowded = [] -> l = []).
Proof.
  split; [exact crowded_answers|].
  exact (enum_windows_lists_candidates _ Desktop.os ascii_lower Scenes.crowded
           crowded_answers).
Defined.

(** On the crowded desktop the list is Alpha, beta, Calc; with only the
    shell and the utility's own window it is empty. *)
Example enum_windows_examples :
  value (_enum_windows Desktop.os ascii_lower Scenes.crowded)
    = inr [(4, str "Alpha"); (3, str "beta"); (9, str "Calc")] /\
  value (_enum_windows Desktop.os ascii_lower Scenes.bare) = inr [].
Proof. split; reflexivity. Qed.
(* ------------------------------------------------------------------ *)
(** ** The probes, one by one *)

#[export] Hint Extern 1 (rect_query _ _ = true) =>
  cbn [rect_query]; rewrite ?Z.eqb_refl; reflexivity : probes.
#[export] Hint Extern 1 (monitor_query _ _ = true) =>
  cbn [monitor_query]; rewrite ?Z.eqb_refl; reflexivity : probes.
#[export] Hint Extern 1 (dpi_query _ _ = true) =>
  cbn [dpi_query]; rewrite ?Z.eqb_refl; reflexivity : probes.
#[export] Hint Extern 1 (awareness_query _ = true) => reflexivity : probes.

Section ProbeReads.
Context {W : Type} (os : Win32 W).

Lemma _get_window_rect_reads h : probe (rect_query h) (_get_window_rect os h).
Proof. probe_tac. Qed.

Lemma _get_visible_rect_reads h : probe (rect_query h) (_get_visible_rect os h).
Proof. probe_tac. Qed.

Lemma _get_shadow_margins_reads h : probe (rect_query h) (_get_shadow_margins os h).
Proof. probe_tac. Qed.

Lemma _get_nonclient_margins_reads h :
  probe (rect_query h) (_get_nonclient_margins os h).
Proof. probe_tac. Qed.

Lemma _get_client_size_reads h : probe (rect_query h) (_get_client_size os h).
Proof.
  intros s. unfold _get_client_size, bind.
  destruct (_get_nonclient_margins_reads h s) as ([[[ncl nct] ncr] ncb] & t1 & -> & R1).
  destruct (_get_visible_rect_reads h s) as ([[[vx vy] vw] vh] & t2 & -> & R2).
  cbv beta iota zeta delta [ret]. do 2 eexists. split; [reflexivity|].
  auto with probes.
Qed.

Lemma _get_monitor_top_left_reads h :
  probe (monitor_query h) (_get_monitor_top_left os h).
Proof. probe_tac. Qed.

Lemma _window_dpi_reads h : probe (dpi_query h) (_window_dpi os h).
Proof. probe_tac. Qed.

Lemma _dpi_awareness_str_reads : probe awareness_query (_dpi_awareness_str os).
Proof. probe_tac. Qed.

(** What the rect probes return, from the answers of the platform. *)
Lemma _get_window_rect_value h s :
  value (_get_window_rect os h s) =
    inr (match GetWindowRect os s h with
         | inr (l, t, r, b) => (l, t, r - l, b - t)
         | inl _ => (0, 0, 0, 0)
         end).
Proof.
  probe_unfold. destruct (GetWindowRect os s h) as [e|[[[l t] r] b]]; reflexivity.
Qed.

Lemma _get_visible_rect_value h s :
  value (_get_visible_rect os h s) =
    match DwmGetWindowAttribute_frame os s h with
    | inr (l, t, r, b) => inr (l, t, r - l, b - t)
    | inl _ => value (_get_window_rect os h s)
    end.
Proof.
  probe_unfold.
  destruct (DwmGetWindowAttribute_frame os s h) as [e|[[[l t] r] b]];
    [destruct (GetWindowRect os s h) as [e'|[[[l t] r] b]]|]; reflexivity.
Qed.

Lemma _get_shadow_margins_value h s :
  value (_get_shadow_margins os h s) =
    inr (match GetWindowRect os s h, DwmGetWindowAttribute_frame os s h with
         | inr (ol, ot, or_, ob), inr (l, t, r, b) => (l - ol, t - ot, or_ - r, ob - b)
         | _, _ => (0, 0, 0, 0)
         end).
Proof.
  probe_unfold.
  destruct (GetWindowRect os s h) as [e|[[[ol ot] or_] ob]]; [reflexivity|].
  destruct (DwmGetWindowAttribute_frame os s h) as [e|[[[l t] r] b]]; reflexivity.
Qed.
End ProbeReads.

(** X1.  The eight probes never raise, leave the platform as it is and
    only ask their own questions: the four rect probes and the inferred
    client size read rects of the window they are given, the monitor
    probe its monitor, the two DPI probes the DPI. *)
Theorem probes_only_read :
  forall (W : Type) (os : Win32 W) (h : HWND),
    probe (rect_query h) (_get_window_rect os h) /\
    probe (rect_query h) (_get_visible_rect os h) /\
    probe (rect_query h) (_get_shadow_margins os h) /\
    probe (rect_query h) (_get_nonclient_margins os h) /\
    probe (rect_query h) (_get_client_size os h) /\
    probe (monitor_query h) (_get_monitor_top_left os h) /\
    probe (dpi_query h) (_window_dpi os h) /\
    probe awareness_query (_dpi_awareness_str os).
Proof.
  intros W os h.
  repeat split.
  - apply _get_window_rect_reads.
  - apply _get_visible_rect_reads.
  - apply _get_shadow_margins_reads.
  - apply _get_nonclient_margins_reads.
  - apply _get_client_size_reads.
  - apply _get_monitor_top_left_reads.
  - apply _window_dpi_reads.
  - apply _dpi_awareness_str_reads.
Qed.

(** X2.  When the extended-frame-bounds query raises, the visible rect
    is the outer rect; when the outer-rect query raises as well, it is
    the zero rect. *)
Theorem visible_rect_falls_back_to_outer :
  forall (W : Type) (os : Win32 W) (s : W) (h : HWND) (e : exn),
    DwmGetWindowAttribute_frame os s h = inl e ->
    value (_get_visible_rect os h s) = value (_get_window_rect os h s) /\
    (forall e', GetWindowRect os s h = inl e' ->
                value (_get_visible_rect os h s) = inr (0, 0, 0, 0)).
Proof.
  intros W os s h e He.
  rewrite _get_visible_rect_value, He. split; [reflexivity|].
  intros e' He'. rewrite _get_window_rect_value, He'. reflexivity.
Qed.

Lemma visible_rect_falls_back_to_outer_witness :
  DwmGetWindowAttribute_frame Desktop.os MoreScenes.no_dwm 10
    = inl (str "dwmapi not available") /\
  value (_get_visible_rect Desktop.os 10 MoreScenes.no_dwm)
    = value (_get_window_rect Desktop.os 10 MoreScenes.no_dwm) /\
  (forall e', GetWindowRect Desktop.os MoreScenes.no_dwm 10 = inl e' ->
              value (_get_visible_rect Desktop.os 10 MoreScenes.no_dwm) = inr (0, 0, 0, 0)).
Proof.
  split; [reflexivity|].
  apply (visible_rect_falls_back_to_outer _ Desktop.os MoreScenes.no_dwm 10
           (str "dwmapi not available")).
  reflexivity.
Defined.

(** X3.  Whenever the outer rect can be read, the three rect probes
    agree: the visible rect is the outer rect shrunk by the shadow
    margins, on every side. *)
Theorem shadow_margins_relate_outer_and_visible :
  forall (W : Type) (os : Win32 W) (s : W) (h : HWND) (o : quad),
    GetWindowRect os s h = inr o ->
    exists lx ly lw lh vx vy vw vh sl st sr sb,
      value (_get_window_rect os h s) = inr (lx, ly, lw, lh) /\
      value (_get_visible_rect os h s) = inr (vx, vy, vw, vh) /\
      value (_get_shadow_margins os h s) = inr (sl, st, sr, sb) /\
      vx = lx + sl /\ vy = ly + st /\
      vw = lw - sl - sr /\ vh = lh - st - sb.
Proof.
  intros W os s h [[[ol ot] or_] ob] Ho.
  rewrite _get_visible_rect_value, _get_shadow_margins_value, _get_window_rect_value, Ho.
  destruct (DwmGetWindowAttribute_frame os s h) as [e|[[[l t] r] b]].
  - exists ol, ot, (or_ - ol), (ob - ot), ol, ot, (or_ - ol), (ob - ot), 0, 0, 0, 0.
    repeat split; lia.
  - exists ol, ot, (or_ - ol), (ob - ot), l, t, (r - l), (b - t),
           (l - ol), (t - ot), (or_ - r), (ob - b).
    repeat split; lia.
Qed.

Lemma shadow_margins_relate_outer_and_visible_witness :
  GetWindowRect Desktop.os Scenes.second_monitor 10 = inr (2000, 100, 3300, 900) /\
  exists lx ly lw lh vx vy vw vh sl st sr sb,
    value (_get_window_rect Desktop.os 10 Scenes.second_monitor) = inr (lx, ly, lw, lh) /\
    value (_get_visible_rect Desktop.os 10 Scenes.second_monitor) = inr (vx, vy, vw, vh) /\
    value (_get_shadow_margins Desktop.os 10 Scenes.second_monitor) = inr (sl, st, sr, sb) /\
    vx = lx + sl /\ vy = ly + st /\
    vw = lw - sl - sr /\ vh = lh - st - sb.
Proof.
  split; [reflexivity|].
  apply (shadow_margins_relate_outer_and_visible _ Desktop.os Scenes.second_monitor 10
           (2000, 100, 3300, 900)).
  reflexivity.
Defined.
(* ------------------------------------------------------------------ *)
(** ** The inferred client size *)

Section ClientSize.
Context {W : Type} (os : Win32 W).

(** The non-client margins are never negative. *)
Lemma _get_nonclient_margins_nonneg h s l t r b :
  value (_get_nonclient_margins os h s) = inr (l, t, r, b) ->
  0 <= l /\ 0 <= t /\ 0 <= r /\ 0 <= b.
Proof.
  probe_unfold.
  repeat (step_core; cbv beta iota zeta delta [fst snd app]).
  all: intros H; injection H as <- <- <- <-; repeat split; lia.
Qed.

(** The inferred client size, from the two probes it is made of. *)
Lemma _get_client_size_value h s :
  exists ncl nct ncr ncb vx vy vw vh,
    value (_get_nonclient_margins os h s) = inr (ncl, nct, ncr, ncb) /\
    value (_get_visible_rect os h s) = inr (vx, vy, vw, vh) /\
    value (_get_client_size os h s) = inr (vw - ncl - ncr, vh - nct - ncb).
Proof.
  unfold _get_client_size, bind.
  destruct (_get_nonclient_margins_reads os h s) as ([[[ncl nct] ncr] ncb] & t1 & E1 & _).
  destruct (_get_visible_rect_reads os h s) as ([[[vx vy] vw] vh] & t2 & E2 & _).
  rewrite E1, E2. exists ncl, nct, ncr, ncb, vx, vy, vw, vh.
  repeat split.
Qed.
End ClientSize.

(** X4.  When the client area, mapped to the screen, lies inside the
    extended frame bounds, the size inferred from the margins is the
    size of the mapped client area; it is then the size [GetClientRect]
    gives as soon as the mapping keeps distances. *)
Theorem inferred_client_size_inside_frame :
  forall (W : Type) (os : Win32 W) (s : W) (h : HWND)
         (fl ft fr fb cl ct cr cb cx0 cy0 cx1 cy1 : Z),
    DwmGetWindowAttribute_frame os s h = inr (fl, ft, fr, fb) ->
    GetClientRect os s h = inr (cl, ct, cr, cb) ->
    ClientToScreen os s h (cl, ct) = inr (cx0, cy0) ->
    ClientToScreen os s h (cr, cb) = inr (cx1, cy1) ->
    fl <= cx0 -> ft <= cy0 -> cx1 <= fr -> cy1 <= fb ->
    value (_get_client_size os h s) = inr (cx1 - cx0, cy1 - cy0) /\
    (cx1 - cx0 = cr - cl -> cy1 - cy0 = cb - ct ->
     value (_get_client_size os h s) = value (_client_wh os h s)).
Proof.
  intros W os s h fl ft fr fb cl ct cr cb cx0 cy0 cx1 cy1 Hf Hc H0 H1 Hl Ht Hr Hb.
  assert (E : value (_get_client_size os h s) = inr (cx1 - cx0, cy1 - cy0)).
  { unfold _get_client_size, _get_nonclient_margins, _get_visible_rect,
      try_except, bind, query, ret, value.
    rewrite Hf, Hc. cbn [fst snd app]. rewrite H0. cbn [fst snd app]. rewrite H1.
    cbn [fst snd app]. rewrite Hf. cbn [fst snd app].
    f_equal. f_equal; lia. }
  split; [exact E|].
  intros Hw Hh. rewrite E.
  unfold _client_wh, bind, query, ret, value. rewrite Hc. cbn [fst snd].
  rewrite Hw, Hh. reflexivity.
Qed.

Lemma inferred_client_size_inside_frame_witness :
  DwmGetWindowAttribute_frame Desktop.os Scenes.game 10 = inr (107, 100, 1389, 852) /\
  GetClientRect Desktop.os Scenes.game 10 = inr (0, 0, 1280, 720) /\
  ClientToScreen Desktop.os Scenes.game 10 (0, 0) = inr (108, 131) /\
  ClientToScreen Desktop.os Scenes.game 10 (1280, 720) = inr (1388, 851) /\
  107 <= 108 /\ 100 <= 131 /\ 1388 <= 1389 /\ 851 <= 852 /\
  value (_get_client_size Desktop.os 10 Scenes.game) = inr (1388 - 108, 851 - 131) /\
  (1388 - 108 = 1280 - 0 -> 851 - 131 = 720 - 0 ->
   value (_get_client_size Desktop.os 10 Scenes.game)
     = value (_client_wh Desktop.os 10 Scenes.game)).
Proof.
  do 4 (split; [reflexivity|]).
  do 4 (split; [lia|]).
  apply (inferred_client_size_inside_frame _ Desktop.os Scenes.game 10
           107 100 1389 852 0 0 1280 720 108 131 1388 851);
    first [reflexivity | lia].
Defined.

(** X5.  The inferred client size never exceeds the size of the visible
    rect, whatever the platform answers. *)
Theorem inferred_client_size_within_visible :
  forall (W : Type) (os : Win32 W) (s : W) (h : HWND),
  exists w h' vx vy vw vh,
    value (_get_client_size os h s) = inr (w, h') /\
    value (_get_visible_rect os h s) = inr (vx, vy, vw, vh) /\
    w <= vw /\ h' <= vh.
Proof.
  intros W os s h.
  destruct (_get_client_size_value os h s)
    as (ncl & nct & ncr & ncb & vx & vy & vw & vh & Em & Ev & Ec).
  destruct (_get_nonclient_margins_nonneg os h s _ _ _ _ Em) as (Hl & Ht & Hr & Hb).
  exists (vw - ncl - ncr), (vh - nct - ncb), vx, vy, vw, vh.
  repeat split; auto; lia.
Qed.
(* ------------------------------------------------------------------ *)
(** ** What a resize asks of the platform *)

(** As [rstep], with the probes' own kinds of question. *)
Ltac xstep :=
  match goal with
  | |- context [match ?x with _ => _ end] =>
      lazymatch x with
      | context [match _ with _ => _ end] => fail
      | _window_dpi ?os ?h ?s => use_probe (_window_dpi_reads os h s)
      | _dpi_awareness_str ?os ?s => use_probe (_dpi_awareness_str_reads os s)
      | _get_window_rect ?os ?h ?s => use_probe (_get_window_rect_reads os h s)
      | _get_visible_rect ?os ?h ?s => use_probe (_get_visible_rect_reads os h s)
      | _get_shadow_margins ?os ?h ?s => use_probe (_get_shadow_margins_reads os h s)
      | _get_nonclient_margins ?os ?h ?s =>
          use_probe (_get_nonclient_margins_reads os h s)
      | _get_monitor_top_left ?os ?h ?s =>
          use_probe (_get_monitor_top_left_reads os h s)
      | filter _ _ => fail
      | fold_right _ _ _ => fail
      | _ =>
          first [ match goal with H : x = _ |- _ => rewrite H end
                | tryif is_var x then destruct x else destruct x eqn:? ]
      end
  end; cbn [fst snd app negb].

Ltac eqb_hyps :=
  repeat match goal with
  | H : _ && _ = true |- _ => apply andb_true_iff in H; destruct H
  | H : (_ =? _) = true |- _ => apply Z.eqb_eq in H
  end.

(** The calls of a probe are allowed calls. *)
Ltac allowed_reads :=
  eapply reads_Forall; [eassumption|];
  intros [] HP; simpl in HP; try discriminate HP;
  eqb_hyps; subst; cbn [allowed fst]; auto.

Section Slept.
Context {W : Type}.

Lemma slept_app (t1 t2 : History W) : slept (t1 ++ t2) = slept t1 + slept t2.
Proof.
  induction t1 as [|[e s] t1 IH]; cbn [app slept fold_right fst]; [reflexivity|].
  fold (slept (t1 ++ t2)). fold (slept t1). rewrite IH.
  destruct e; lia.
Qed.

Lemma slept_cons (x : Event * W) (t : History W) :
  slept (x :: t) = slept [x] + slept t.
Proof. exact (slept_app [x] t). Qed.

Lemma slept_reads P (s : W) t :
  reads P s t -> (forall e, P e = true -> is_sleep e = false) -> slept t = 0.
Proof.
  intros R HP. induction R as [|[e s'] t [_ He] _ IH]; [reflexivity|].
  cbn [slept fold_right fst]. fold (slept t). rewrite IH.
  cbn [fst] in He. specialize (HP e He). destruct e; try reflexivity; discriminate.
Qed.

Lemma rect_query_not_sleep h e : rect_query h e = true -> is_sleep e = false.
Proof. destruct e; simpl; intros; try reflexivity; discriminate. Qed.
Lemma monitor_query_not_sleep h e : monitor_query h e = true -> is_sleep e = false.
Proof. destruct e; simpl; intros; try reflexivity; discriminate. Qed.
Lemma dpi_query_not_sleep h e : dpi_query h e = true -> is_sleep e = false.
Proof. destruct e; simpl; intros; try reflexivity; discriminate. Qed.
Lemma awareness_query_not_sleep e : awareness_query e = true -> is_sleep e = false.
Proof. destruct e; simpl; intros; try reflexivity; discriminate. Qed.

Lemma rect_query_not_setpos h e : rect_query h e = true -> is_setpos e = false.
Proof. destruct e; simpl; intros; try reflexivity; discriminate. Qed.
Lemma monitor_query_not_setpos h e : monitor_query h e = true -> is_setpos e = false.
Proof. destruct e; simpl; intros; try reflexivity; discriminate. Qed.
Lemma dpi_query_not_setpos h e : dpi_query h e = true -> is_setpos e = false.
Proof. destruct e; simpl; intros; try reflexivity; discriminate. Qed.
Lemma awareness_query_not_setpos e : awareness_query e = true -> is_setpos e = false.
Proof. destruct e; simpl; intros; try reflexivity; discriminate. Qed.
End Slept.

Ltac slept_norm :=
  hnorm;
  repeat progress
    (rewrite ?slept_app;
     repeat match goal with
     | |- context [slept (?x :: ?t)] =>
         lazymatch t with [] => fail | _ => rewrite (slept_cons x t) end
     end;
     repeat match goal with
     | R : reads (rect_query ?h) ?s ?t |- context [slept ?t] =>
         rewrite (slept_reads (rect_query h) s t R (rect_query_not_sleep h))
     | R : reads (monitor_query ?h) ?s ?t |- context [slept ?t] =>
         rewrite (slept_reads (monitor_query h) s t R (monitor_query_not_sleep h))
     | R : reads (dpi_query ?h) ?s ?t |- context [slept ?t] =>
         rewrite (slept_reads (dpi_query h) s t R (dpi_query_not_sleep h))
     | R : reads awareness_query ?s ?t |- context [slept ?t] =>
         rewrite (slept_reads awareness_query s t R awareness_query_not_sleep)
     end);
  cbn [slept fold_right fst].

Ltac xkill_setpos :=
  repeat match goal with
  | R : reads (rect_query ?h) ?s ?t |- context [filter _ ?t] =>
      rewrite (reads_filter (rect_query h) s t is_setpos R (rect_query_not_setpos h))
  | R : reads (monitor_query ?h) ?s ?t |- context [filter _ ?t] =>
      rewrite (reads_filter (monitor_query h) s t is_setpos R (monitor_query_not_setpos h))
  | R : reads (dpi_query ?h) ?s ?t |- context [filter _ ?t] =>
      rewrite (reads_filter (dpi_query h) s t is_setpos R (dpi_query_not_setpos h))
  | R : reads awareness_query ?s ?t |- context [filter _ ?t] =>
      rewrite (reads_filter awareness_query s t is_setpos R awareness_query_not_setpos)
  end.

Ltac xsetpos_norm :=
  unfold setpos_events; hnorm;
  repeat progress (rewrite ?filter_app; cbn [filter fst is_setpos app];
                   xkill_setpos);
  cbn [List.length].

Section Discipline.
Context {W : Type} (os : Win32 W).

(** Every call of a run is an allowed call. *)
Lemma resize_window_allowed s h move :
  Forall (fun x => allowed h move (fst x)) (history (_resize_window os h move s)).
Proof.
  runfold.
  repeat xstep.
  all: hnorm; forall_split.
  all: try allowed_reads.
  all: cbn [allowed fst]; auto.
Qed.

(** A run pauses for 100 ms at most once and for 150 ms once after
    each size request that returned. *)
Lemma resize_window_slept s h move :
  let t := history (_resize_window os h move s) in
  0 <= slept t <= 100 + 150 * Z.of_nat (List.length (setpos_events t)) /\
  (List.length (setpos_events t) <= 2)%nat.
Proof.
  runfold.
  repeat xstep.
  all: cbv zeta; xsetpos_norm; slept_norm; split; lia.
Qed.
End Discipline.
(* ------------------------------------------------------------------ *)
(** ** The resize controller *)

Section ForallFacts.
Context {A : Type}.

Lemma Forall_map_fst {B : Type} (P : A -> Prop) (l : list (A * B)) :
  Forall (fun x => P (fst x)) l -> Forall P (map fst l).
Proof. induction 1; constructor; auto. Qed.
End ForallFacts.

(** X6.  [_resize_window] calls no window but its target, nothing
    outside its list of calls (no enumeration, no message box), always
    restores with [SW_RESTORE], always inserts at [HWND_TOP], and asks
    for the monitor only when it is to move the window. *)
Theorem resize_asks_only_of_its_target :
  forall (W : Type) (os : Win32 W) (s : W) (h : HWND) (move : bool),
    Forall (fun x => allowed h move (fst x)) (history (_resize_window os h move s)) /\
    Forall (fun e => handle_of e = None \/ handle_of e = Some h)
           (calls (history (_resize_window os h move s))) /\
    (move = false ->
     Forall (fun e => monitor_query h e = false)
            (calls (history (_resize_window os h move s)))).
Proof.
  intros W os s h move.
  pose proof (resize_window_allowed os s h move) as H.
  split; [exact H|]. split.
  - apply Forall_map_fst. eapply Forall_impl; [|exact H].
    intros [e s0]. cbn [fst]. destruct e; cbn [allowed handle_of]; intros Ha;
      try (left; reflexivity); right; f_equal; intuition.
  - intros ->. apply Forall_map_fst. eapply Forall_impl; [|exact H].
    intros [e s0]. cbn [fst]. destruct e; cbn [allowed monitor_query];
      intros Ha; try reflexivity; intuition discriminate.
Qed.

(** X7.  Every size request carries [SWP_NOZORDER], [SWP_NOACTIVATE]
    and [SWP_FRAMECHANGED], never [SWP_NOSIZE], and [SWP_NOMOVE]
    exactly when the window is not to be moved. *)
Theorem size_requests_carry_fixed_flags :
  forall (W : Type) (os : Win32 W) (s : W) (h : HWND) (move : bool),
    Forall (fun e => match e with
                     | EvSetWindowPos _ _ _ _ _ _ fl =>
                         Z.land fl base_flags = base_flags /\
                         Z.land fl SWP_NOSIZE = 0 /\
                         (Z.land fl SWP_NOMOVE =? 0) = move
                     | _ => True
                     end)
           (calls (history (_resize_window os h move s))).
Proof.
  intros W os s h move.
  apply Forall_map_fst. eapply Forall_impl; [|exact (resize_window_allowed os s h move)].
  intros [e s0]. cbn [fst]. destruct e; cbn [allowed]; auto.
  intros (_ & _ & ->). destruct move; repeat split.
Qed.

(** X8.  A run pauses at most three times, for 100 ms (once, before
    measuring) or 150 ms (once after each size request that returned):
    at most 400 ms in all. *)
Theorem resize_waits_at_most_400ms :
  forall (W : Type) (os : Win32 W) (s : W) (h : HWND) (move : bool),
    0 <= slept (history (_resize_window os h move s)) <= 400 /\
    slept (history (_resize_window os h move s))
      <= 100 + 150 * Z.of_nat (List.length
                                 (setpos_events (history (_resize_window os h move s)))) /\
    Forall (fun e => match e with
                     | EvSleep ms => ms = 100 \/ ms = 150
                     | _ => True
                     end)
           (calls (history (_resize_window os h move s))).
Proof.
  intros W os s h move.
  destruct (resize_window_slept os s h move) as [[H0 H1] H2].
  split; [lia|]. split; [exact H1|].
  apply Forall_map_fst. eapply Forall_impl; [|exact (resize_window_allowed os s h move)].
  intros [e s0]. cbn [fst]. destruct e; cbn [allowed]; auto.
Qed.

Section Messages.
Context {W : Type} (os : Win32 W).

Lemma msg_success_not_attempted fw fh : msg_success <> msg_attempted fw fh.
Proof. discriminate. Qed.

Lemma msg_success_not_error e : msg_success <> msg_error e.
Proof. discriminate. Qed.

Lemma client_is_functional (s : W) h a b : client_is os s h a -> client_is os s h b -> a = b.
Proof. unfold client_is. intros Ha Hb. rewrite Ha in Hb. injection Hb. auto. Qed.

Lemma failing_call_in_history (t t' : History W) x e :
  t = t' ++ [x] -> is_direct (fst x) = true -> failure os x = Some e ->
  ~ Forall (no_direct_failure os) t.
Proof.
  intros -> Hd Hf HF. apply Forall_app in HF. destruct HF as [_ HF].
  inversion HF as [|? ? Hx _]; subst. specialize (Hx Hd). congruence.
Qed.
End Messages.

(** X9.  The success message is returned exactly when the run ends with
    a client area that [GetClientRect] gives as 1920x1080 and none of
    the calls the controller made itself raised. *)
Theorem success_message_iff_target_reached :
  forall (W : Type) (os : Win32 W) (s : W) (h : HWND) (move : bool),
    value (_resize_window os h move s) = inr msg_success <->
    client_is os (final (_resize_window os h move s)) h (TARGET_W, TARGET_H) /\
    Forall (no_direct_failure os) (history (_resize_window os h move s)).
Proof.
  intros W os s h move.
  destruct (resize_window_outcome os s h move) as (msg & Hv & Ho).
  cbv zeta in Hv, Ho. rewrite Hv. split.
  - intros Hm. injection Hm as ->.
    inversion Ho as [Hc Hf Hm| fw fh Hc Hh Hf Hm | e t' x Ht Hd Hf Hm];
      try discriminate Hm.
    split; assumption.
  - intros [Hc Hf]. f_equal.
    destruct Ho as [Hc' Hf'| fw fh Hc' Hh Hf' | e t' x Ht Hd Hf'].
    + reflexivity.
    + exfalso. pose proof (client_is_functional os _ _ _ _ Hc Hc') as E.
      rewrite <- E in Hh. discriminate Hh.
    + exfalso. exact (failing_call_in_history os _ _ _ _ Ht Hd Hf' Hf).
Qed.

Lemma success_message_iff_target_reached_witness :
  value (_resize_window Desktop.os 10 true Scenes.game) = inr msg_success /\
  client_is Desktop.os (final (_resize_window Desktop.os 10 true Scenes.game)) 10
            (TARGET_W, TARGET_H).
Proof.
  split; [reflexivity|].
  apply (proj1 (success_message_iff_target_reached _ Desktop.os Scenes.game 10 true)).
  reflexivity.
Defined.
(* ------------------------------------------------------------------ *)
(** ** Fallbacks that reach the size request *)

Section Fallbacks.
Context {W : Type} (os : Win32 W).

Lemma _get_monitor_top_left_value h s :
  value (_get_monitor_top_left os h s) =
    inr (match MonitorFromWindow os s h MONITOR_DEFAULTTONEAREST with
         | inr m => match GetMonitorInfo os s m with
                    | inr (ml, mt, _, _) => (ml, mt)
                    | inl _ => (0, 0)
                    end
         | inl _ => (0, 0)
         end).
Proof.
  probe_unfold.
  destruct (MonitorFromWindow os s h MONITOR_DEFAULTTONEAREST) as [e|m]; [reflexivity|].
  cbv beta iota zeta delta [fst snd app].
  destruct (GetMonitorInfo os s m) as [e|[[[ml mt] mr] mb]]; reflexivity.
Qed.

Lemma shadow_is_functional (s : W) h a b :
  shadow_is os s h a -> shadow_is os s h b -> a = b.
Proof. unfold shadow_is. intros Ha Hb. rewrite Ha in Hb. injection Hb. auto. Qed.

Lemma first_request_in_history (t : History W) x rest :
  setpos_events t = x :: rest -> In x t.
Proof.
  intros H. assert (Hin : In x (setpos_events t)) by (rewrite H; left; reflexivity).
  apply filter_In in Hin. tauto.
Qed.
End Fallbacks.

(** X10.  When the monitor of the window cannot be read, a window that
    is to be moved is placed as if its monitor started at (0, 0): the
    size request asks for the position that puts the visible frame at
    the origin of the virtual screen. *)
Theorem unreadable_monitor_places_at_zero :
  forall (W : Type) (os : Win32 W) (s : W) (h : HWND)
         (after x y cx cy fl : Z) (s1 : W) (rest : History W) (sl st sr sb : Z),
    setpos_events (history (_resize_window os h true s))
      = (EvSetWindowPos h after x y cx cy fl, s1) :: rest ->
    (forall m, MonitorFromWindow os s1 h MONITOR_DEFAULTTONEAREST = inr m ->
               exists e, GetMonitorInfo os s1 m = inl e) ->
    shadow_is os s1 h (sl, st, sr, sb) ->
    x = - sl /\ y = - st.
Proof.
  intros W os s h after x y cx cy fl s1 rest sl st sr sb Hset Hmon Hsh.
  pose proof (resize_window_placement os s h true) as Hp.
  unfold placement in Hp. rewrite Hset in Hp. cbn [snd] in Hp.
  rewrite Forall_forall in Hp.
  specialize (Hp _ (first_request_in_history _ _ _ Hset)).
  unfold position_ok in Hp. cbn [fst] in Hp.
  destruct Hp as (_ & mx & my & sl' & st' & sr' & sb' & Hm & Hs' & -> & -> & _).
  pose proof (shadow_is_functional os _ _ _ _ Hsh Hs') as E. injection E as <- <- <- <-.
  unfold monitor_is in Hm. rewrite _get_monitor_top_left_value in Hm.
  destruct (MonitorFromWindow os s1 h MONITOR_DEFAULTTONEAREST) as [e|m] eqn:Em.
  - injection Hm as <- <-. split; lia.
  - destruct (Hmon m eq_refl) as [e He]. rewrite He in Hm.
    injection Hm as <- <-. split; lia.
Qed.

Lemma unreadable_monitor_places_at_zero_witness :
  setpos_events (history (_resize_window Desktop.os 10 true MoreScenes.lost_monitor))
    = [(EvSetWindowPos 10 HWND_TOP (-7) 0 1936 1119 52,
        snd (ShowWindow Desktop.os MoreScenes.lost_monitor 10 SW_RESTORE))] /\
  (forall m,
     MonitorFromWindow Desktop.os
       (snd (ShowWindow Desktop.os MoreScenes.lost_monitor 10 SW_RESTORE)) 10
       MONITOR_DEFAULTTONEAREST = inr m ->
     exists e,
       GetMonitorInfo Desktop.os
         (snd (ShowWindow Desktop.os MoreScenes.lost_monitor 10 SW_RESTORE)) m = inl e) /\
  shadow_is Desktop.os (snd (ShowWindow Desktop.os MoreScenes.lost_monitor 10 SW_RESTORE))
            10 (7, 0, 7, 7) /\
  (-7 = - 7 /\ 0 = - 0).
Proof.
  assert (Hset :
    setpos_events (history (_resize_window Desktop.os 10 true MoreScenes.lost_monitor))
      = [(EvSetWindowPos 10 HWND_TOP (-7) 0 1936 1119 52,
          snd (ShowWindow Desktop.os MoreScenes.lost_monitor 10 SW_RESTORE))])
    by (vm_compute; reflexivity).
  assert (Hmon : forall m,
     MonitorFromWindow Desktop.os
       (snd (ShowWindow Desktop.os MoreScenes.lost_monitor 10 SW_RESTORE)) 10
       MONITOR_DEFAULTTONEAREST = inr m ->
     exists e,
       GetMonitorInfo Desktop.os
         (snd (ShowWindow Desktop.os MoreScenes.lost_monitor 10 SW_RESTORE)) m = inl e).
  { intros m Hm. vm_compute in Hm. injection Hm as <-. eexists. reflexivity. }
  assert (Hsh :
    shadow_is Desktop.os (snd (ShowWindow Desktop.os MoreScenes.lost_monitor 10 SW_RESTORE))
              10 (7, 0, 7, 7)) by reflexivity.
  split; [exact Hset|]. split; [exact Hmon|]. split; [exact Hsh|].
  exact (unreadable_monitor_places_at_zero _ Desktop.os MoreScenes.lost_monitor 10
           HWND_TOP (-7) 0 1936 1119 52 _ [] 7 0 7 7 Hset Hmon Hsh).
Defined.

Section DpiAnswers.
Context {W : Type} (os : Win32 W).
Variable dpi : W -> HWND -> res Z.
Variable awareness : W -> Z -> res Z.

Lemma bind_eq {A B} (m : M W A) (k : A -> M W B) s :
  bind m k s =
    match m s with
    | (inl e, s1, t1) => (inl e, s1, t1)
    | (inr a, s1, t1) =>
        match k a s1 with
        | (r, s2, t2) => (r, s2, t1 ++ t2)
        end
    end.
Proof. reflexivity. Qed.

Lemma dpi_query_is_dpi h e : dpi_query h e = true -> negb (is_dpi e) = false.
Proof. destruct e; simpl; intros; try reflexivity; discriminate. Qed.

Lemma awareness_query_is_dpi e : awareness_query e = true -> negb (is_dpi e) = false.
Proof. destruct e; simpl; intros; try reflexivity; discriminate. Qed.

Lemma resize_window_with_dpi s h move :
  exists r s' t t',
    _resize_window os h move s = (r, s', t) /\
    _resize_window (with_dpi os dpi awareness) h move s = (r, s', t') /\
    filter not_dpi t' = filter not_dpi t.
Proof.
  unfold _resize_window, try_except.
  rewrite !bind_eq. unfold query at 1 3. cbn [with_dpi GetWindowText].
  destruct (GetWindowText os s h) as [e|title]; cbv beta iota.
  { do 4 eexists. repeat split. }
  rewrite !bind_eq.
  destruct (_window_dpi_reads os h s) as (v1 & t1 & -> & R1).
  destruct (_window_dpi_reads (with_dpi os dpi awareness) h s) as (v1' & t1' & -> & R1').
  cbv beta iota. rewrite !bind_eq.
  destruct (_dpi_awareness_str_reads os s) as (v2 & t2 & -> & R2).
  destruct (_dpi_awareness_str_reads (with_dpi os dpi awareness) s) as (v2' & t2' & -> & R2').
  cbv beta iota.
  match goal with
  | |- context [bind (query (EvGetWindowLong h GWL_STYLE) ?f) ?k s] =>
      set (run := bind (query (EvGetWindowLong h GWL_STYLE) f) k s)
  end.
  match goal with
  | |- context [bind (query (EvGetWindowLong h GWL_STYLE) ?f) ?k s] =>
      change (bind (query (EvGetWindowLong h GWL_STYLE) f) k s) with run
  end.
  destruct run as [[[e|msg] s'] t]; cbv zeta; cbn [ret fst snd];
    do 4 eexists; (split; [reflexivity|]); (split; [reflexivity|]);
    unfold not_dpi;
    cbn [app filter fst is_dpi negb];
    rewrite !filter_app;
    rewrite (reads_filter _ _ _ (fun e => negb (is_dpi e)) R1 (dpi_query_is_dpi h)),
            (reads_filter _ _ _ (fun e => negb (is_dpi e)) R1' (dpi_query_is_dpi h)),
            (reads_filter _ _ _ (fun e => negb (is_dpi e)) R2 awareness_query_is_dpi),
            (reads_filter _ _ _ (fun e => negb (is_dpi e)) R2' awareness_query_is_dpi);
    reflexivity.
Qed.
End DpiAnswers.

(** X11.  The answers to the two DPI queries only feed the log: with
    any other answers, failures included, a run returns the same
    message, leaves the same state and makes the same other calls, in
    the same states. *)
Theorem dpi_answers_do_not_matter :
  forall (W : Type) (os : Win32 W) (dpi : W -> HWND -> res Z)
         (awareness : W -> Z -> res Z) (s : W) (h : HWND) (move : bool),
    value (_resize_window (with_dpi os dpi awareness) h move s)
      = value (_resize_window os h move s) /\
    final (_resize_window (with_dpi os dpi awareness) h move s)
      = final (_resize_window os h move s) /\
    filter not_dpi (history (_resize_window (with_dpi os dpi awareness) h move s))
      = filter not_dpi (history (_resize_window os h move s)).
Proof.
  intros W os dpi awareness s h move.
  destruct (resize_window_with_dpi os dpi awareness s h move)
    as (r & s' & t & t' & -> & -> & E).
  repeat split. exact E.
Qed.
(* ------------------------------------------------------------------ *)
(** ** The enumerator: failures and ties *)

Section EnumFailure.
Context {W : Type} (os : Win32 W) (lower : pystr -> pystr).

(** The callback over a prefix of windows that answer. *)
Lemma enum_cb_prefix s pre rest results :
  (forall h, In h pre -> answers os s h) ->
  exists t results',
    _enum_cb os (pre ++ rest) (getpid os s) results s =
      (let '(r, s', t') := _enum_cb os rest (getpid os s) results' s in (r, s', t ++ t')).
Proof.
  revert results. induction pre as [|h hs IH]; intros results Hall.
  - exists [], results. cbn [app].
    destruct (_enum_cb os rest (getpid os s) results s) as [[r s'] t']. reflexivity.
  - cbn [app _enum_cb]. unfold bind at 1.
    destruct (is_real_app_window_run os s h (Hall h (or_introl eq_refl))) as (t1 & ->).
    assert (Hall' : forall h', In h' hs -> answers os s h')
      by (intros; apply Hall; right; assumption).
    destruct (is_candidate os s h).
    + unfold bind at 1, query.
      destruct (Hall h (or_introl eq_refl)) as (vi & title & ? & ? & ? & ? & _ & Ht & _).
      rewrite Ht.
      destruct (IH (results ++ [(h, title)]) Hall') as (t2 & results' & ->).
      exists (t1 ++ (EvGetWindowText h, s) :: t2), results'.
      destruct (_enum_cb os rest (getpid os s) results' s) as [[r s'] t'].
      rewrite <- !app_assoc. reflexivity.
    + destruct (IH results Hall') as (t2 & results' & ->).
      exists (t1 ++ t2), results'.
      destruct (_enum_cb os rest (getpid os s) results' s) as [[r s'] t'].
      rewrite <- !app_assoc. reflexivity.
Qed.

Lemma is_real_app_window_raises s h pid e :
  IsWindowVisible os s h = inl e ->
  _is_real_app_window os h pid s = (inl e, s, [(EvIsWindowVisible h, s)]).
Proof.
  intros He. unfold _is_real_app_window, bind at 1, query. rewrite He. reflexivity.
Qed.

Lemma enum_cb_raises s h rest pid results e :
  IsWindowVisible os s h = inl e ->
  _enum_cb os (h :: rest) pid results s = (inl e, s, [(EvIsWindowVisible h, s)]).
Proof.
  intros He. cbn [_enum_cb]. unfold bind at 1.
  rewrite (is_real_app_window_raises s h pid e He). reflexivity.
Qed.
End EnumFailure.

(** X12.  The filter's queries are not guarded: when [IsWindowVisible]
    raises for a window, and the windows enumerated before it answered,
    the whole enumeration raises that exception and lists nothing. *)
Theorem enumeration_aborts_when_visibility_raises :
  forall (W : Type) (os : Win32 W) (lower : pystr -> pystr) (s : W)
         (pre post : list HWND) (h : HWND) (e : exn),
    EnumWindows os s = pre ++ h :: post ->
    (forall h', In h' pre -> answers os s h') ->
    IsWindowVisible os s h = inl e ->
    value (_enum_windows os lower s) = inl e /\
    final (_enum_windows os lower s) = s.
Proof.
  intros W os lower s pre post h e Hw Hall He.
  unfold _enum_windows.
  cbv beta iota zeta delta [bind ret query].
  rewrite Hw.
  destruct (enum_cb_prefix os s pre (h :: post) [] Hall) as (t & results' & ->).
  rewrite (enum_cb_raises os s h post _ results' e He).
  split; reflexivity.
Qed.

Lemma enumeration_aborts_when_visibility_raises_witness :
  EnumWindows MoreScenes.guarded_os Scenes.crowded = [1; 2] ++ 3 :: [4; 5; 6; 7; 8; 9] /\
  (forall h', In h' [1; 2] -> answers MoreScenes.guarded_os Scenes.crowded h') /\
  IsWindowVisible MoreScenes.guarded_os Scenes.crowded 3 = inl MoreScenes.access_denied /\
  value (_enum_windows MoreScenes.guarded_os ascii_lower Scenes.crowded)
    = inl MoreScenes.access_denied /\
  final (_enum_windows MoreScenes.guarded_os ascii_lower Scenes.crowded) = Scenes.crowded.
Proof.
  assert (Hall : forall h', In h' [1; 2] ->
                            answers MoreScenes.guarded_os Scenes.crowded h').
  { intros h' [<-|[<-|[]]]; do 6 eexists; repeat split; reflexivity. }
  split; [reflexivity|]. split; [exact Hall|]. split; [reflexivity|].
  exact (enumeration_aborts_when_visibility_raises _ MoreScenes.guarded_os ascii_lower
           Scenes.crowded [1; 2] [4; 5; 6; 7; 8; 9] 3 MoreScenes.access_denied
           eq_refl Hall eq_refl).
Defined.

Section Stable.
Context {A : Type} (key : A -> pystr).

Lemma str_eqb_eq (a b : pystr) : str_eqb a b = true -> a = b.
Proof.
  revert b. induction a as [|x a IH]; intros [|y b]; simpl; intros H;
    try reflexivity; try discriminate.
  apply andb_true_iff in H. destruct H as [Hx Hab].
  apply N.eqb_eq in Hx. subst. f_equal. auto.
Qed.

Lemma str_ltb_irrefl (a : pystr) : str_ltb a a = false.
Proof.
  destruct (str_ltb a a) eqn:E; [|reflexivity].
  rewrite (str_ltb_asym a a E) in E. discriminate.
Qed.

Lemma insert_by_with_key k x l :
  with_key key k (insert_by key x l) = with_key key k (x :: l).
Proof.
  induction l as [|y l IH]; [reflexivity|].
  cbn [insert_by]. destruct (str_ltb (key y) (key x)) eqn:Hlt; [|reflexivity].
  unfold with_key in *. cbn [filter] in *. rewrite IH.
  destruct (str_eqb (key y) k) eqn:Ey, (str_eqb (key x) k) eqn:Ex; try reflexivity.
  apply str_eqb_eq in Ey, Ex. rewrite Ey, Ex, str_ltb_irrefl in Hlt. discriminate.
Qed.

(** [sorted] is stable: the elements with a given key keep their order. *)
Lemma sorted_stable k l : with_key key k (sorted key l) = with_key key k l.
Proof.
  induction l as [|x l IH]; [reflexivity|].
  unfold sorted in *. cbn [fold_right]. rewrite insert_by_with_key.
  unfold with_key in *. cbn [filter]. rewrite IH. reflexivity.
Qed.
End Stable.

(** X13.  Windows whose titles are the same once lowered are listed in
    the order [EnumWindows] visits them. *)
Theorem enumeration_keeps_order_of_equal_titles :
  forall (W : Type) (os : Win32 W) (lower : pystr -> pystr) (s : W),
    (forall h, In h (EnumWindows os s) -> answers os s h) ->
    exists l,
      value (_enum_windows os lower s) = inr l /\
      forall k,
        with_key (fun x => lower (snd x)) k l
          = with_key (fun x => lower (snd x)) k (candidates os s).
Proof.
  intros W os lower s Hall.
  destruct (enum_windows_run os lower s Hall) as (t & E).
  rewrite E. eexists. split; [reflexivity|].
  intros k. apply sorted_stable.
Qed.

Lemma twins_answers :
  forall h, In h (EnumWindows Desktop.os MoreScenes.twins) ->
            answers Desktop.os MoreScenes.twins h.
Proof.
  intros h [<-|[<-|[<-|[<-|[]]]]]; do 6 eexists; repeat split; reflexivity.
Qed.

Lemma enumeration_keeps_order_of_equal_titles_witness :
  (forall h, In h (EnumWindows Desktop.os MoreScenes.twins) ->
             answers Desktop.os MoreScenes.twins h) /\
  exists l,
    value (_enum_windows Desktop.os ascii_lower MoreScenes.twins) = inr l /\
    forall k,
      with_key (fun x => ascii_lower (snd x)) k l
        = with_key (fun x => ascii_lower (snd x)) k
            (candidates Desktop.os MoreScenes.twins).
Proof.
  split; [exact twins_answers|].
  exact (enumeration_keeps_order_of_equal_titles _ Desktop.os ascii_lower
           MoreScenes.twins twins_answers).
Defined.

(** On [MoreScenes.twins] the three "notes" windows follow "Alpha" in
    the order they were enumerated in. *)
Example enumeration_of_twins :
  value (_enum_windows Desktop.os ascii_lower MoreScenes.twins)
    = inr [(4, str "Alpha"); (3, str "notes"); (5, str "Notes"); (6, str "NOTES")].
Proof. vm_compute. reflexivity. Qed.
(* ------------------------------------------------------------------ *)
(** ** The selector callbacks *)

Section Callbacks.
Context {W : Type} (os : Win32 W).

Lemma colours_differ : SUCCESS <> WARNING /\ SUCCESS <> TEXT_PRIMARY /\ WARNING <> TEXT_PRIMARY.
Proof. repeat split; discriminate. Qed.

(** What [_on_select] does, selection by selection. *)
Lemma on_select_run hwnds ui s :
  exists ui' t,
    _on_select os hwnds ui s = (inr ui', s, t) /\
    status_var ui' = status_var ui /\
    resize_btn_enabled ui' = negb (Nat.eqb (List.length hwnds) 0) /\
    match hwnds with
    | [] =>
        t = [] /\ status_lbl_fg ui' = status_lbl_fg ui /\
        size_var ui' = str "- select a window -"
    | [h] =>
        reads (rect_query h) s t /\
        (status_lbl_fg ui' = SUCCESS \/ status_lbl_fg ui' = WARNING) /\
        (status_lbl_fg ui' = SUCCESS <->
         value (_get_client_size os h s) = inr (TARGET_W, TARGET_H))
    | _ =>
        t = [] /\ status_lbl_fg ui' = TEXT_PRIMARY /\
        size_var ui' = str_of_Z (Z.of_nat (List.length hwnds)) ++ str " windows selected"
    end.
Proof.
  destruct hwnds as [|h [|h' rest]].
  - do 2 eexists. repeat split.
  - unfold _on_select.
    change (1 <? Z.of_nat (List.length [h])) with false.
    cbv beta iota. unfold bind.
    destruct (_get_client_size_reads os h s) as ([cw ch] & t1 & E1 & R1).
    destruct (_get_nonclient_margins_reads os h s) as ([[[ncl nct] ncr] ncb] & t2 & E2 & R2).
    rewrite E1, E2.
    cbv beta iota zeta. unfold ret. rewrite app_nil_r.
    do 2 eexists. split; [reflexivity|]. cbn [status_var resize_btn_enabled status_lbl_fg].
    split; [reflexivity|]. split; [reflexivity|].
    split; [auto with probes|].
    unfold value. cbn [fst].
    destruct ((cw =? TARGET_W) && (ch =? TARGET_H)) eqn:Hh.
    + split; [left; reflexivity|]. split; [|reflexivity].
      intros _. apply andb_true_iff in Hh. destruct Hh as [Hw Hh].
      apply Z.eqb_eq in Hw, Hh. subst. reflexivity.
    + split; [right; reflexivity|]. split; [discriminate|].
      intros E. injection E as -> ->. discriminate Hh.
  - unfold _on_select.
    replace (1 <? Z.of_nat (List.length (h :: h' :: rest))) with true
      by (symmetry; apply Z.ltb_lt; cbn [List.length]; lia).
    do 2 eexists. repeat split.
Qed.

Lemma allowed_not_warning h move e : allowed h move e -> is_warning e = false.
Proof. destruct e; cbn [allowed is_warning]; intros; try reflexivity; contradiction. Qed.

Lemma rect_query_not_warning h e : rect_query h e = true -> is_warning e = false.
Proof. destruct e; simpl; intros; try reflexivity; discriminate. Qed.

(** A batch from the resizes it is made of. *)
Lemma resize_each_cons h hs move s :
  resize_each os (h :: hs) move s =
    match _resize_window os h move s with
    | (inl e, s1, t1) => (inl e, s1, t1)
    | (inr r, s1, t1) =>
        match resize_each os hs move s1 with
        | (inl e, s2, t2) => (inl e, s2, t1 ++ t2)
        | (inr rs, s2, t2) => (inr (r :: rs), s2, t1 ++ t2 ++ [])
        end
    end.
Proof.
  cbn [resize_each]. unfold bind, ret.
  destruct (_resize_window os h move s) as [[[e|r] s1] t1]; [reflexivity|].
  destruct (resize_each os hs move s1) as [[[e|rs] s2] t2]; reflexivity.
Qed.

(** A batch makes the calls of its resizes and no other. *)
Lemma resize_each_allowed hs move s :
  Forall (fun x => exists h, In h hs /\ allowed h move (fst x))
         (history (resize_each os hs move s)).
Proof.
  revert s. induction hs as [|h hs IH]; intros s; [constructor|].
  rewrite resize_each_cons.
  pose proof (resize_window_allowed os s h move) as Ha.
  destruct (resize_window_outcome os s h move) as (msg & Hv & _). cbv zeta in Hv.
  destruct (_resize_window os h move s) as [[v s1] t1].
  cbn [value history fst snd] in Hv, Ha. subst v.
  specialize (IH s1).
  destruct (resize_each os hs move s1) as [[[e|rs] s2] t2]; cbn [history snd] in IH |- *.
  all: rewrite ?app_nil_r; apply Forall_app; split.
  all: try (eapply Forall_impl; [|exact Ha];
            intros x Hx; exists h; split; [left; reflexivity|exact Hx]).
  all: eapply Forall_impl; [|exact IH];
       intros x (h' & Hin & Hx); exists h'; split; [right; exact Hin|exact Hx].
Qed.
End Callbacks.

(** X14.  [_on_select] never raises and changes nothing on the
    platform; it leaves the status text alone, enables the Resize
    button exactly when something is selected, and asks the platform
    only when one window is selected, and then only for rects of that
    window. *)
Theorem on_select_only_reads :
  forall (W : Type) (os : Win32 W) (hwnds : list HWND) (ui : Ui) (s : W),
  exists ui' t,
    _on_select os hwnds ui s = (inr ui', s, t) /\
    status_var ui' = status_var ui /\
    resize_btn_enabled ui' = negb (Nat.eqb (List.length hwnds) 0) /\
    ((exists h, hwnds = [h] /\ reads (rect_query h) s t) \/
     (List.length hwnds <> 1%nat /\ t = [])).
Proof.
  intros W os hwnds ui s.
  destruct (on_select_run os hwnds ui s) as (ui' & t & E & Hst & Hbtn & Hsel).
  exists ui', t. repeat (split; [assumption|]).
  destruct hwnds as [|h [|h' rest]].
  - right. split; [discriminate|tauto].
  - left. exists h. split; [reflexivity|tauto].
  - right. split; [discriminate|tauto].
Qed.

(** X15.  With one window selected the status label turns green
    exactly when the size inferred from the margins is 1920x1080, and
    amber otherwise; with several selected it takes the text colour. *)
Theorem on_select_colour :
  forall (W : Type) (os : Win32 W) (h : HWND) (others : list HWND) (ui : Ui) (s : W),
  exists ui',
    value (_on_select os (h :: others) ui s) = inr ui' /\
    match others with
    | [] =>
        (status_lbl_fg ui' = SUCCESS <->
         value (_get_client_size os h s) = inr (TARGET_W, TARGET_H)) /\
        (status_lbl_fg ui' = WARNING <->
         value (_get_client_size os h s) <> inr (TARGET_W, TARGET_H))
    | _ => status_lbl_fg ui' = TEXT_PRIMARY
    end.
Proof.
  intros W os h others ui s.
  destruct (on_select_run os (h :: others) ui s) as (ui' & t & E & _ & _ & Hsel).
  exists ui'. rewrite E. split; [reflexivity|].
  destruct others as [|h' rest]; [|tauto].
  destruct Hsel as (_ & Hor & Hiff). split; [exact Hiff|].
  destruct (colours_differ) as (Hsw & _).
  split.
  - intros Hw Hc. apply Hiff in Hc. congruence.
  - intros Hn. destruct Hor as [Hs|Hw]; [|exact Hw].
    exfalso. apply Hn, Hiff, Hs.
Qed.

(** X16.  [_do_resize] never raises.  With nothing selected it shows
    one warning, calls nothing else and leaves the widgets and the
    platform as they are; with a selection it shows no warning and
    calls only what the resizes of the selected windows call, followed
    by rect queries when a single window is selected. *)
Theorem do_resize_warns_only_when_nothing_is_selected :
  forall (W : Type) (os : Win32 W) (hwnds : list HWND) (move : bool) (ui : Ui) (s : W),
  exists ui',
    value (_do_resize os hwnds move ui s) = inr ui' /\
    existsb is_warning (calls (history (_do_resize os hwnds move ui s)))
      = Nat.eqb (List.length hwnds) 0 /\
    (hwnds = [] ->
     ui' = ui /\ final (_do_resize os hwnds move ui s) = s /\
     calls (history (_do_resize os hwnds move ui s))
       = [EvShowWarning (str "No selection") (str "Please select a window first.")]) /\
    Forall (fun e => handle_of e = None \/ exists h, In h hwnds /\ handle_of e = Some h)
           (calls (history (_do_resize os hwnds move ui s))).
Proof.
  intros W os hwnds move ui s.
  destruct hwnds as [|h hs].
  - exists ui. cbn. repeat split. repeat constructor.
  - unfold _do_resize, bind.
    destruct (resize_each_runs os (h :: hs) move s) as (results & Hv & _).
    pose proof (resize_each_allowed os (h :: hs) move s) as Ha.
    destruct (resize_each os (h :: hs) move s) as [[v s1] t1].
    cbn [value history fst snd] in Hv, Ha. subst v.
    match goal with |- context [_on_select os ?l ?u ?st] =>
      destruct (on_select_run os l u st) as (ui' & t2 & E & _ & _ & Hsel) end.
    rewrite E. exists ui'. cbn [value final history fst snd calls].
    split; [reflexivity|].
    assert (Hq : Forall (fun x : Event * W =>
                   exists h', In h' (h :: hs) /\ rect_query h' (fst x) = true) t2).
    { destruct hs as [|h' rest].
      - destruct Hsel as (R & _). eapply Forall_impl; [|exact R].
        intros x [_ Hx]. exists h. split; [left; reflexivity|exact Hx].
      - destruct Hsel as (-> & _). constructor. }
    split; [|split; [discriminate|]].
    + cbn [List.length Nat.eqb]. apply not_true_is_false. intros Hex.
      apply existsb_exists in Hex. destruct Hex as (e & Hin & He).
      apply in_map_iff in Hin. destruct Hin as (x & <- & Hin).
      apply in_app_or in Hin. destruct Hin as [Hin|Hin].
      * rewrite Forall_forall in Ha. destruct (Ha x Hin) as (h' & _ & Hx).
        rewrite (allowed_not_warning _ _ _ Hx) in He. discriminate.
      * rewrite Forall_forall in Hq. destruct (Hq x Hin) as (h' & _ & Hx).
        rewrite (rect_query_not_warning _ _ Hx) in He. discriminate.
    + apply Forall_map_fst, Forall_app. split.
      * eapply Forall_impl; [|exact Ha]. intros [e s0] (h' & Hin & Hx). cbn [fst] in *.
        destruct e; cbn [allowed handle_of] in *; try (left; reflexivity);
          right; exists h'; (split; [exact Hin|]); f_equal; intuition.
      * eapply Forall_impl; [|exact Hq]. intros [e s0] (h' & Hin & Hx). cbn [fst] in *.
        destruct e; cbn [rect_query handle_of] in *; try discriminate Hx;
          right; exists h'; (split; [exact Hin|]); f_equal;
          eqb_hyps; congruence.
Qed.

(** X17.  After a batch of two or more windows the status label has
    the text colour, whatever the results were: the colour [_do_resize]
    picks from the message is replaced when it refreshes the size
    display, and the size label counts the selected windows. *)
Theorem batch_status_takes_text_colour :
  forall (W : Type) (os : Win32 W) (hwnds : list HWND) (move : bool) (ui : Ui) (s : W),
    (2 <= List.length hwnds)%nat ->
    exists ui',
      value (_do_resize os hwnds move ui s) = inr ui' /\
      status_lbl_fg ui' = TEXT_PRIMARY /\
      size_var ui' = str_of_Z (Z.of_nat (List.length hwnds)) ++ str " windows selected" /\
      resize_btn_enabled ui' = true.
Proof.
  intros W os hwnds move ui s Hlen.
  destruct hwnds as [|h [|h' rest]]; cbn [List.length] in Hlen; try lia.
  unfold _do_resize, bind.
  destruct (resize_each_runs os (h :: h' :: rest) move s) as (results & Hv & _).
  destruct (resize_each os (h :: h' :: rest) move s) as [[v s1] t1].
  cbn [value fst] in Hv. subst v.
  match goal with |- context [_on_select os ?l ?u ?st] =>
    destruct (on_select_run os l u st) as (ui' & t2 & E & _ & Hbtn & _ & Hfg & Hsz) end.
  rewrite E. exists ui'. cbn [value fst]. repeat split; assumption.
Qed.

Lemma batch_status_takes_text_colour_witness :
  (2 <= List.length Scenes.batch_handles)%nat /\
  exists ui',
    value (_do_resize Desktop.os Scenes.batch_handles false Scenes.blank_ui Scenes.batch)
      = inr ui' /\
    status_lbl_fg ui' = TEXT_PRIMARY /\
    size_var ui' = str_of_Z (Z.of_nat (List.length Scenes.batch_handles))
                   ++ str " windows selected" /\
    resize_btn_enabled ui' = true.
Proof.
  assert (H : (2 <= List.length Scenes.batch_handles)%nat) by (cbn; lia).
  split; [exact H|].
  exact (batch_status_takes_text_colour _ Desktop.os Scenes.batch_handles false
           Scenes.blank_ui Scenes.batch H).
Defined.

(** X18.  After the resize of a single window the status colour is the
    one the refresh picks from the inferred size in the state the
    resize left: green exactly when that size is 1920x1080. *)
Theorem single_status_colour_follows_inferred_size :
  forall (W : Type) (os : Win32 W) (h : HWND) (move : bool) (ui : Ui) (s : W),
  exists msg ui',
    value (_resize_window os h move s) = inr msg /\
    value (_do_resize os [h] move ui s) = inr ui' /\
    status_var ui' = msg /\
    (status_lbl_fg ui' = SUCCESS <->
     value (_get_client_size os h (final (_resize_window os h move s)))
       = inr (TARGET_W, TARGET_H)).
Proof.
  intros W os h move ui s.
  unfold _do_resize, bind. rewrite resize_each_cons.
  destruct (resize_window_outcome os s h move) as (msg & Hv & _). cbv zeta in Hv.
  destruct (_resize_window os h move s) as [[v s1] t1].
  cbn [value fst] in Hv. subst v.
  cbn [resize_each ret final fst snd].
  match goal with |- context [_on_select os ?l ?u ?st] =>
    destruct (on_select_run os l u st) as (ui' & t2 & E & Hst & _ & _ & _ & Hiff) end.
  rewrite E. exists msg, ui'. cbn [value fst].
  split; [reflexivity|]. split; [reflexivity|]. split; [exact Hst|exact Hiff].
Qed.

(** A window that draws its own frame is resized to a 1920x1080 client
    area and reported with a check mark, in amber: the size inferred
    from the margins is that of its visible frame. *)
Example success_shown_in_amber :
  exists ui',
    value (_do_resize Desktop.os [10] false Scenes.blank_ui Scenes.custom_chrome)
      = inr ui' /\
    status_var ui' = msg_success /\
    status_lbl_fg ui' = WARNING.
Proof. eexists. split; [vm_compute; reflexivity|]. split; reflexivity. Qed.
(* ------------------------------------------------------------------ *)
(** ** Listing and selecting *)

Section Dicts.
Context {V : Type}.

Lemma dict_set_fresh (d : list (nat * V)) k v :
  Forall (fun kv => fst kv <> k) d -> dict_set d k v = d ++ [(k, v)].
Proof.
  induction 1 as [|[k' v'] d Hk _ IH]; [reflexivity|].
  cbn [dict_set app]. cbn [fst] in Hk.
  destruct (Nat.eqb_spec k' k); [contradiction|]. rewrite IH. reflexivity.
Qed.

Lemma dict_get_app_fresh (d d' : list (nat * V)) k :
  Forall (fun kv => fst kv <> k) d -> dict_get (d ++ d') k = dict_get d' k.
Proof.
  induction 1 as [|[k' v'] d Hk _ IH]; [reflexivity|].
  cbn [dict_get app]. cbn [fst] in Hk.
  destruct (Nat.eqb_spec k' k); [contradiction|]. exact IH.
Qed.

(** Looking up consecutive keys that were stored one after the other. *)
Lemma dict_get_consecutive (pre : list (nat * V)) a (vs : list V) :
  Forall (fun kv => fst kv < a)%nat pre ->
  map (dict_get (pre ++ combine (seq a (List.length vs)) vs)) (seq a (List.length vs))
    = map Some vs.
Proof.
  revert pre a. induction vs as [|v vs IH]; intros pre a Hpre; [reflexivity|].
  cbn [List.length seq combine map]. f_equal.
  - rewrite dict_get_app_fresh.
    + cbn [dict_get]. rewrite Nat.eqb_refl. reflexivity.
    + eapply Forall_impl; [|exact Hpre]. intros kv Hlt. cbn beta in Hlt. lia.
  - change (pre ++ (a, v) :: combine (seq (S a) (List.length vs)) vs)
      with (pre ++ [(a, v)] ++ combine (seq (S a) (List.length vs)) vs).
    rewrite app_assoc. apply IH.
    apply Forall_app. split.
    + eapply Forall_impl; [|exact Hpre]. intros kv Hlt. cbn beta in Hlt. lia.
    + repeat constructor.
Qed.
End Dicts.

Section Trees.

Lemma fold_delete_items ids tv :
  items (fold_left tree_delete ids tv)
    = filter (fun it => negb (existsb (Nat.eqb (fst it)) ids)) (items tv) /\
  last_iid (fold_left tree_delete ids tv) = last_iid tv.
Proof.
  revert tv. induction ids as [|iid ids IH]; intros tv.
  - cbn. split; [|reflexivity]. induction (items tv) as [|it l IHl]; [reflexivity|].
    cbn. f_equal. exact IHl.
  - cbn [fold_left]. destruct (IH (tree_delete tv iid)) as [-> ->].
    split; [|reflexivity]. cbn [tree_delete items].
    induction (items tv) as [|it l IHl]; [reflexivity|].
    cbn [filter existsb]. destruct (Nat.eqb (fst it) iid); cbn [negb orb filter].
    + exact IHl.
    + destruct (existsb (Nat.eqb (fst it)) ids); cbn [negb]; [exact IHl|].
      f_equal. exact IHl.
Qed.

(** Deleting every child leaves no item. *)
Lemma delete_children tv :
  items (fold_left tree_delete (get_children tv) tv) = [].
Proof.
  destruct (fold_delete_items (get_children tv) tv) as [-> _].
  unfold get_children.
  assert (H : forall l l', incl l l' ->
            filter (fun it : nat * Row => negb (existsb (Nat.eqb (fst it)) (map fst l'))) l = []).
  { induction l as [|it l IH]; intros l' Hincl; [reflexivity|].
    cbn [filter].
    assert (E : existsb (Nat.eqb (fst it)) (map fst l') = true).
    { apply existsb_exists. exists (fst it). split; [|apply Nat.eqb_refl].
      apply in_map, Hincl. left. reflexivity. }
    rewrite E. cbn [negb]. apply IH. intros x Hx. apply Hincl. right. exact Hx. }
  apply H. apply incl_refl.
Qed.

Lemma rows_from_length i windows : List.length (rows_from i windows) = List.length windows.
Proof.
  revert i. induction windows as [|[h t] ws IH]; intros i; [reflexivity|].
  cbn [rows_from List.length]. rewrite IH. reflexivity.
Qed.

(** The loop adds one row and one entry per window, under fresh ids. *)
Lemma add_rows_spec i windows tv m :
  Forall (fun kv => fst kv <= last_iid tv)%nat m ->
  add_rows i windows tv m =
    ({| items := items tv
                 ++ combine (seq (S (last_iid tv)) (List.length windows))
                            (rows_from i windows);
        last_iid := last_iid tv + List.length windows |},
     m ++ combine (seq (S (last_iid tv)) (List.length windows)) (map fst windows)).
Proof.
  revert i tv m. induction windows as [|[h title] ws IH]; intros i tv m Hm.
  - cbn. rewrite !app_nil_r, Nat.add_0_r. destruct tv; reflexivity.
  - cbn [add_rows tree_insert_end].
    rewrite IH.
    + cbn [items last_iid List.length seq combine rows_from map].
      rewrite dict_set_fresh.
      * rewrite <- !app_assoc. cbn [app]. f_equal. f_equal. lia.
      * eapply Forall_impl; [|exact Hm]. intros kv Hle. cbn beta in Hle. lia.
    + cbn [last_iid]. rewrite dict_set_fresh.
      * apply Forall_app. split.
        -- eapply Forall_impl; [|exact Hm]. intros kv Hle. cbn beta in Hle. lia.
        -- repeat constructor.
      * eapply Forall_impl; [|exact Hm]. intros kv Hle. cbn beta in Hle. lia.
Qed.

Lemma map_fst_combine {A B} (l : list A) (l' : list B) :
  List.length l = List.length l' -> map fst (combine l l') = l.
Proof.
  revert l'. induction l as [|a l IH]; intros [|b l'] H; try reflexivity; try discriminate.
  cbn. f_equal. apply IH. cbn in H. lia.
Qed.

Lemma map_snd_combine {A B} (l : list A) (l' : list B) :
  List.length l = List.length l' -> map snd (combine l l') = l'.
Proof.
  revert l'. induction l as [|a l IH]; intros [|b l'] H; try reflexivity; try discriminate.
  cbn. f_equal. apply IH. cbn in H. lia.
Qed.

Lemma rows_from_text i windows :
  map row_text (rows_from i windows)
    = map (fun w => str "  " ++ display (snd w)) windows.
Proof.
  revert i. induction windows as [|[h t] ws IH]; intros i; [reflexivity|].
  cbn [rows_from map snd]. rewrite IH. reflexivity.
Qed.

Lemma rows_from_tag i windows j row :
  nth_error (rows_from i windows) j = Some row ->
  row_tag row = if Nat.even (i + j) then str "even" else str "odd".
Proof.
  revert i j. induction windows as [|[h t] ws IH]; intros i j H.
  - destruct j; discriminate.
  - destruct j as [|j]; cbn [rows_from nth_error] in H.
    + injection H as <-. cbn [row_of row_tag]. rewrite Nat.add_0_r.
      rewrite <- Nat.bit0_mod, Nat.bit0_odd, <- Nat.negb_even.
      destruct (Nat.even i); reflexivity.
    + replace (i + S j)%nat with (S i + j)%nat by lia. eapply IH. exact H.
Qed.
End Trees.

Section Populate.
Context {W : Type} (os : Win32 W) (lower : pystr -> pystr).

(** [_populate], from what the enumerator returns. *)
Lemma populate_run sel s :
  _populate os lower sel s =
    match value (_enum_windows os lower s) with
    | inr windows =>
        ({| widgets := widgets (emptied sel);
            _tree := fst (add_rows 0 windows (_tree (emptied sel)) []);
            _hwnd_map := snd (add_rows 0 windows (_tree (emptied sel)) []);
            _count_var := str_of_Z (Z.of_nat (List.length windows))
                          ++ str " windows" |}, None)
    | inl e => (emptied sel, Some e)
    end.
Proof.
  unfold _populate.
  destruct (value (_enum_windows os lower s)) as [e|windows]; [reflexivity|].
  cbn [_hwnd_map emptied].
  destruct (add_rows 0 windows _ []) as [tv m]. reflexivity.
Qed.
End Populate.

(** X19.  A listed title is shown whole when it has at most 80 code
    points, and cut to its first 80 followed by an ellipsis otherwise:
    no row shows more than 81 code points of a title, and the first 80
    shown are the first 80 of the title. *)
Theorem display_is_bounded :
  forall (title : pystr),
    (List.length (display title) <= 81)%nat /\
    firstn 80 (display title) = firstn 80 title /\
    ((List.length title <= 80)%nat -> display title = title) /\
    ((80 < List.length title)%nat ->
     display title = firstn 80 title ++ [ELLIPSIS] /\
     List.length (display title) = 81%nat).
Proof.
  intros title. unfold display.
  destruct (Nat.ltb_spec 80 (List.length title)) as [Hlt|Hle].
  - assert (Hl : List.length (firstn 80 title) = 80%nat)
      by (rewrite length_firstn; lia).
    split; [rewrite length_app, Hl; cbn; lia|].
    split.
    { rewrite firstn_app, firstn_firstn, Hl, Nat.sub_diag, Nat.min_id.
      cbn [firstn]. apply app_nil_r. }
    split; [lia|].
    intros _. split; [reflexivity|]. rewrite length_app, Hl. reflexivity.
  - rewrite app_nil_r. rewrite firstn_all2 by exact Hle.
    split; [lia|]. split; [rewrite !firstn_all2 by exact Hle; reflexivity|].
    split; [reflexivity|]. lia.
Qed.

(** X20.  After [_populate] has listed [windows], the list has one row
    per window, in order, striped even and odd from the top; each row
    shows the displayed title; and selecting a row gives the handle of
    its window: selecting all rows gives all handles, in order. *)
Theorem populate_lists_windows :
  forall (W : Type) (os : Win32 W) (lower : pystr -> pystr)
         (sel : Selector) (s : W) (windows : list (HWND * pystr)),
    value (_enum_windows os lower s) = inr windows ->
    exists sel',
      _populate os lower sel s = (sel', None) /\
      map row_text (map snd (items (_tree sel')))
        = map (fun w => str "  " ++ display (snd w)) windows /\
      (forall j row, nth_error (map snd (items (_tree sel'))) j = Some row ->
                     row_tag row = if Nat.even j then str "even" else str "odd") /\
      map (fun iid => _selected_hwnds sel' [iid]) (get_children (_tree sel'))
        = map (fun w => [fst w]) windows /\
      _selected_hwnds sel' (get_children (_tree sel')) = map fst windows /\
      _count_var sel' = str_of_Z (Z.of_nat (List.length windows)) ++ str " windows".
Proof.
  intros W os lower sel s windows Hw.
  rewrite populate_run, Hw. eexists. split; [reflexivity|].
  rewrite add_rows_spec by constructor.
  cbn [fst snd _tree _hwnd_map _count_var items emptied app].
  rewrite delete_children. cbn [app].
  set (a := S (last_iid (fold_left tree_delete (get_children (_tree sel)) (_tree sel)))).
  assert (Hlen : List.length (seq a (List.length windows))
                 = List.length (rows_from 0 windows))
    by (rewrite length_seq, rows_from_length; reflexivity).
  assert (Hsel : map (dict_get (combine (seq a (List.length windows)) (map fst windows)))
                     (seq a (List.length windows)) = map Some (map fst windows)).
  { pose proof (dict_get_consecutive (V := HWND) [] a (map fst windows)) as H.
    rewrite length_map in H. apply H. constructor. }
  unfold get_children. cbn [items].
  rewrite map_snd_combine, map_fst_combine by exact Hlen.
  split; [apply rows_from_text|].
  split; [intros j row Hj; exact (rows_from_tag 0 windows j row Hj)|].
  split; [|split; [|reflexivity]].
  - unfold _selected_hwnds. cbn [_hwnd_map flat_map].
    revert Hsel. generalize (combine (seq a (List.length windows)) (map fst windows)).
    generalize (seq a (List.length windows)).
    clear. intros ids. revert windows.
    induction ids as [|iid ids IH]; intros [|w ws] d H; try discriminate; [reflexivity|].
    cbn [map] in H |- *. injection H as H1 H2. rewrite H1. cbn [app].
    f_equal. exact (IH ws d H2).
  - unfold _selected_hwnds. cbn [_hwnd_map].
    revert Hsel. generalize (combine (seq a (List.length windows)) (map fst windows)).
    generalize (seq a (List.length windows)).
    clear. intros ids. revert windows.
    induction ids as [|iid ids IH]; intros [|w ws] d H; try discriminate; [reflexivity|].
    cbn [map flat_map] in H |- *. injection H as H1 H2. rewrite H1. cbn [app].
    f_equal. exact (IH ws d H2).
Qed.

Lemma populate_lists_windows_witness :
  value (_enum_windows Desktop.os ascii_lower Scenes.crowded)
    = inr [(4, str "Alpha"); (3, str "beta"); (9, str "Calc")] /\
  exists sel',
    _populate Desktop.os ascii_lower MoreScenes.used_selector Scenes.crowded
      = (sel', None) /\
    map row_text (map snd (items (_tree sel')))
      = map (fun w => str "  " ++ display (snd w))
            [(4, str "Alpha"); (3, str "beta"); (9, str "Calc")] /\
    (forall j row, nth_error (map snd (items (_tree sel'))) j = Some row ->
                   row_tag row = if Nat.even j then str "even" else str "odd") /\
    map (fun iid => _selected_hwnds sel' [iid]) (get_children (_tree sel'))
      = map (fun w => [fst w]) [(4, str "Alpha"); (3, str "beta"); (9, str "Calc")] /\
    _selected_hwnds sel' (get_children (_tree sel'))
      = map fst [(4, str "Alpha"); (3, str "beta"); (9, str "Calc")] /\
    _count_var sel'
      = str_of_Z (Z.of_nat (List.length [(4, str "Alpha"); (3, str "beta"); (9, str "Calc")]))
        ++ str " windows".
Proof.
  assert (H : value (_enum_windows Desktop.os ascii_lower Scenes.crowded)
              = inr [(4, str "Alpha"); (3, str "beta"); (9, str "Calc")])
    by (vm_compute; reflexivity).
  split; [exact H|].
  exact (populate_lists_windows _ Desktop.os ascii_lower MoreScenes.used_selector
           Scenes.crowded _ H).
Defined.
(* ------------------------------------------------------------------ *)
(** ** Enumerating and refreshing never write *)

#[export] Hint Extern 1 (filter_query _ _ = true) =>
  cbn [filter_query]; rewrite ?Z.eqb_refl; reflexivity : probes.

Section EnumReads.
Context {W : Type} (os : Win32 W) (lower : pystr -> pystr).

(** The filter returns or raises; either way it has only asked about
    its window and left the platform alone. *)
Lemma is_real_app_window_reads h pid s :
  exists r t,
    _is_real_app_window os h pid s = (r, s, t) /\ reads (filter_query h) s t.
Proof.
  unfold _is_real_app_window.
  cbv beta iota zeta delta [try_except bind ret query value final history fst snd app].
  repeat (step_core; cbv beta iota zeta delta [fst snd app]).
  all: do 2 eexists; (split; [reflexivity | auto 10 with probes]).
Qed.

Lemma enum_cb_reads hwnds pid results s :
  exists r t,
    _enum_cb os hwnds pid results s = (r, s, t) /\
    Forall (fun x => snd x = s /\
                     exists h, In h hwnds /\ filter_query h (fst x) = true) t.
Proof.
  revert results. induction hwnds as [|h hs IH]; intros results.
  - do 2 eexists. split; [reflexivity|constructor].
  - cbn [_enum_cb]. rewrite bind_eq.
    destruct (is_real_app_window_reads h pid s) as (r1 & t1 & -> & R1).
    assert (H1 : Forall (fun x => snd x = s /\
                   exists h', In h' (h :: hs) /\ filter_query h' (fst x) = true) t1).
    { eapply Forall_impl; [|exact R1]. intros x [Hs Hq]. split; [exact Hs|].
      exists h. split; [left; reflexivity|exact Hq]. }
    assert (Hstep : forall rs, exists r t,
              _enum_cb os hs pid rs s = (r, s, t) /\
              Forall (fun x => snd x = s /\
                   exists h', In h' (h :: hs) /\ filter_query h' (fst x) = true) t).
    { intros rs. destruct (IH rs) as (r & t & E & F). exists r, t. split; [exact E|].
      eapply Forall_impl; [|exact F]. intros x [Hs (h' & Hin & Hq)].
      split; [exact Hs|]. exists h'. split; [right; exact Hin|exact Hq]. }
    destruct r1 as [e|[|]].
    + do 2 eexists. split; [reflexivity|exact H1].
    + rewrite bind_eq. unfold query.
      destruct (GetWindowText os s h) as [e|title].
      * do 2 eexists. split; [reflexivity|].
        apply Forall_app. split; [exact H1|].
        repeat constructor. exists h. split; [left; reflexivity|].
        cbn. apply Z.eqb_refl.
      * destruct (Hstep (results ++ [(h, title)])) as (r & t & -> & F).
        do 2 eexists. split; [reflexivity|].
        apply Forall_app. split; [exact H1|].
        constructor; [|exact F]. split; [reflexivity|].
        exists h. split; [left; reflexivity|]. cbn. apply Z.eqb_refl.
    + destruct (Hstep results) as (r & t & -> & F).
      do 2 eexists. split; [reflexivity|].
      apply Forall_app. split; assumption.
Qed.

Lemma enum_windows_reads s :
  exists r t,
    _enum_windows os lower s = (r, s, t) /\
    Forall (fun x => snd x = s /\
                     (fst x = EvGetpid \/ fst x = EvEnumWindows \/
                      exists h, In h (EnumWindows os s) /\
                                filter_query h (fst x) = true)) t.
Proof.
  unfold _enum_windows. rewrite bind_eq. unfold query at 1. cbv beta iota.
  rewrite bind_eq. unfold query at 1. cbv beta iota. rewrite bind_eq.
  destruct (enum_cb_reads (EnumWindows os s) (getpid os s) [] s) as (r & t & -> & F).
  assert (F' : Forall (fun x => snd x = s /\
                     (fst x = EvGetpid \/ fst x = EvEnumWindows \/
                      exists h, In h (EnumWindows os s) /\
                                filter_query h (fst x) = true)) t).
  { eapply Forall_impl; [|exact F]. intros x [Hs Hq]. split; [exact Hs|].
    right. right. exact Hq. }
  destruct r as [e|results]; cbn [ret app]; do 2 eexists; (split; [reflexivity|]).
  - constructor; [split; [reflexivity|left; reflexivity]|].
    constructor; [split; [reflexivity|right; left; reflexivity]|]. exact F'.
  - constructor; [split; [reflexivity|left; reflexivity]|].
    constructor; [split; [reflexivity|right; left; reflexivity]|].
    rewrite app_nil_r. exact F'.
Qed.
End EnumReads.

(** X21.  Whether it returns or raises, [_enum_windows] leaves the
    platform as it is; besides the process id and the enumeration it
    only asks the filter's questions, and only about enumerated
    windows. *)
Theorem enumeration_only_reads :
  forall (W : Type) (os : Win32 W) (lower : pystr -> pystr) (s : W),
    final (_enum_windows os lower s) = s /\
    Forall (fun x => snd x = s /\
                     (fst x = EvGetpid \/ fst x = EvEnumWindows \/
                      exists h, In h (EnumWindows os s) /\
                                filter_query h (fst x) = true))
           (history (_enum_windows os lower s)).
Proof.
  intros W os lower s.
  destruct (enum_windows_reads os lower s) as (r & t & -> & F).
  split; [reflexivity|exact F].
Qed.

Section Stale.
Lemma dict_get_below {V : Type} a n (vs : list V) k :
  (k < a)%nat -> dict_get (combine (seq a n) vs) k = None.
Proof.
  revert a vs. induction n as [|n IH]; intros a vs Hk; [reflexivity|].
  destruct vs as [|v vs]; [reflexivity|].
  cbn [seq combine dict_get].
  destruct (Nat.eqb_spec a k); [lia|]. apply IH. lia.
Qed.

End Stale.

(** X22.  [_populate] always leaves the size label on its placeholder,
    an empty status and the Resize button disabled, with the handle map
    keyed by exactly the rows of the list.  Item ids are never reused:
    what was selected before the refresh selects nothing after it.
    When the enumeration raises, so does [_populate], and the list
    stays empty, under the count it showed before. *)
Theorem populate_resets_the_selector :
  forall (W : Type) (os : Win32 W) (lower : pystr -> pystr) (sel : Selector) (s : W),
  exists sel',
    _populate os lower sel s = (sel', raised (value (_enum_windows os lower s))) /\
    size_var (widgets sel') = str "- select a window -" /\
    status_var (widgets sel') = [] /\
    resize_btn_enabled (widgets sel') = false /\
    map fst (_hwnd_map sel') = get_children (_tree sel') /\
    NoDup (get_children (_tree sel')) /\
    (forall stale, Forall (fun iid => iid <= last_iid (_tree sel))%nat stale ->
                   _selected_hwnds sel' stale = []) /\
    (raised (value (_enum_windows os lower s)) <> None ->
     items (_tree sel') = [] /\ _count_var sel' = _count_var sel).
Proof.
  intros W os lower sel s.
  rewrite populate_run.
  destruct (value (_enum_windows os lower s)) as [e|windows]; eexists;
    (split; [reflexivity|]).
  - cbn [fst widgets emptied size_var status_var resize_btn_enabled _hwnd_map _tree
         _count_var map raised].
    pose proof (delete_children (_tree sel)) as Hd.
    unfold get_children in *. rewrite Hd.
    do 4 (split; [reflexivity|]).
    split; [constructor|]. split; [|intros _; split; reflexivity].
    intros stale _. unfold _selected_hwnds. cbn [_hwnd_map dict_get].
    induction stale; [reflexivity|assumption].
  - rewrite add_rows_spec by constructor.
    cbn [fst snd widgets emptied size_var status_var resize_btn_enabled _hwnd_map _tree
         _count_var items raised app].
    rewrite delete_children. cbn [app].
    destruct (fold_delete_items (get_children (_tree sel)) (_tree sel)) as [_ ->].
    unfold get_children at 1 2. cbn [items].
    rewrite !map_fst_combine
      by (rewrite length_seq, ?rows_from_length, ?length_map; reflexivity).
    do 4 (split; [reflexivity|]).
    split; [apply seq_NoDup|]. split.
    + intros stale Hst. unfold _selected_hwnds. cbn [_hwnd_map].
      induction Hst as [|iid stale Hi _ IH]; [reflexivity|].
      cbn [flat_map]. rewrite dict_get_below by lia. exact IH.
    + intros H. contradiction.
Qed.
(* ------------------------------------------------------------------ *)
(** ** The log panel *)

Section LogPanelFacts.

Lemma lines_since_clear_snoc evs ev :
  lines_since_clear (evs ++ [ev]) =
    match ev with
    | ClickClear => []
    | Logged text => lines_since_clear evs ++ [text]
    | ClickToggle => lines_since_clear evs
    end.
Proof.
  induction evs as [|ev' evs IH].
  - destruct ev; reflexivity.
  - cbn [app lines_since_clear]. rewrite existsb_app. cbn [existsb]. rewrite IH.
    destruct ev; cbn [is_clear]; rewrite ?orb_false_r, ?orb_true_r.
    + reflexivity.
    + reflexivity.
    + destruct (existsb is_clear evs); [reflexivity|].
      destruct ev'; reflexivity.
Qed.

Lemma toggle_consistent p : panel_consistent (_toggle_logs p).
Proof. unfold _toggle_logs, panel_consistent. destruct (_log_expanded p); repeat split. Qed.
End LogPanelFacts.

(** X23.  A click on the Logs header leaves the panel showing what its
    flag says and keeps the log text; on such a panel a second click
    undoes the first. *)
Theorem toggle_logs_twice :
  forall (p : LogPanel),
    panel_consistent (_toggle_logs p) /\
    _log_expanded (_toggle_logs p) = negb (_log_expanded p) /\
    log_text (_toggle_logs p) = log_text p /\
    (panel_consistent p -> _toggle_logs (_toggle_logs p) = p).
Proof.
  intros p. split; [apply toggle_consistent|].
  split; [unfold _toggle_logs; destruct (_log_expanded p); reflexivity|].
  split; [unfold _toggle_logs; destruct (_log_expanded p); reflexivity|].
  intros (Hb & Hc & Ht). destruct p as [ex bp cp tx lt ln].
  cbn in Hb, Hc, Ht. subst. destruct ex; reflexivity.
Qed.

(** X24.  After any clicks and logged lines on the panel [_build]
    makes, the log text is read-only and holds exactly the lines logged
    since the last Clear, each followed by a newline; the panel shows
    what its flag says, and is expanded after an odd number of clicks
    on its header. *)
Theorem log_panel_after_events :
  forall (evs : list LogEvent),
    log_text_normal (fold_left log_step evs built_panel) = false /\
    panel_consistent (fold_left log_step evs built_panel) /\
    _log_expanded (fold_left log_step evs built_panel)
      = Nat.odd (List.length (filter is_toggle evs)) /\
    log_text (fold_left log_step evs built_panel)
      = List.concat (map (fun text => text ++ [NEWLINE]) (lines_since_clear evs)).
Proof.
  intros evs. induction evs as [|ev evs IH] using rev_ind.
  - repeat split.
  - rewrite fold_left_app. cbn [fold_left].
    destruct IH as (Hn & Hc & He & Ht).
    set (p := fold_left log_step evs built_panel) in *.
    rewrite filter_app, length_app, lines_since_clear_snoc.
    destruct ev as [| |text]; cbn [log_step filter is_toggle List.length].
    + split; [unfold _toggle_logs; destruct (_log_expanded p); exact Hn|].
      split; [apply toggle_consistent|].
      split.
      * replace (List.length (filter is_toggle evs) + 1)%nat
          with (S (List.length (filter is_toggle evs))) by lia.
        rewrite Nat.odd_succ, <- Nat.negb_odd, <- He.
        unfold _toggle_logs. destruct (_log_expanded p); reflexivity.
      * unfold _toggle_logs. destruct (_log_expanded p); exact Ht.
    + rewrite Nat.add_0_r. repeat split; try apply Hc. exact He.
    + rewrite Nat.add_0_r. split; [reflexivity|].
      split; [exact Hc|]. split; [exact He|].
      cbn. rewrite Ht, map_app, concat_app. cbn. rewrite app_nil_r. reflexivity.
Qed.

(* ------------------------------------------------------------------ *)
(** ** The application icon *)

Section IconFacts.
Variable Image : Type.
Variable Files : Type.
Variable open_rgba : Files -> res Image.
Variable copy : Image -> res Image.
Variable resize : Image -> Z * Z -> res Image.

Lemma load_each_cached requests base :
  load_each Image Files open_rgba copy resize requests (Some base) =
    (map (fun r => copy_sized Image copy resize base (fst r)) requests,
     Some base, O).
Proof.
  induction requests as [|[size files] rest IH]; [reflexivity|].
  cbn [load_each _load_app_icon]. rewrite IH. reflexivity.
Qed.

Lemma load_each_uncached requests :
  let run := load_each Image Files open_rgba copy resize requests None in
  snd run = (List.length (before_first_open Image Files open_rgba requests)
             + match snd (fst run) with Some _ => 1 | None => 0 end)%nat /\
  (snd (fst run) = None <-> forallb (open_fails Image Files open_rgba) requests = true).
Proof.
  induction requests as [|[size files] rest IH]; cbv zeta in *.
  - cbn. split; [reflexivity|]. split; reflexivity.
  - cbn [load_each _load_app_icon before_first_open forallb].
    change (open_fails Image Files open_rgba (size, files))
      with (failed (open_rgba files)).
    destruct (open_rgba files) as [e|base]; cbn [failed andb].
    + destruct (load_each Image Files open_rgba copy resize rest None) as [[rs c] n].
      cbn [fst snd List.length] in *. destruct IH as [-> IH].
      split; [lia|exact IH].
    + rewrite load_each_cached. cbn [fst snd List.length].
      split; [reflexivity|]. split; discriminate.
Qed.
End IconFacts.

(** X25.  The icon file is opened only while nothing is cached.
    Starting with nothing cached, it is opened by every load up to and
    including the first that can open it, and by none after: the cache
    is filled by that load, also when the copy or the resizing that
    follows raises, and it stays empty only when no load could open
    the file.  With an image cached, no load opens the file or changes
    the cache, and each gives what copying and resizing the cached
    image give, which may be an exception.  The tray image is a copy of
    the cached image resized to 64x64. *)
Theorem icon_file_opened_until_cached :
  forall (Image Files : Type) (open_rgba : Files -> res Image)
         (copy : Image -> res Image) (resize : Image -> Z * Z -> res Image)
         (requests : list (IconSize * Files)),
    snd (load_each Image Files open_rgba copy resize requests None)
      = (List.length (before_first_open Image Files open_rgba requests)
         + match snd (fst (load_each Image Files open_rgba copy resize requests None))
           with Some _ => 1 | None => 0 end)%nat /\
    (snd (fst (load_each Image Files open_rgba copy resize requests None)) = None <->
     forallb (open_fails Image Files open_rgba) requests = true) /\
    (forall size files base,
       open_rgba files = inr base ->
       _load_app_icon Image Files open_rgba copy resize size files None
         = (copy_sized Image copy resize base size, Some base, true)) /\
    (forall base,
       load_each Image Files open_rgba copy resize requests (Some base)
         = (map (fun r => copy_sized Image copy resize base (fst r)) requests,
            Some base, O)) /\
    (forall base files,
       _make_tray_image Image Files open_rgba copy resize files (Some base)
         = (match copy base with
            | inl e => inl e
            | inr img => resize img (64, 64)
            end, Some base, false)).
Proof.
  intros Image Files open_rgba copy resize requests.
  destruct (load_each_uncached Image Files open_rgba copy resize requests) as [H1 H2].
  split; [exact H1|]. split; [exact H2|]. split; [|split].
  - intros size files base H. unfold _load_app_icon. rewrite H. reflexivity.
  - intros base. apply load_each_cached.
  - intros base files. reflexivity.
Qed.

(* ------------------------------------------------------------------ *)
(** ** The minimize button *)

Section Bits.
Lemma minimizebox_bit n : Z.testbit WS_MINIMIZEBOX n = (n =? 17).
Proof.
  change WS_MINIMIZEBOX with (2 ^ 17).
  destruct (Z.eqb_spec n 17) as [->|Hn].
  - apply Z.pow2_bits_true. lia.
  - apply Z.pow2_bits_false. congruence.
Qed.

Lemma cleared_style_bits style n :
  Z.testbit (Z.land style (Z.lnot WS_MINIMIZEBOX)) n
    = Z.testbit style n && negb (n =? 17).
Proof.
  destruct (Z.neg_nonneg_cases n) as [Hneg|Hpos].
  - rewrite !Z.testbit_neg_r by exact Hneg. reflexivity.
  - rewrite Z.land_spec, Z.lnot_spec by exact Hpos. rewrite minimizebox_bit. reflexivity.
Qed.
End Bits.

(** X26.  [_remove_minimize_button] never raises and calls nothing
    without a window.  The style it writes is the style it read with
    bit 17 ([WS_MINIMIZEBOX]) cleared and every other bit as it was,
    writing it again changes nothing, and the frame refresh that
    follows asks neither to move, nor to resize, nor to restack the
    window. *)
Theorem minimize_box_is_cleared :
  forall (W : Type) (os : Win32 W)
         (SetWindowLong : W -> HWND -> Z -> Z -> res unit * W)
         (win : option HWND) (s : W),
    (win = None -> _remove_minimize_button os SetWindowLong win s = (s, [])) /\
    Forall (fun c =>
              match c with
              | CallGetWindowLong h i => win = Some h /\ i = GWL_STYLE
              | CallSetWindowLong h i v =>
                  win = Some h /\ i = GWL_STYLE /\
                  exists style,
                    GetWindowLong os s h GWL_STYLE = inr style /\
                    Z.testbit v 17 = false /\
                    (forall n, n <> 17 -> Z.testbit v n = Z.testbit style n) /\
                    Z.land v (Z.lnot WS_MINIMIZEBOX) = v
              | CallSetWindowPos h after x y cx cy fl =>
                  win = Some h /\ after = 0 /\
                  Z.land fl SWP_NOMOVE = SWP_NOMOVE /\
                  Z.land fl SWP_NOSIZE = SWP_NOSIZE /\
                  Z.land fl SWP_NOZORDER = SWP_NOZORDER /\
                  Z.land fl SWP_FRAMECHANGED = SWP_FRAMECHANGED
              end)
           (snd (_remove_minimize_button os SetWindowLong win s)).
Proof.
  intros W os SetWindowLong win s.
  split; [intros ->; reflexivity|].
  destruct win as [hwnd|]; [|constructor].
  unfold _remove_minimize_button.
  destruct (GetWindowLong os s hwnd GWL_STYLE) as [e|style] eqn:Hs.
  - cbn [snd]. repeat constructor.
  - assert (Hset : exists style0,
              GetWindowLong os s hwnd GWL_STYLE = inr style0 /\
              Z.testbit (Z.land style (Z.lnot WS_MINIMIZEBOX)) 17 = false /\
              (forall n, n <> 17 ->
                 Z.testbit (Z.land style (Z.lnot WS_MINIMIZEBOX)) n = Z.testbit style0 n) /\
              Z.land (Z.land style (Z.lnot WS_MINIMIZEBOX)) (Z.lnot WS_MINIMIZEBOX)
                = Z.land style (Z.lnot WS_MINIMIZEBOX)).
    { exists style. split; [exact Hs|]. split; [|split].
      - rewrite cleared_style_bits. apply andb_false_r.
      - intros n Hn. rewrite cleared_style_bits.
        destruct (Z.eqb_spec n 17); [contradiction|]. apply andb_true_r.
      - rewrite <- Z.land_assoc, Z.land_diag. reflexivity. }
    destruct (SetWindowLong s hwnd GWL_STYLE (Z.land style (Z.lnot WS_MINIMIZEBOX)))
      as [[e|u] s1]; cbn [snd].
    + constructor; [split; reflexivity|].
      constructor; [|constructor].
      split; [reflexivity|]. split; [reflexivity|exact Hset].
    + constructor; [split; reflexivity|].
      constructor; [split; [reflexivity|split; [reflexivity|exact Hset]]|].
      constructor; [|constructor]. repeat split.
Qed.
